(** * COVID-19 vaccination ETL: a shallow embedding of [covid19_vacc.py]

    The pipeline object [VaccinationDataETL] has three stages,
    [extract], [transform] and [load], run in order by
    [run_etl_pipeline].  The stages mutate the fields of the object,
    print to the console, talk to an HTTP server and write an SQLite
    file.  The embedding keeps all of that explicit:

    - a numeric cell is a binary64 value (Rocq's primitive floats), with
      NaN as the missing marker, an integer or a boolean; a column has
      the dtype that [read_csv] infers from its values: float64, a
      64-bit integer type, bool, or a column of Python objects, and
      arithmetic follows the dtype;
    - a [DataFrame] is an index plus named columns; DataFrames live in a
      heap of objects and the fields [raw_data] and [processed_data] hold
      references, so that in-place updates and copies are visible;
    - a stage is a computation in a state, output and exception monad [M];
    - the HTTP server, the CSV and date parsers and the clock are given
      by an environment [Env]; the SQLite file is a map of tables and
      indexes with the documented behaviour of the statements used;
    - a run yields its result, the final state and the list of the
      events it caused, console output included. *)

From Stdlib Require Import ZArith Floats Lia Ascii String.
From stdpp Require Import base option list strings gmap.

(** * binary64 arithmetic used by the transform stage *)

Module Float64.
#[local] Open Scope float_scope.

Definition two52 : float := 0x1p52.

(** [rint]: round to the nearest integer, ties to even.  Below 2^52 in
    magnitude, adding and subtracting 2^52 does this in round-to-nearest
    binary64 arithmetic; from 2^52 on every value is an integer already.
    NaN and the infinities are returned unchanged. *)
Definition rint (x : float) : float :=
  if abs x <? two52 then
    let r := (abs x + two52) - two52 in
    if get_sign x then - r else r
  else x.

Fixpoint power_of_ten (decimals : nat) : float :=
  match decimals with
  | O => 1
  | S d => 10 * power_of_ten d
  end.

(** [Series.round(decimals)] on a float64 column is numpy's [around]:
    scale by 10^decimals, [rint], scale back. *)
Definition np_round (decimals : nat) (x : float) : float :=
  let f := power_of_ten decimals in
  rint (x * f) / f.

(** The binary64 value nearest to an integer (ties to even), infinite
    when the integer is beyond the range: the conversion that numpy
    applies to an integer column before a division, and Python to an
    int that meets a float. *)
Definition of_Z (z : Z) : float :=
  SF2Prim (binary_normalize FloatOps.prec FloatOps.emax z 0 false).

End Float64.

Export Float64.

(** * Exceptions *)

Inductive exn :=
| KeyError (keys : list string)
| TypeError
| DateParseError (text : string)
| OutOfBoundsDatetime
| ConnectionError
| HTTPError (status : nat)
| ParserError
| OperationalError (reason : string)
| ReferenceError
| ZeroDivisionError
| OverflowError
| NotImplementedError.

Inductive outcome (A : Type) :=
| Ok (a : A)
| Raise (e : exn).
Arguments Ok {A} a.
Arguments Raise {A} e.

(** * Python: the arithmetic of numbers held as objects *)

(** A number as Python has it: a float or an int of any size. *)
Inductive number :=
| Float (x : float)
| Int (z : Z).
Arguments Float x%_float_scope.

Definition as_float (n : number) : float :=
  match n with
  | Float x => x
  | Int z => of_Z z
  end.

Module Python.
#[local] Open Scope float_scope.

Definition exact (z : Z) : spec_float :=
  match z with
  | Z0 => S754_zero false
  | Zpos p => S754_finite false p 0
  | Zneg p => S754_finite true p 0
  end.

(** [a / b] on two ints: the quotient of the integers, rounded once. *)
Definition int_truediv (a b : Z) : float :=
  SF2Prim (SFdiv FloatOps.prec FloatOps.emax (exact a) (exact b)).

(** The float of a number; an int that is too large has none. *)
Definition to_double (n : number) : outcome float :=
  match n with
  | Float x => Ok x
  | Int z => if is_infinity (of_Z z) then Raise OverflowError else Ok (of_Z z)
  end.

(** [a / b]: when a float is involved both operands are taken as
    floats, the left one first; a zero divisor is an error, also for
    floats; the quotient of two ints that is too large is an error. *)
Definition truediv (a b : number) : outcome float :=
  match a, b with
  | Int a, Int b =>
      if (b =? 0)%Z then Raise ZeroDivisionError
      else if is_infinity (int_truediv a b) then Raise OverflowError
      else Ok (int_truediv a b)
  | _, _ =>
      match to_double a with
      | Raise e => Raise e
      | Ok x =>
          match to_double b with
          | Raise e => Raise e
          | Ok y =>
              if is_zero y then Raise ZeroDivisionError else Ok (x / y)
          end
      end
  end.

Definition round_half_even (num den : Z) : Z :=
  let q := (num / den)%Z in
  let r := (num mod den)%Z in
  match (2 * r ?= den)%Z with
  | Lt => q
  | Gt => (q + 1)%Z
  | Eq => if Z.even q then q else (q + 1)%Z
  end.

(** [round(x, ndigits)] on a float: the multiple of 10^-ndigits
    nearest to the exact value of [x], ties to even, then the float
    nearest to that decimal; NaN and the infinities round to
    themselves. *)
Definition round (ndigits : nat) (x : float) : float :=
  match Prim2SF x with
  | S754_finite s m e =>
      let f := (10 ^ Z.of_nat ndigits)%Z in
      let n := match e with
               | Zneg _ => round_half_even (Zpos m * f) (2 ^ (- e))
               | _ => (Zpos m * f * 2 ^ e)%Z
               end in
      match n with
      | Zpos p =>
          SF2Prim (SFdiv FloatOps.prec FloatOps.emax
                     (S754_finite s p 0) (exact f))
      | _ => SF2Prim (S754_zero s)
      end
  | _ => x
  end.

End Python.

(** * pandas: cells, columns and DataFrames *)

(** The values that [read_csv] and [to_datetime] put in a column: text,
    a float (NaN where the field was empty), an integer, a boolean, a
    timestamp, NaT. *)
Inductive cell :=
| CStr (s : string)
| CNum (x : float)
| CInt (n : Z)
| CBool (b : bool)
| CTime (t : Z)
| CNaT.
Arguments CNum x%_float_scope.

(** [pd.isna]: NaN and NaT are the missing values. *)
Definition isna (c : cell) : bool :=
  match c with
  | CNum x => is_nan x
  | CNaT => true
  | CStr _ | CInt _ | CBool _ | CTime _ => false
  end.

Definition notna (c : cell) : bool := negb (isna c).

(** A table: the labels of its rows and its columns by name, in
    order.  In a DataFrame that pandas builds every column is as long
    as the index. *)
Record DataFrame := mkDataFrame {
  index : list nat;
  data : list (string * list cell)
}.

Definition columns (df : DataFrame) : list string := map fst (data df).

Definition len (df : DataFrame) : nat := length (index df).

Fixpoint get_column (name : string) (d : list (string * list cell))
  : option (list cell) :=
  match d with
  | [] => None
  | (n, c) :: d' => if String.eqb n name then Some c else get_column name d'
  end.

(** [df[name] = col]: replaces the column when it exists, appends it
    otherwise. *)
Fixpoint set_column (name : string) (col : list cell)
  (d : list (string * list cell)) : list (string * list cell) :=
  match d with
  | [] => [(name, col)]
  | (n, c) :: d' =>
      if String.eqb n name then (name, col) :: d'
      else (n, c) :: set_column name col d'
  end.

Definition getitem (name : string) (df : DataFrame) : outcome (list cell) :=
  match get_column name (data df) with
  | Some c => Ok c
  | None => Raise (KeyError [name])
  end.

Definition setitem (name : string) (col : list cell) (df : DataFrame)
  : DataFrame :=
  {| index := index df; data := set_column name col (data df) |}.

Definition has_column (df : DataFrame) (name : string) : bool :=
  match get_column name (data df) with Some _ => true | None => false end.

Definition missing_columns (names : list string) (df : DataFrame)
  : list string :=
  List.filter (fun n => negb (has_column df n)) names.

Fixpoint take_columns (names : list string) (d : list (string * list cell))
  : option (list (string * list cell)) :=
  match names with
  | [] => Some []
  | n :: ns =>
      match get_column n d, take_columns ns d with
      | Some c, Some r => Some ((n, c) :: r)
      | _, _ => None
      end
  end.

(** [df[[names]]]: a new DataFrame with the listed columns, or a
    KeyError naming the ones that are absent. *)
Definition select (names : list string) (df : DataFrame) : outcome DataFrame :=
  match take_columns names (data df) with
  | Some d => Ok {| index := index df; data := d |}
  | None => Raise (KeyError (missing_columns names df))
  end.

(** The number in a cell.  Python's bool is an int: [True] is 1 and
    [False] is 0 in arithmetic. *)
Definition cell_number (c : cell) : option number :=
  match c with
  | CNum x => Some (Float x)
  | CInt z => Some (Int z)
  | CBool b => Some (Int (Z.b2z b))
  | _ => None
  end.

(** The numbers of a column; arithmetic on a column that holds text
    or timestamps raises TypeError. *)
Fixpoint numbers (col : list cell) : outcome (list number) :=
  match col with
  | [] => Ok []
  | c :: cs =>
      match cell_number c with
      | Some n =>
          match numbers cs with
          | Ok r => Ok (n :: r)
          | Raise e => Raise e
          end
      | None => Raise TypeError
      end
  end.

Definition is_float (c : cell) : bool :=
  match c with CNum _ => true | _ => false end.

Definition in_int64 (c : cell) : bool :=
  match c with
  | CInt z => (- 2 ^ 63 <=? z)%Z && (z <? 2 ^ 63)%Z
  | _ => false
  end.

Definition in_uint64 (c : cell) : bool :=
  match c with
  | CInt z => (0 <=? z)%Z && (z <? 2 ^ 64)%Z
  | _ => false
  end.

Definition is_bool (c : cell) : bool :=
  match c with CBool _ => true | _ => false end.

(** The dtype of a column as [read_csv] infers it: float64 when all
    values are floats, int64 or uint64 when all are integers that fit,
    bool when all are booleans; any other column holds its values as
    Python objects. *)
Definition numeric_dtype (col : list cell) : bool :=
  forallb is_float col || forallb in_int64 col || forallb in_uint64 col.

Definition bool_dtype (col : list cell) : bool :=
  match col with
  | [] => false
  | _ => forallb is_bool col
  end.

(** The columns that numpy holds as arrays of machine numbers. *)
Definition numpy_dtype (col : list cell) : bool :=
  numeric_dtype col || bool_dtype col.

(** The result of an arithmetic operation on columns: a float64 column,
    or a column of Python floats. *)
Inductive series :=
| Float64 (values : list float)
| Objects (values : list float).

Definition values (q : series) : list float :=
  match q with Float64 v | Objects v => v end.

Definition series_div (a b : list float) : list float :=
  zip_with PrimFloat.div a b.

Definition series_mul (a : list float) (k : float) : list float :=
  map (fun x => PrimFloat.mul x k) a.

Definition series_round (decimals : nat) (a : list float) : list float :=
  map (np_round decimals) a.

(** The division of a column of objects, element by element in
    order; the first element that fails ends it. *)
Fixpoint object_div (a b : list number) : outcome (list float) :=
  match a, b with
  | x :: a', y :: b' =>
      match Python.truediv x y with
      | Ok q =>
          match object_div a' b' with
          | Ok r => Ok (q :: r)
          | Raise e => Raise e
          end
      | Raise e => Raise e
      end
  | _, _ => Ok []
  end.

Module Series.

(** [a / b]: pandas refuses to divide two bool columns; numpy divides
    two columns of machine numbers as float64 columns and raises
    nothing, integers and booleans being converted first; when a column
    holds objects, Python divides element by element. *)
Definition truediv (a b : list cell) : outcome series :=
  match numbers a with
  | Raise e => Raise e
  | Ok x =>
      match numbers b with
      | Raise e => Raise e
      | Ok y =>
          if bool_dtype a && bool_dtype b then Raise NotImplementedError
          else if numpy_dtype a && numpy_dtype b
          then Ok (Float64 (series_div (map as_float x) (map as_float y)))
          else match object_div x y with
               | Ok q => Ok (Objects q)
               | Raise e => Raise e
               end
      end
  end.

(** [q * k] for a number [k]. *)
Definition mul (q : series) (k : float) : series :=
  match q with
  | Float64 v => Float64 (series_mul v k)
  | Objects v => Objects (series_mul v k)
  end.

(** [q.round(decimals)]: numpy's [around] on a float64 column,
    Python's [round] on every element of a column of objects. *)
Definition round (decimals : nat) (q : series) : series :=
  match q with
  | Float64 v => Float64 (series_round decimals v)
  | Objects v => Objects (map (Python.round decimals) v)
  end.

End Series.

(** [(fully / population * 100).round(2)] *)
Definition rate_column (fully population : list cell) : outcome (list float) :=
  match Series.truediv fully population with
  | Ok q => Ok (values (Series.round 2 (Series.mul q 100%float)))
  | Raise e => Raise e
  end.

Definition fill_value (v : cell) (c : cell) : cell :=
  if isna c then v else c.

Fixpoint dict_get (name : string) (d : list (string * cell)) : option cell :=
  match d with
  | [] => None
  | (n, v) :: d' => if String.eqb n name then Some v else dict_get name d'
  end.

(** [df.fillna(values)]: per column, the missing cells of a column
    listed in [values] are replaced by its fill value. *)
Definition fillna (values : list (string * cell)) (df : DataFrame)
  : DataFrame :=
  {| index := index df;
     data := map (fun nc : string * list cell =>
                    match dict_get (fst nc) values with
                    | Some v => (fst nc, map (fill_value v) (snd nc))
                    | None => nc
                    end) (data df) |}.

Fixpoint filter_mask {A : Type} (mask : list bool) (l : list A) : list A :=
  match mask, l with
  | b :: mask', x :: l' =>
      if b then x :: filter_mask mask' l' else filter_mask mask' l'
  | _, _ => []
  end.

(** [df.dropna(subset=[name])]: keeps the rows whose cell in column
    [name] is not missing. *)
Definition dropna (name : string) (df : DataFrame) : outcome DataFrame :=
  match get_column name (data df) with
  | None => Raise (KeyError [name])
  | Some col =>
      let keep := map notna col in
      Ok {| index := filter_mask keep (index df);
            data := map (fun nc : string * list cell =>
                           (fst nc, filter_mask keep (snd nc))) (data df) |}
  end.

(** The rows of a DataFrame, as [to_sql(index=False)] writes them. *)
Definition row_at (df : DataFrame) (i : nat) : list cell :=
  map (fun nc : string * list cell => nth i (snd nc) CNaT) (data df).

Definition rows (df : DataFrame) : list (list cell) :=
  map (row_at df) (seq 0 (len df)).

(** * SQLite: tables and indexes of one database file *)

Record table := mkTable {
  t_columns : list string;
  t_rows : list (list cell)
}.

Record index_def := mkIndex {
  on_table : string;
  on_columns : list string
}.

Record database := mkDatabase {
  tables : gmap string table;
  indexes : gmap string index_def
}.

Definition empty_db : database := {| tables := ∅; indexes := ∅ |}.

Definition keeps_index (t : string) (ix : string * index_def) : Prop :=
  on_table ix.2 ≠ t.

#[global] Instance keeps_index_dec t ix : Decision (keeps_index t ix).
Proof. unfold keeps_index. apply _. Defined.

(** DROP TABLE removes the table and the indexes defined on it. *)
Definition drop_table (t : string) (db : database) : database :=
  {| tables := delete t (tables db);
     indexes := filter (keeps_index t) (indexes db) |}.

(** The table that holds the rows of [df]. *)
Definition table_of (df : DataFrame) : table :=
  {| t_columns := columns df; t_rows := rows df |}.

(** The same table before its rows are inserted. *)
Definition empty_table_of (df : DataFrame) : table :=
  {| t_columns := columns df; t_rows := [] |}.

(** CREATE TABLE with the columns of [df]. *)
Definition create_table (t : string) (df : DataFrame) (db : database)
  : outcome database :=
  match tables db !! t, indexes db !! t with
  | None, None =>
      Ok {| tables := <[t := empty_table_of df]> (tables db);
            indexes := indexes db |}
  | _, _ => Raise (OperationalError "name already in use")
  end.

(** What sqlite3 can bind to a parameter of the INSERT: an integer
    must fit 64 bits with sign. *)
Definition storable (c : cell) : bool :=
  match c with
  | CInt z => (- 2 ^ 63 <=? z)%Z && (z <? 2 ^ 63)%Z
  | _ => true
  end.

Definition insertable (df : DataFrame) : bool :=
  forallb (fun nc : string * list cell => forallb storable (snd nc)) (data df).

(** The INSERT of every row, in one transaction: all rows or none. *)
Definition insert_rows (t : string) (df : DataFrame) (db : database)
  : outcome database :=
  if insertable df
  then Ok {| tables := <[t := table_of df]> (tables db);
             indexes := indexes db |}
  else Raise OverflowError.

(** CREATE INDEX name ON t (cols). *)
Definition create_index (name t : string) (cols : list string) (db : database)
  : outcome database :=
  match indexes db !! name, tables db !! name with
  | None, None =>
      match tables db !! t with
      | None => Raise (OperationalError "no such table")
      | Some tb =>
          if forallb (fun c => existsb (String.eqb c) (t_columns tb)) cols
          then Ok {| tables := tables db;
                     indexes := <[name := {| on_table := t; on_columns := cols |}]>
                                  (indexes db) |}
          else Raise (OperationalError "no such column")
      end
  | _, _ => Raise (OperationalError "name already in use")
  end.

(** [to_sql(..., if_exists='replace')] begins with this: an existing
    table is dropped, then the table is created. *)
Definition replace_table (t : string) (df : DataFrame) (db : database)
  : outcome database :=
  create_table t df
    (match tables db !! t with
     | Some _ => drop_table t db
     | None => db
     end).

(** * The world of a run *)

Record response := mkResponse {
  status_code : nat;
  text : string
}.

Definition success_status (code : nat) : bool :=
  (200 <=? code)%nat && (code <? 300)%nat.

Definition error_status (code : nat) : bool :=
  (400 <=? code)%nat && (code <? 600)%nat.

(** What the program cannot decide: the answer of the server to the
    n-th request, the parsers of pandas, the clock, and whether a
    database file can be opened.  A date parser answers with a
    timestamp, with no timestamp (NaT), or not at all (it raises). *)
Record Env := mkEnv {
  server : nat -> string -> option response;
  parse_csv : string -> option DataFrame;
  parse_date : string -> option (option Z);
  date_of_number : float -> option (option Z);
  date_of_integer : Z -> option (option Z);
  clock : nat -> Z;
  can_open : string -> bool
}.

(** The methods of the class, to record which of them were called. *)
Inductive method := Extract | Transform | Load | RunEtlPipeline.

(** What [print] writes, one constructor per format string. *)

Inductive message :=
| ExtractedRecords (n : nat)
| ExtractionError (e : exn)
| NoDataToTransform
| AvailableColumns (names : list string)
| MissingColumn (e : exn)
| CheckColumnName
| TransformedRecords (n : nat)
| NoProcessedData
| DataLoaded (db_path : string)
| LoadingError (e : exn)
| PipelineStarting
| PipelineCompleted (duration : Z).

(** What a run does that can be observed from outside, in order:
    console output, requests, clock reads, database statements.
    [Call m] marks the entry into method [m]; it is bookkeeping of the
    embedding, the first thing each method does here and nothing the
    program prints. *)
Inductive event :=
| Call (m : method)
| Print (msg : message)
| HttpGet (url : string)
| CsvGet (url : string)
| ClockRead
| DbConnect (db_path : string)
| DbReplaceTable (db_path t : string) (nrows : nat)
| DbCreateIndex (db_path name : string)
| DbClose (db_path : string).

(** The fields of a [VaccinationDataETL] object, the heap of DataFrame
    objects they refer to, and the state of the outside world. *)
Record state := mkState {
  url : string;
  raw_data : option nat;
  processed_data : option nat;
  heap : gmap nat DataFrame;
  requests_made : nat;
  clock_reads : nat;
  disk : gmap string database
}.

Definition set_raw_data (r : option nat) (s : state) : state :=
  {| url := url s; raw_data := r; processed_data := processed_data s;
     heap := heap s; requests_made := requests_made s;
     clock_reads := clock_reads s; disk := disk s |}.

Definition set_processed_data (r : option nat) (s : state) : state :=
  {| url := url s; raw_data := raw_data s; processed_data := r;
     heap := heap s; requests_made := requests_made s;
     clock_reads := clock_reads s; disk := disk s |}.

Definition set_heap (h : gmap nat DataFrame) (s : state) : state :=
  {| url := url s; raw_data := raw_data s; processed_data := processed_data s;
     heap := h; requests_made := requests_made s;
     clock_reads := clock_reads s; disk := disk s |}.

Definition set_requests_made (n : nat) (s : state) : state :=
  {| url := url s; raw_data := raw_data s; processed_data := processed_data s;
     heap := heap s; requests_made := n;
     clock_reads := clock_reads s; disk := disk s |}.

Definition set_clock_reads (n : nat) (s : state) : state :=
  {| url := url s; raw_data := raw_data s; processed_data := processed_data s;
     heap := heap s; requests_made := requests_made s;
     clock_reads := n; disk := disk s |}.

Definition set_disk (d : gmap string database) (s : state) : state :=
  {| url := url s; raw_data := raw_data s; processed_data := processed_data s;
     heap := heap s; requests_made := requests_made s;
     clock_reads := clock_reads s; disk := d |}.

(** [VaccinationDataETL(url)] *)
Definition init (u : string) (s : state) : state :=
  {| url := u; raw_data := None; processed_data := None;
     heap := heap s; requests_made := requests_made s;
     clock_reads := clock_reads s; disk := disk s |}.

(** * The monad of the stages: state, console and effects, exceptions *)

Definition M (A : Type) : Type := state -> outcome A * state * list event.

Definition ret {A} (a : A) : M A := fun s => (Ok a, s, []).

Definition bind {A B} (m : M A) (k : A -> M B) : M B :=
  fun s =>
    match m s with
    | (Ok a, s1, t1) =>
        match k a s1 with
        | (r, s2, t2) => (r, s2, t1 ++ t2)
        end
    | (Raise e, s1, t1) => (Raise e, s1, t1)
    end.

Definition raise {A} (e : exn) : M A := fun s => (Raise e, s, []).

(** [try: m  except <handled> as e: handler e].  An exception leaves the
    state and the output as they were when it was raised. *)
Definition try_except {A} (m : M A) (handled : exn -> bool)
  (handler : exn -> M A) : M A :=
  fun s =>
    match m s with
    | (Ok a, s1, t1) => (Ok a, s1, t1)
    | (Raise e, s1, t1) =>
        if handled e then
          match handler e s1 with
          | (r, s2, t2) => (r, s2, t1 ++ t2)
          end
        else (Raise e, s1, t1)
    end.

Definition lift {A} (o : outcome A) : M A := fun s => (o, s, []).

Definition gets {A} (f : state -> A) : M A := fun s => (Ok (f s), s, []).

Definition modify (f : state -> state) : M unit := fun s => (Ok tt, f s, []).

Definition emit (e : event) : M unit := fun s => (Ok tt, s, [e]).

Definition print (msg : message) : M unit := emit (Print msg).

Declare Scope etl_scope.
Delimit Scope etl_scope with etl.
Notation "'let*' x ':=' m 'in' k" := (bind m (fun x => k))
  (at level 10, x name, m at level 100, k at level 200) : etl_scope.
Notation "m ;; k" := (bind m (fun _ => k))
  (at level 100, k at level 200, right associativity) : etl_scope.
Open Scope etl_scope.

Definition is_KeyError (e : exn) : bool :=
  match e with KeyError _ => true | _ => false end.

Definition is_Exception (e : exn) : bool := true.

(** ** Objects *)

Definition alloc (df : DataFrame) : M nat :=
  fun s =>
    let r := fresh (dom (heap s)) in
    (Ok r, set_heap (<[r := df]> (heap s)) s, []).

Definition deref (r : nat) : M DataFrame :=
  fun s =>
    match heap s !! r with
    | Some df => (Ok df, s, [])
    | None => (Raise ReferenceError, s, [])
    end.

Definition store (r : nat) (df : DataFrame) : M unit :=
  modify (fun s => set_heap (<[r := df]> (heap s)) s).

(** [self.processed_data], which must be an object by now. *)
Definition the_processed_data : M nat :=
  let* p := gets processed_data in
  match p with
  | Some r => ret r
  | None => raise TypeError
  end.

(** In-place reads and updates of [self.processed_data]. *)
Definition processed_getitem (name : string) : M (list cell) :=
  let* p := the_processed_data in
  let* df := deref p in
  lift (getitem name df).

Definition processed_setitem (name : string) (col : list cell) : M unit :=
  let* p := the_processed_data in
  let* df := deref p in
  store p (setitem name col df).

Definition processed_inplace (f : DataFrame -> outcome DataFrame) : M unit :=
  let* p := the_processed_data in
  let* df := deref p in
  let* df' := lift (f df) in
  store p df'.

(** * The pipeline *)

Definition required_columns : list string :=
  ["location"; "date"; "people_vaccinated"; "people_fully_vaccinated";
   "population"].

(** The dictionary given to [fillna].  Its value 0 is written here as
    the float 0, which is what a float64 column receives; a column of
    objects receives the int 0, the same number. *)
Definition fill_values : list (string * cell) :=
  [("people_vaccinated", CNum 0); ("people_fully_vaccinated", CNum 0);
   ("vaccination_rate", CNum 0)].

Definition default_db_path : string := "vaccination_data.db".

Definition main_url : string :=
  "https://raw.githubusercontent.com/owid/covid-19-data/master/public/data/vaccinations/vaccinations.csv".

Section Pipeline.

Variable env : Env.

(** ** The collaborators: requests, pandas I/O, datetime, sqlite3 *)

Definition fetch (ev : event) (u : string) : M response :=
  fun s =>
    let n := requests_made s in
    match server env n u with
    | Some r => (Ok r, set_requests_made (S n) s, [ev])
    | None => (Raise ConnectionError, set_requests_made (S n) s, [ev])
    end.

Definition requests_get (u : string) : M response := fetch (HttpGet u) u.

(** [Response.raise_for_status]: HTTPError for the 4xx and 5xx codes. *)
Definition raise_for_status (r : response) : M unit :=
  if error_status (status_code r)
  then raise (HTTPError (status_code r))
  else ret tt.

(** [pd.read_csv(url)] opens the URL itself, refuses a status other
    than 2xx, parses the body and returns a new DataFrame object. *)
Definition read_csv (u : string) : M nat :=
  let* r := fetch (CsvGet u) u in
  if success_status (status_code r) then
    match parse_csv env (text r) with
    | Some df => alloc df
    | None => raise ParserError
    end
  else raise (HTTPError (status_code r)).

Definition timestamp (t : option Z) : cell :=
  match t with
  | Some t => CTime t
  | None => CNaT
  end.

Definition to_datetime_cell (c : cell) : outcome cell :=
  match c with
  | CStr s =>
      match parse_date env s with
      | Some t => Ok (timestamp t)
      | None => Raise (DateParseError s)
      end
  | CNum x =>
      if is_nan x then Ok CNaT
      else match date_of_number env x with
           | Some t => Ok (timestamp t)
           | None => Raise OutOfBoundsDatetime
           end
  | CInt z =>
      match date_of_integer env z with
      | Some t => Ok (timestamp t)
      | None => Raise OutOfBoundsDatetime
      end
  | CBool _ => Raise TypeError
  | CTime t => Ok (CTime t)
  | CNaT => Ok CNaT
  end.

(** [pd.to_datetime(column)]: one unparseable value fails the column. *)
Fixpoint to_datetime (col : list cell) : outcome (list cell) :=
  match col with
  | [] => Ok []
  | c :: cs =>
      match to_datetime_cell c with
      | Ok c' =>
          match to_datetime cs with
          | Ok r => Ok (c' :: r)
          | Raise e => Raise e
          end
      | Raise e => Raise e
      end
  end.

Definition now : M Z :=
  fun s =>
    (Ok (clock env (clock_reads s)),
     set_clock_reads (S (clock_reads s)) s, [ClockRead]).

Definition database_at (db_path : string) (s : state) : database :=
  default empty_db (disk s !! db_path).

Definition connect (db_path : string) : M string :=
  emit (DbConnect db_path) ;;
  if can_open env db_path then ret db_path
  else raise (OperationalError "unable to open database file").

(** [df.to_sql(t, conn, if_exists='replace', index=False)]: the table
    is replaced, which is committed, and then filled; when a row cannot
    be inserted the new table stays, empty. *)
Definition to_sql (df : DataFrame) (t : string) (conn : string) : M unit :=
  emit (DbReplaceTable conn t (len df)) ;;
  let* db := gets (database_at conn) in
  let* db1 := lift (replace_table t df db) in
  modify (fun s => set_disk (<[conn := db1]> (disk s)) s) ;;
  let* db2 := lift (insert_rows t df db1) in
  modify (fun s => set_disk (<[conn := db2]> (disk s)) s).

Definition execute_create_index (conn name t : string) (cols : list string)
  : M unit :=
  emit (DbCreateIndex conn name) ;;
  let* db := gets (database_at conn) in
  let* db' := lift (create_index name t cols db) in
  modify (fun s => set_disk (<[conn := db']> (disk s)) s).

Definition close (conn : string) : M unit := emit (DbClose conn).

(** ** [VaccinationDataETL.extract] *)

Definition extract : M bool :=
  emit (Call Extract) ;;
  let* early := try_except
    (let* u := gets url in
     let* response := requests_get u in
     raise_for_status response ;;
     let* u := gets url in
     let* r := read_csv u in
     modify (set_raw_data (Some r)) ;;
     let* df := deref r in
     print (ExtractedRecords (len df)) ;;
     ret None)
    is_Exception
    (fun e => print (ExtractionError e) ;; ret (Some false)) in
  match early with
  | Some b => ret b
  | None => ret true
  end.

(** ** [VaccinationDataETL.transform] *)

Definition transform : M bool :=
  emit (Call Transform) ;;
  let* raw := gets raw_data in
  match raw with
  | None => print NoDataToTransform ;; ret false
  | Some r =>
      let* df := deref r in
      print (AvailableColumns (columns df)) ;;
      let* early := try_except
        (let* df := deref r in
         let* selected := lift (select required_columns df) in
         let* tmp := alloc selected in
         let* selected := deref tmp in
         let* copy := alloc selected in
         modify (set_processed_data (Some copy)) ;;
         ret None)
        is_KeyError
        (fun e =>
           print (MissingColumn e) ;;
           print CheckColumnName ;;
           ret (Some false)) in
      match early with
      | Some b => ret b
      | None =>
          let* dates := processed_getitem "date" in
          let* parsed := lift (to_datetime dates) in
          processed_setitem "date" parsed ;;
          let* fully := processed_getitem "people_fully_vaccinated" in
          let* population := processed_getitem "population" in
          let* quotient := lift (Series.truediv fully population) in
          processed_setitem "vaccination_rate"
            (map CNum
               (values (Series.round 2 (Series.mul quotient 100%float)))) ;;
          processed_inplace (fun df => Ok (fillna fill_values df)) ;;
          processed_inplace (dropna "location") ;;
          let* p := the_processed_data in
          let* df := deref p in
          print (TransformedRecords (len df)) ;;
          ret true
      end
  end.

(** ** [VaccinationDataETL.load] *)

Definition load (db_path : string) : M bool :=
  emit (Call Load) ;;
  let* processed := gets processed_data in
  match processed with
  | None => print NoProcessedData ;; ret false
  | Some _ =>
      let* early := try_except
        (let* conn := connect db_path in
         let* p := the_processed_data in
         let* df := deref p in
         to_sql df "vaccination_data" conn ;;
         execute_create_index conn "idx_location_date" "vaccination_data"
           ["location"; "date"] ;;
         close conn ;;
         print (DataLoaded db_path) ;;
         ret None)
        is_Exception
        (fun e => print (LoadingError e) ;; ret (Some false)) in
      match early with
      | Some b => ret b
      | None => ret true
      end
  end.

(** ** [VaccinationDataETL.run_etl_pipeline] *)

Definition run_etl_pipeline : M bool :=
  emit (Call RunEtlPipeline) ;;
  print PipelineStarting ;;
  let* start_time := now in
  let* extract_success := extract in
  if negb extract_success then ret false
  else
    let* transform_success := transform in
    if negb transform_success then ret false
    else
      let* load_success := load default_db_path in
      let* end_time := now in
      print (PipelineCompleted (end_time - start_time)) ;;
      ret load_success.

Definition main : M unit :=
  modify (init main_url) ;;
  run_etl_pipeline ;;
  ret tt.

End Pipeline.

(** * Sample data: a small server, parsers and datasets *)

Definition digit_value (a : ascii) : option Z :=
  let n := nat_of_ascii a in
  if (48 <=? n)%nat && (n <=? 57)%nat then Some (Z.of_nat (n - 48)) else None.

Fixpoint digits_value (l : list ascii) (acc : Z) : option Z :=
  match l with
  | [] => Some acc
  | a :: l' =>
      match digit_value a with
      | Some d => digits_value l' (10 * acc + d)%Z
      | None => None
      end
  end.

(** Reads [YYYY-MM-DD] as the number YYYYMMDD and [NaT] as no date;
    anything else is unparseable. *)
Definition sample_parse_date (s : string) : option (option Z) :=
  if String.eqb s "NaT" then Some None
  else
    match list_ascii_of_string s with
    | [y1; y2; y3; y4; sep1; m1; m2; sep2; d1; d2] =>
        if Ascii.eqb sep1 "-" && Ascii.eqb sep2 "-"
        then option_map Some
               (digits_value [y1; y2; y3; y4; m1; m2; d1; d2] 0)
        else None
    | _ => None
    end.

Definition NaN : cell := CNum PrimFloat.nan.

(** Three rows: a complete one, one without counts and one without
    location; one column more than the pipeline needs. *)
Definition sample_raw : DataFrame :=
  {| index := [0; 1; 2];
     data :=
       [("location", [CStr "USA"; CStr "FRA"; NaN]);
        ("iso_code", [CStr "USA"; CStr "FRA"; CStr "XXX"]);
        ("date", [CStr "2021-01-01"; CStr "2021-01-01"; CStr "2021-01-02"]);
        ("people_vaccinated", [CNum 100; NaN; CNum 5]);
        ("people_fully_vaccinated", [CNum 50; NaN; CNum 1]);
        ("population", [CNum 1000; CNum 500; CNum 10])] |}.

(** The same without the population column. *)
Definition sample_no_population : DataFrame :=
  {| index := [0; 1];
     data :=
       [("location", [CStr "USA"; CStr "FRA"]);
        ("date", [CStr "2021-01-01"; CStr "2021-01-01"]);
        ("people_vaccinated", [CNum 100; NaN]);
        ("people_fully_vaccinated", [CNum 50; NaN])] |}.

(** A date that is no date. *)
Definition sample_bad_date : DataFrame :=
  {| index := [0; 1];
     data :=
       [("location", [CStr "USA"; CStr "FRA"]);
        ("date", [CStr "2021-01-01"; CStr "yesterday"]);
        ("people_vaccinated", [CNum 100; NaN]);
        ("people_fully_vaccinated", [CNum 50; NaN]);
        ("population", [CNum 1000; CNum 500])] |}.

(** Infinite counts, as a CSV field [inf] is read. *)
Definition sample_infinite : DataFrame :=
  {| index := [0];
     data :=
       [("location", [CStr "XXX"]);
        ("date", [CStr "2021-01-01"]);
        ("people_vaccinated", [CNum 1]);
        ("people_fully_vaccinated", [CNum PrimFloat.infinity]);
        ("population", [CNum PrimFloat.infinity])] |}.

(** Text in the people_vaccinated column. *)
Definition sample_text_count : DataFrame :=
  {| index := [0];
     data :=
       [("location", [CStr "USA"]);
        ("date", [CStr "2021-01-01"]);
        ("people_vaccinated", [CStr "many"]);
        ("people_fully_vaccinated", [CNum 50]);
        ("population", [CNum 1000])] |}.

Definition sample_parse_csv (body : string) : option DataFrame :=
  if String.eqb body "full" then Some sample_raw
  else if String.eqb body "no population" then Some sample_no_population
  else if String.eqb body "bad date" then Some sample_bad_date
  else None.

(** A server whose answer depends on the request number [n]:
    [/ok] always serves the full table, [/changing] serves a broken body
    first and the full table afterwards, [/gone] answers 404, [/moved]
    answers 304 and then the full table, other URLs do not answer. *)
Definition sample_server (n : nat) (u : string) : option response :=
  if String.eqb u "/ok" then Some {| status_code := 200; text := "full" |}
  else if String.eqb u "/changing" then
    Some {| status_code := 200;
            text := match n with O => "garbage" | _ => "full" end |}
  else if String.eqb u "/gone" then Some {| status_code := 404; text := "" |}
  else if String.eqb u "/moved" then
    Some {| status_code := match n with O => 304 | _ => 200 end;
            text := "full" |}
  else if String.eqb u "/no-population" then
    Some {| status_code := 200; text := "no population" |}
  else if String.eqb u "/bad-date" then
    Some {| status_code := 200; text := "bad date" |}
  else None.

Definition sample_env : Env :=
  {| server := sample_server;
     parse_csv := sample_parse_csv;
     parse_date := sample_parse_date;
     date_of_number := fun _ => Some None;
     date_of_integer := fun z => Some (Some z);
     clock := fun n => (1000 + 7 * Z.of_nat n)%Z;
     can_open := fun _ => true |}.

(** A new pipeline object for [u] in an empty world. *)
Definition fresh_state (u : string) : state :=
  {| url := u; raw_data := None; processed_data := None; heap := ∅;
     requests_made := 0; clock_reads := 0; disk := ∅ |}.

(** A pipeline object whose [raw_data] is [df]. *)
Definition state_with_raw (df : DataFrame) : state :=
  {| url := "/ok"; raw_data := Some 0%nat; processed_data := None;
     heap := {[ 0%nat := df ]};
     requests_made := 0; clock_reads := 0; disk := ∅ |}.

(** The DataFrame behind [self.processed_data]. *)
Definition processed_frame (s : state) : option DataFrame :=
  match processed_data s with
  | Some p => heap s !! p
  | None => None
  end.

Definition raw_frame (s : state) : option DataFrame :=
  match raw_data s with
  | Some r => heap s !! r
  | None => None
  end.

(** * Vocabulary of the statements *)

(** The cell of column [name] in row [i] (by position). *)
Definition cell_at (df : DataFrame) (name : string) (i : nat) : option cell :=
  match get_column name (data df) with
  | Some c => c !! i
  | None => None
  end.

(** The position in [l] of the [i]-th entry that [mask] keeps. *)
Fixpoint kept_position (mask : list bool) (i : nat) : option nat :=
  match mask with
  | [] => None
  | true :: mask' =>
      match i with
      | O => Some O
      | S i' => option_map S (kept_position mask' i')
      end
  | false :: mask' => option_map S (kept_position mask' i)
  end.

(** Which rows of the raw table have a location. *)
Definition location_mask (raw : DataFrame) : list bool :=
  match get_column "location" (data raw) with
  | Some c => map notna c
  | None => []
  end.

(** The row of the raw table that row [i] of the processed table was
    computed from. *)
Definition source_row (raw : DataFrame) (i : nat) : option nat :=
  kept_position (location_mask raw) i.

(** The state in which the column selection leaves the object: the
    selected frame [sel] and its copy are two new objects, and
    [processed_data] refers to the copy, which holds [df] by now. *)
Definition installed (s : state) (sel df : DataFrame) : state :=
  let tmp := fresh (dom (heap s)) in
  let h1 := <[tmp := sel]> (heap s) in
  let copy := fresh (dom h1) in
  set_processed_data (Some copy) (set_heap (<[copy := df]> h1) s).

(** What the statements of [transform] after the selection do to the
    copy, and whether they complete; the frame returned is the copy as
    the last statement that ran left it. *)
Definition process_frame (env : Env) (sel : DataFrame)
  : outcome unit * DataFrame :=
  match getitem "date" sel with
  | Raise e => (Raise e, sel)
  | Ok dates =>
  match to_datetime env dates with
  | Raise e => (Raise e, sel)
  | Ok parsed =>
  let df1 := setitem "date" parsed sel in
  match getitem "people_fully_vaccinated" df1 with
  | Raise e => (Raise e, df1)
  | Ok fully =>
  match getitem "population" df1 with
  | Raise e => (Raise e, df1)
  | Ok population =>
  match rate_column fully population with
  | Raise e => (Raise e, df1)
  | Ok rate =>
  let df2 := setitem "vaccination_rate" (map CNum rate) df1 in
  let df3 := fillna fill_values df2 in
  match dropna "location" df3 with
  | Raise e => (Raise e, df3)
  | Ok df4 => (Ok tt, df4)
  end end end end end end.

(** The state in which [run_etl_pipeline] calls [extract]: the clock
    has been read once. *)
Definition started (s : state) : state :=
  set_clock_reads (S (clock_reads s)) s.

Definition is_db_event (e : event) : bool :=
  match e with
  | DbConnect _ | DbReplaceTable _ _ _ | DbCreateIndex _ _ | DbClose _ => true
  | _ => false
  end.

Definition is_request (e : event) : bool :=
  match e with
  | HttpGet _ | CsvGet _ => true
  | _ => false
  end.

Definition is_duration_report (e : event) : bool :=
  match e with
  | Print (PipelineCompleted _) => true
  | _ => false
  end.

(** The cells that hold a number; a boolean is one, as in Python. *)
Definition is_number (c : cell) : bool :=
  match c with
  | CNum x => negb (is_nan x)
  | CInt _ | CBool _ => true
  | _ => false
  end.

(** The value of a number cell in float64 arithmetic. *)
Definition cell_float (c : cell) : option float :=
  match cell_number c with
  | Some n => Some (as_float n)
  | None => None
  end.

(** The columns that pandas holds as float64, int64 or uint64
    columns. *)
Definition numeric_column (col : list cell) : bool := numeric_dtype col.

(** The datasets whose two operands of the rate are such columns. *)
Definition numeric_columns (df : DataFrame) : bool :=
  match get_column "people_fully_vaccinated" (data df),
        get_column "population" (data df) with
  | Some fully, Some population =>
      numeric_column fully && numeric_column population
  | _, _ => false
  end.

(** The datasets whose three columns of counts are such columns. *)
Definition numeric_counts (df : DataFrame) : bool :=
  numeric_columns df &&
  match get_column "people_vaccinated" (data df) with
  | Some vaccinated => numeric_column vaccinated
  | None => false
  end.

(** The processed frame, column by column. *)
Definition processed_of (idx : list nat) (loc parsed pv pfv pop : list cell)
  (rate : list float) : DataFrame :=
  let keep := map notna loc in
  {| index := filter_mask keep idx;
     data :=
       [("location", filter_mask keep loc);
        ("date", filter_mask keep parsed);
        ("people_vaccinated", filter_mask keep (map (fill_value (CNum 0)) pv));
        ("people_fully_vaccinated",
           filter_mask keep (map (fill_value (CNum 0)) pfv));
        ("population", filter_mask keep pop);
        ("vaccination_rate",
           filter_mask keep (map (fill_value (CNum 0)) (map CNum rate)))] |}.

Definition copy_ref (s : state) (sel : DataFrame) : nat :=
  fresh (dom (<[fresh (dom (heap s)) := sel]> (heap s))).

Definition extracted (s : state) (df : DataFrame) : state :=
  set_raw_data (Some (fresh (dom (heap s))))
    (set_heap (<[fresh (dom (heap s)) := df]> (heap s))
       (set_requests_made (S (S (requests_made s))) s)).

Definition extract_event (e : event) : bool :=
  match e with
  | Call Extract | HttpGet _ | CsvGet _
  | Print (ExtractedRecords _) | Print (ExtractionError _) => true
  | _ => false
  end.

Definition transform_event (e : event) : bool :=
  match e with
  | Call Transform | Print NoDataToTransform | Print (AvailableColumns _)
  | Print (MissingColumn _) | Print CheckColumnName
  | Print (TransformedRecords _) => true
  | _ => false
  end.

Definition load_event (e : event) : bool :=
  match e with
  | Call Load | Print NoProcessedData | Print (DataLoaded _)
  | Print (LoadingError _) => true
  | e => is_db_event e
  end.

Definition pipeline_start : list event :=
  [Call RunEtlPipeline; Print PipelineStarting; ClockRead].

Definition location_date_index : index_def :=
  {| on_table := "vaccination_data"; on_columns := ["location"; "date"] |}.

(** The binary64 values that are NaN, finite, infinite, on their
    specification [spec_float]. *)
Definition sf_is_nan (x : spec_float) : bool :=
  match x with S754_nan => true | _ => false end.

Definition sf_is_finite (x : spec_float) : bool :=
  match x with S754_finite _ _ _ | S754_zero _ => true | _ => false end.

Definition sf_is_inf (x : spec_float) : bool :=
  match x with S754_infinity _ => true | _ => false end.

(** * The sample runs *)

Definition sample_transformed : outcome bool * state * list event :=
  transform sample_env (state_with_raw sample_raw).

Definition sample_processed : DataFrame :=
  {| index := [0; 1];
     data :=
       [("location", [CStr "USA"; CStr "FRA"]);
        ("date", [CTime 20210101; CTime 20210101]);
        ("people_vaccinated", [CNum 100; CNum 0]);
        ("people_fully_vaccinated", [CNum 50; CNum 0]);
        ("population", [CNum 1000; CNum 500]);
        ("vaccination_rate", [CNum 5; CNum 0])] |}.

Definition sample_infinite_processed : DataFrame :=
  {| index := [0];
     data :=
       [("location", [CStr "XXX"]);
        ("date", [CTime 20210101]);
        ("people_vaccinated", [CNum 1]);
        ("people_fully_vaccinated", [CNum PrimFloat.infinity]);
        ("population", [CNum PrimFloat.infinity]);
        ("vaccination_rate", [CNum 0])] |}.

Definition sample_text_processed : DataFrame :=
  {| index := [0];
     data :=
       [("location", [CStr "USA"]);
        ("date", [CTime 20210101]);
        ("people_vaccinated", [CStr "many"]);
        ("people_fully_vaccinated", [CNum 50]);
        ("population", [CNum 1000]);
        ("vaccination_rate", [CNum 5])] |}.

Definition sample_bad_date_selected : DataFrame :=
  {| index := [0; 1];
     data :=
       [("location", [CStr "USA"; CStr "FRA"]);
        ("date", [CStr "2021-01-01"; CStr "yesterday"]);
        ("people_vaccinated", [CNum 100; NaN]);
        ("people_fully_vaccinated", [CNum 50; NaN]);
        ("population", [CNum 1000; CNum 500])] |}.

Definition sample_loaded : outcome bool * state * list event :=
  load sample_env default_db_path sample_transformed.1.2.

Definition sample_extracted (u : string) : outcome bool * state * list event :=
  extract sample_env (started (fresh_state u)).

Definition sample_pipeline (u : string) : outcome bool * state * list event :=
  run_etl_pipeline sample_env (fresh_state u).

(** * Four sentences of the specification, as they are worded

    They are stated here to be refuted on the sample data; the
    statements that hold instead are among the theorems. *)

Definition rate_claim (env : Env) (s : state) : Prop :=
  forall s' evs out i x y,
    transform env s = (Ok true, s', evs) ->
    processed_frame s' = Some out ->
    cell_at out "people_fully_vaccinated" i = Some (CNum x) ->
    cell_at out "population" i = Some (CNum y) ->
    is_nan x = false -> PrimFloat.ltb 0 y = true ->
    cell_at out "vaccination_rate" i =
      Some (CNum (np_round 2 (x / y * 100))).

Definition filled_numbers_claim (env : Env) (s : state) : Prop :=
  forall s' evs out name i c,
    transform env s = (Ok true, s', evs) ->
    processed_frame s' = Some out ->
    name ∈ ["people_vaccinated"; "people_fully_vaccinated";
            "vaccination_rate"] ->
    cell_at out name i = Some c ->
    is_number c = true.

Definition duration_claim (env : Env) (s : state) : Prop :=
  existsb is_duration_report (run_etl_pipeline env s).2 = true.

Definition single_get_claim (env : Env) (s : state) : Prop :=
  forall r s' evs,
    extract env s = (r, s', evs) ->
    List.filter is_request evs = [HttpGet (url s)] /\
    (r = Ok true ->
     exists resp,
       server env (requests_made s) (url s) = Some resp /\
       raw_frame s' = parse_csv env (text resp)).

(** * Vocabulary of the further properties *)

Definition sf_is_zero (x : spec_float) : bool :=
  match x with S754_zero _ => true | _ => false end.

(** The rows whose rate cannot be computed: a missing operand, 0/0,
    inf/inf. *)
Definition uncomputable (a b : float) : bool :=
  is_nan a || is_nan b || (is_zero a && is_zero b)
  || (is_infinity a && is_infinity b).

(** Every column is as long as the index. *)
Definition aligned (df : DataFrame) : Prop :=
  Forall (fun nc : string * list cell => length nc.2 = len df) (data df).

Definition is_timestamp (c : cell) : bool :=
  match c with CTime _ | CNaT => true | _ => false end.

(** The exceptions of the statements of [transform] that no handler
    covers: those of the date conversion and of the arithmetic. *)
Definition unhandled (e : exn) : bool :=
  match e with
  | DateParseError _ | OutOfBoundsDatetime | TypeError
  | ZeroDivisionError | OverflowError | NotImplementedError => true
  | _ => false
  end.

Definition processed_columns : list string :=
  required_columns ++ ["vaccination_rate"].

(** The lines that tell of a failure. *)
Definition failure_message (m : message) : bool :=
  match m with
  | ExtractionError _ | NoDataToTransform | MissingColumn _ | CheckColumnName
  | NoProcessedData | LoadingError _ => true
  | _ => false
  end.

Definition quiet (e : event) : bool :=
  match e with
  | Print m => negb (failure_message m)
  | _ => true
  end.

(** What a stage that returned [b] has written: no failure line when
    [b] is [True], a failure line as its last line otherwise. *)
Definition reports (b : bool) (t : list event) : Prop :=
  if b then forallb quiet t = true
  else exists front msg,
         failure_message msg = true /\ t = front ++ [Print msg].

(** A row whose population is zero; the fields are all integers, so
    the columns are integer columns. *)
Definition sample_zero_population : DataFrame :=
  {| index := [0];
     data :=
       [("location", [CStr "XXX"]);
        ("date", [CStr "2021-01-01"]);
        ("people_vaccinated", [CInt 1]);
        ("people_fully_vaccinated", [CInt 5]);
        ("population", [CInt 0])] |}.

(** A row without a date, and a row whose date is the text [NaT]. *)
Definition sample_undated : DataFrame :=
  {| index := [0; 1];
     data :=
       [("location", [CStr "USA"; CStr "FRA"]);
        ("date", [NaN; CStr "NaT"]);
        ("people_vaccinated", [CNum 100; CNum 10]);
        ("people_fully_vaccinated", [CNum 50; CNum 5]);
        ("population", [CNum 1000; CNum 500])] |}.

Definition sample_undated_transformed : outcome bool * state * list event :=
  transform sample_env (state_with_raw sample_undated).

Definition sample_undated_processed : DataFrame :=
  {| index := [0; 1];
     data :=
       [("location", [CStr "USA"; CStr "FRA"]);
        ("date", [CNaT; CNaT]);
        ("people_vaccinated", [CNum 100; CNum 10]);
        ("people_fully_vaccinated", [CNum 50; CNum 5]);
        ("population", [CNum 1000; CNum 500]);
        ("vaccination_rate", [CNum 5; CNum 1])] |}.

(** An integer beyond 64 bits in the population column, which is
    then a column of Python ints. *)
Definition sample_large_population : DataFrame :=
  {| index := [0; 1];
     data :=
       [("location", [CStr "AAA"; CStr "BBB"]);
        ("date", [CStr "2021-01-01"; CStr "2021-01-02"]);
        ("people_vaccinated", [CInt 1; CInt 1]);
        ("people_fully_vaccinated", [CInt 1; CInt 1]);
        ("population", [CInt 20000; CInt (2 ^ 64)])] |}.

(** The same with a population of zero in the first row. *)
Definition sample_zero_objects : DataFrame :=
  {| index := [0; 1];
     data :=
       [("location", [CStr "AAA"; CStr "BBB"]);
        ("date", [CStr "2021-01-01"; CStr "2021-01-02"]);
        ("people_vaccinated", [CInt 1; CInt 1]);
        ("people_fully_vaccinated", [CInt 5; CInt 1]);
        ("population", [CInt 0; CInt (2 ^ 64)])] |}.

(** Two columns of booleans, as [read_csv] reads fields that are all
    [True] or [False]. *)
Definition sample_booleans : DataFrame :=
  {| index := [0; 1];
     data :=
       [("location", [CStr "AAA"; CStr "BBB"]);
        ("date", [CStr "2021-01-01"; CStr "2021-01-02"]);
        ("people_vaccinated", [CInt 1; CInt 1]);
        ("people_fully_vaccinated", [CBool true; CBool false]);
        ("population", [CBool true; CBool true])] |}.

(** A population of 2^63: a column of unsigned integers, and a value
    that SQLite cannot hold. *)
Definition sample_unsigned : DataFrame :=
  {| index := [0];
     data :=
       [("location", [CStr "AAA"]);
        ("date", [CStr "2021-01-01"]);
        ("people_vaccinated", [CInt 1]);
        ("people_fully_vaccinated", [CInt 5]);
        ("population", [CInt (2 ^ 63)])] |}.

Definition sample_unsigned_transformed : outcome bool * state * list event :=
  transform sample_env (state_with_raw sample_unsigned).

(** An index of another table that has the name [load] wants. *)
Definition sample_taken_index : index_def :=
  {| on_table := "cases"; on_columns := ["location"] |}.

(** The processed sample, in front of a database where that index
    exists. *)
Definition sample_with_index : state :=
  set_disk
    {[ default_db_path :=
         {| tables := {[ "cases" := {| t_columns := ["location"];
                                      t_rows := [] |} ]};
            indexes := {[ "idx_location_date" := sample_taken_index ]} |} ]}
    sample_transformed.1.2.

Definition sample_failed_load : outcome bool * state * list event :=
  load sample_env default_db_path sample_with_index.

Definition sample_bad_date_transformed : outcome bool * state * list event :=
  transform sample_env (state_with_raw sample_bad_date).

Definition is_transformed_report (e : event) : bool :=
  match e with
  | Print (TransformedRecords _) => true
  | _ => false
  end.

(** * Facts about binary64 arithmetic: where NaN can and cannot appear *)

Section Rounding.

Variables prec emax : Z.
#[local] Open Scope Z_scope.

Lemma shr_1_nonneg mrs : 0 <= shr_m mrs -> 0 <= shr_m (shr_1 mrs).
Proof.
  destruct mrs as [m r s]; simpl.
  destruct m as [|p|p]; [easy| |lia].
  destruct p; simpl; intros _; lia.
Qed.

Lemma iter_pos_inv {A} (P : A -> Prop) (f : A -> A) :
  (forall a, P a -> P (f a)) ->
  forall n a, P a -> P (SpecFloat.iter_pos f n a).
Proof.
  intros Hf n. induction n as [n IH|n IH|]; simpl; intros a Ha; auto.
Qed.

Lemma shr_fexp_nonneg m e l :
  0 <= m -> 0 <= shr_m (fst (shr_fexp prec emax m e l)).
Proof.
  intros Hm. unfold shr_fexp, shr.
  assert (H0 : 0 <= shr_m (shr_record_of_loc m l))
    by (destruct l as [|[]]; exact Hm).
  destruct (fexp prec emax (Zdigits2 m + e) - e); simpl; auto.
  apply (iter_pos_inv (fun r => 0 <= shr_m r) shr_1); auto using shr_1_nonneg.
Qed.

Lemma round_nearest_even_nonneg m l : 0 <= m -> 0 <= round_nearest_even m l.
Proof.
  intros Hm. destruct l as [|[]]; simpl; try lia.
  destruct (Z.even m); lia.
Qed.

(** Rounding a non-negative mantissa never produces NaN. *)
Lemma binary_round_aux_not_nan sx mx ex lx :
  0 <= mx -> sf_is_nan (binary_round_aux prec emax sx mx ex lx) = false.
Proof.
  intros Hm. unfold binary_round_aux.
  pose proof (shr_fexp_nonneg mx ex lx Hm) as H1.
  destruct (shr_fexp prec emax mx ex lx) as [mrs' e']; simpl in H1.
  pose proof (shr_fexp_nonneg _ e' loc_Exact
                (round_nearest_even_nonneg _ (loc_of_shr_record mrs') H1)) as H2.
  destruct (shr_fexp prec emax _ e' loc_Exact) as [mrs'' e'']; simpl in H2.
  destruct (shr_m mrs'') as [|p|p]; [reflexivity| |lia].
  destruct (e'' <=? emax - prec); reflexivity.
Qed.

Lemma binary_round_not_nan s m e :
  sf_is_nan (binary_round prec emax s m e) = false.
Proof.
  unfold binary_round.
  destruct (shl_align _ _ _); apply binary_round_aux_not_nan; lia.
Qed.

Lemma binary_normalize_not_nan m e s :
  sf_is_nan (binary_normalize prec emax m e s) = false.
Proof.
  destruct m; simpl; [reflexivity| |]; apply binary_round_not_nan.
Qed.

Lemma SFldexp_not_nan x e :
  sf_is_nan x = false -> sf_is_nan (SFldexp prec emax x e) = false.
Proof.
  destruct x; simpl; try easy. intros _. apply binary_round_not_nan.
Qed.

Lemma SFmul_not_nan x y :
  sf_is_nan x = false -> sf_is_finite y = true ->
  match y with S754_zero _ => sf_is_inf x = false | _ => True end ->
  sf_is_nan (SFmul prec emax x y) = false.
Proof.
  destruct x, y; simpl; try easy.
  intros _ _ _. apply binary_round_aux_not_nan. lia.
Qed.

Lemma SFadd_not_nan x y :
  sf_is_nan x = false -> sf_is_finite y = true ->
  sf_is_nan (SFadd prec emax x y) = false.
Proof.
  destruct x as [[]|[]| |], y as [[]| | |]; simpl; try easy.
  intros _ _. apply binary_normalize_not_nan.
Qed.

Lemma SFsub_not_nan x y :
  sf_is_nan x = false -> sf_is_finite y = true ->
  sf_is_nan (SFsub prec emax x y) = false.
Proof.
  destruct x as [[]|[]| |], y as [[]| | |]; simpl; try easy.
  intros _ _. apply binary_normalize_not_nan.
Qed.

Lemma SFdiv_core_nonneg mx ex my ey :
  0 <= fst (fst (SFdiv_core_binary prec emax (Zpos mx) ex (Zpos my) ey)).
Proof.
  unfold SFdiv_core_binary.
  set (s := _ - _ - Z.min _ _).
  set (m' := match s with
             | 0 => Z.pos mx
             | Z.pos _ => Z.shiftl (Z.pos mx) s
             | Z.neg _ => 0
             end).
  assert (Hm' : 0 <= m').
  { subst m'. destruct s; try lia. apply Z.shiftl_nonneg. lia. }
  pose proof (Z.div_eucl_eq m' (Z.pos my) ltac:(lia)) as Heq.
  pose proof (Z.mod_pos_bound m' (Z.pos my) ltac:(lia)) as Hr.
  unfold Z.modulo in Hr.
  destruct (Z.div_eucl m' (Z.pos my)) as [q r]; simpl. nia.
Qed.

(** A quotient is NaN only for NaN operands, inf/inf and 0/0. *)
Lemma SFdiv_not_nan x y :
  sf_is_nan x = false -> sf_is_nan y = false ->
  sf_is_inf x && sf_is_inf y = false ->
  match x, y with S754_zero _, S754_zero _ => False | _, _ => True end ->
  sf_is_nan (SFdiv prec emax x y) = false.
Proof.
  destruct x as [sx|sx| |sx mx ex], y as [sy|sy| |sy my ey]; simpl; try easy.
  intros _ _ _ _.
  pose proof (SFdiv_core_nonneg mx ex my ey) as H.
  destruct (SFdiv_core_binary _ _ _ _ _ _) as [[mz ez] lz]; simpl in H.
  now apply binary_round_aux_not_nan.
Qed.

End Rounding.

Section Binary64.

#[local] Open Scope float_scope.

Lemma SFeqb_refl x : sf_is_nan x = false -> SFeqb x x = true.
Proof.
  unfold SFeqb. destruct x as [s|[]| |[] m e]; simpl; try easy;
    rewrite Z.compare_refl, Pos.compare_cont_refl; reflexivity.
Qed.

Lemma is_nan_spec x : is_nan x = sf_is_nan (Prim2SF x).
Proof.
  unfold is_nan. rewrite FloatAxioms.eqb_spec.
  destruct (sf_is_nan (Prim2SF x)) eqn:E.
  - destruct (Prim2SF x); try discriminate. reflexivity.
  - rewrite (SFeqb_refl _ E). reflexivity.
Qed.

Lemma is_infinity_spec x : is_infinity x = sf_is_inf (Prim2SF x).
Proof.
  unfold is_infinity. rewrite FloatAxioms.eqb_spec, FloatAxioms.abs_spec.
  change (Prim2SF infinity) with (S754_infinity false).
  destruct (Prim2SF x) as [s|s| |s m e]; reflexivity.
Qed.

Lemma positive_spec y :
  (0 <? y) = true ->
  match Prim2SF y with
  | S754_finite false _ _ | S754_infinity false => True
  | _ => False
  end.
Proof.
  rewrite FloatAxioms.ltb_spec. change (Prim2SF 0) with (S754_zero false).
  destruct (Prim2SF y) as [s|[]| |[] m e]; simpl; easy.
Qed.

Lemma Prim2SF_inj x y : Prim2SF x = Prim2SF y -> x = y.
Proof.
  intros H. rewrite <- (SF2Prim_Prim2SF x), <- (SF2Prim_Prim2SF y).
  now rewrite H.
Qed.

Lemma abs_not_nan x : is_nan x = false -> is_nan (abs x) = false.
Proof.
  rewrite !is_nan_spec, FloatAxioms.abs_spec. now destruct (Prim2SF x).
Qed.

Lemma opp_not_nan x : is_nan x = false -> is_nan (- x) = false.
Proof.
  rewrite !is_nan_spec, FloatAxioms.opp_spec. now destruct (Prim2SF x).
Qed.

Lemma SF2Prim_not_nan x : sf_is_nan x = false -> is_nan (SF2Prim x) = false.
Proof.
  destruct x as [[]|[]| |s m e]; try easy. intros _. unfold SF2Prim.
  assert (H : is_nan (Z.ldexp (of_uint63 (Uint63.of_Z (Zpos m))) e) = false).
  { rewrite is_nan_spec. unfold Z.ldexp.
    rewrite FloatAxioms.ldshiftexp_spec, FloatAxioms.of_uint63_spec.
    apply SFldexp_not_nan, binary_normalize_not_nan. }
  destruct s; [now apply opp_not_nan | exact H].
Qed.

Lemma of_Z_not_nan z : is_nan (of_Z z) = false.
Proof. apply SF2Prim_not_nan, binary_normalize_not_nan. Qed.

Lemma rint_not_nan x : is_nan x = false -> is_nan (rint x) = false.
Proof.
  intros Hx. unfold rint.
  destruct (abs x <? two52); [|exact Hx].
  assert (Hr : is_nan (abs x + two52 - two52) = false).
  { rewrite is_nan_spec, FloatAxioms.sub_spec, FloatAxioms.add_spec.
    apply SFsub_not_nan; [|reflexivity].
    apply SFadd_not_nan; [|reflexivity].
    rewrite <- is_nan_spec. now apply abs_not_nan. }
  destruct (get_sign x); [now apply opp_not_nan | exact Hr].
Qed.

Lemma mul_100_not_nan x : is_nan x = false -> is_nan (x * 100) = false.
Proof.
  intros Hx. rewrite is_nan_spec, FloatAxioms.mul_spec.
  apply SFmul_not_nan; try easy. now rewrite <- is_nan_spec.
Qed.

Lemma np_round2_not_nan x : is_nan x = false -> is_nan (np_round 2 x) = false.
Proof.
  intros Hx. unfold np_round.
  change (power_of_ten 2) with 100.
  rewrite is_nan_spec, FloatAxioms.div_spec.
  change (Prim2SF 100) with (S754_finite false 7036874417766400 (-46)).
  apply SFdiv_not_nan; try reflexivity.
  - rewrite <- is_nan_spec. now apply rint_not_nan, mul_100_not_nan.
  - apply andb_false_r.
  - now destruct (Prim2SF (rint (x * 100))).
Qed.

Lemma mul_nan_l x y : is_nan x = true -> is_nan (x * y) = true.
Proof.
  rewrite !is_nan_spec, FloatAxioms.mul_spec. now destruct (Prim2SF x).
Qed.

Lemma np_round2_nan x : is_nan x = true -> is_nan (np_round 2 x) = true.
Proof.
  intros Hx. unfold np_round, rint.
  change (power_of_ten 2) with 100.
  assert (Hm : Prim2SF (x * 100) = S754_nan).
  { pose proof (mul_nan_l x 100 Hx) as H. rewrite is_nan_spec in H.
    now destruct (Prim2SF (x * 100)). }
  assert (Hlt : (abs (x * 100) <? two52) = false).
  { rewrite FloatAxioms.ltb_spec, FloatAxioms.abs_spec, Hm. reflexivity. }
  rewrite Hlt, is_nan_spec, FloatAxioms.div_spec, Hm. reflexivity.
Qed.

Lemma div_nan_l x y : is_nan x = true -> is_nan (x / y) = true.
Proof.
  rewrite !is_nan_spec, FloatAxioms.div_spec. now destruct (Prim2SF x).
Qed.

Lemma div_nan_r x y : is_nan y = true -> is_nan (x / y) = true.
Proof.
  rewrite !is_nan_spec, FloatAxioms.div_spec.
  destruct (Prim2SF y); try easy. now destruct (Prim2SF x).
Qed.

Lemma div_pos_not_nan x y :
  is_nan x = false -> (0 <? y) = true ->
  is_infinity x && is_infinity y = false ->
  is_nan (x / y) = false.
Proof.
  intros Hx Hy Hinf. apply positive_spec in Hy.
  rewrite !is_infinity_spec in Hinf. rewrite is_nan_spec in Hx.
  rewrite is_nan_spec, FloatAxioms.div_spec.
  apply SFdiv_not_nan; auto.
  - now destruct (Prim2SF y) as [|[]| |[]].
  - destruct (Prim2SF x); auto. now destruct (Prim2SF y).
Qed.

Lemma zero_div_pos y : (0 <? y) = true -> 0 / y = 0.
Proof.
  intros Hy. apply positive_spec in Hy. apply Prim2SF_inj.
  rewrite FloatAxioms.div_spec. change (Prim2SF 0) with (S754_zero false).
  now destruct (Prim2SF y) as [|[]| |[]].
Qed.

(** The rate of one row: the computed value, or 0 where it is NaN. *)
Lemma rate_of_present x y :
  is_nan x = false -> (0 <? y) = true ->
  is_infinity x && is_infinity y = false ->
  is_nan (np_round 2 (x / y * 100)) = false.
Proof.
  intros Hx Hy Hinf.
  now apply np_round2_not_nan, mul_100_not_nan, div_pos_not_nan.
Qed.

Lemma rate_of_missing x y :
  is_nan x || is_nan y = true -> is_nan (np_round 2 (x / y * 100)) = true.
Proof.
  intros H. apply np_round2_nan, mul_nan_l.
  apply orb_true_iff in H as [H|H]; [now apply div_nan_l | now apply div_nan_r].
Qed.

Lemma rate_of_zero y : (0 <? y) = true -> np_round 2 (0 / y * 100) = 0.
Proof.
  intros Hy. rewrite (zero_div_pos y Hy). vm_compute. reflexivity.
Qed.

Lemma py_round_nan d x : is_nan x = true -> Python.round d x = x.
Proof.
  rewrite is_nan_spec. unfold Python.round. now destruct (Prim2SF x).
Qed.

(** A missing operand among numbers is a NaN float. *)
Lemma isna_number a x :
  cell_number a = Some x -> isna a = true ->
  exists v, x = Float v /\ is_nan v = true.
Proof. destruct a; simpl; try easy. intros [= <-] H. eauto. Qed.

Lemma as_float_missing a b x y :
  cell_number a = Some x -> cell_number b = Some y ->
  isna a || isna b = true ->
  is_nan (as_float x) || is_nan (as_float y) = true.
Proof.
  intros Ha Hb H. apply orb_true_iff in H as [H|H].
  - destruct (isna_number _ _ Ha H) as (v & -> & Hv). simpl. now rewrite Hv.
  - destruct (isna_number _ _ Hb H) as (v & -> & Hv). simpl. rewrite Hv.
    apply orb_true_r.
Qed.

(** The rate that Python computes for a row with a missing operand,
    when it computes one. *)
Lemma py_rate_of_missing a b x y q :
  cell_number a = Some x -> cell_number b = Some y ->
  isna a || isna b = true ->
  Python.truediv x y = Ok q ->
  is_nan (Python.round 2 (q * 100)) = true.
Proof.
  intros Ha Hb Hna Hq.
  assert (Hn : is_nan q = true).
  { apply orb_true_iff in Hna as [H|H].
    - destruct (isna_number _ _ Ha H) as (v & -> & Hv).
      destruct y as [y|z]; simpl in Hq.
      + destruct (is_zero y); [easy|]. injection Hq as <-.
        now apply div_nan_l.
      + destruct (is_infinity (of_Z z)); [easy|].
        destruct (is_zero (of_Z z)); [easy|]. injection Hq as <-.
        now apply div_nan_l.
    - destruct (isna_number _ _ Hb H) as (v & -> & Hv).
      destruct x as [x|z]; simpl in Hq.
      + destruct (is_zero v); [easy|]. injection Hq as <-.
        now apply div_nan_r.
      + destruct (is_infinity (of_Z z)); [easy|].
        destruct (is_zero v); [easy|]. injection Hq as <-.
        now apply div_nan_r. }
  rewrite py_round_nan; now apply mul_nan_l.
Qed.

End Binary64.

(** * Facts about masks and columns *)

Section Masks.

Context {A : Type}.
Implicit Types (mask : list bool) (l : list A).

Lemma filter_mask_lookup mask l i :
  filter_mask mask l !! i =
  match kept_position mask i with
  | Some j => l !! j
  | None => None
  end.
Proof.
  revert l i. induction mask as [|b mask IH]; intros l i; simpl.
  - reflexivity.
  - destruct l as [|x l].
    + destruct b; [destruct i|]; simpl;
        try destruct (kept_position mask _); reflexivity.
    + destruct b.
      * destruct i as [|i]; simpl; [reflexivity|].
        rewrite IH. destruct (kept_position mask i); reflexivity.
      * rewrite IH. destruct (kept_position mask i); reflexivity.
Qed.

Lemma filter_mask_map (f : A -> bool) l :
  filter_mask (map f l) l = List.filter f l.
Proof.
  induction l as [|x l IH]; simpl; [reflexivity|].
  rewrite IH. reflexivity.
Qed.

Lemma filter_mask_length {B : Type} mask l (l' : list B) :
  length l = length l' ->
  length (filter_mask mask l) = length (filter_mask mask l').
Proof.
  revert l l'. induction mask as [|b mask IH]; intros l l' Hlen; simpl.
  - reflexivity.
  - destruct l, l'; simpl in *; try discriminate; [reflexivity|].
    destruct b; simpl; auto.
Qed.

End Masks.

Lemma kept_position_true mask i j :
  kept_position mask i = Some j -> mask !! j = Some true.
Proof.
  revert i j. induction mask as [|b mask IH]; intros i j; simpl; [easy|].
  destruct b.
  - destruct i as [|i]; [intros [= <-]; reflexivity|].
    destruct (kept_position mask i) eqn:E; simpl; [|easy].
    intros [= <-]. simpl. eauto.
  - destruct (kept_position mask i) eqn:E; simpl; [|easy].
    intros [= <-]. simpl. eauto.
Qed.

Lemma kept_position_exists mask j :
  mask !! j = Some true -> exists i, kept_position mask i = Some j.
Proof.
  revert j. induction mask as [|b mask IH]; intros j; simpl; [easy|].
  destruct j as [|j]; simpl.
  - intros [= ->]. exists 0%nat. reflexivity.
  - intros H. destruct (IH j H) as [i Hi].
    destruct b; [exists (S i)|exists i]; simpl; now rewrite Hi.
Qed.

Lemma kept_position_inj mask i i' j :
  kept_position mask i = Some j -> kept_position mask i' = Some j -> i = i'.
Proof.
  revert i i' j. induction mask as [|b mask IH]; intros i i' j; simpl; [easy|].
  destruct b.
  - destruct i as [|i], i' as [|i']; simpl; try easy.
    + destruct (kept_position mask i'); simpl; [|easy]. intros [= <-]. easy.
    + destruct (kept_position mask i); simpl; [|easy]. intros [= <-]. easy.
    + destruct (kept_position mask i) eqn:E, (kept_position mask i') eqn:E';
        simpl; try easy.
      intros [= <-] [= ->]. f_equal. eauto.
  - destruct (kept_position mask i) eqn:E, (kept_position mask i') eqn:E';
      simpl; try easy.
    intros [= <-] [= ->]. eauto.
Qed.

(** ** The numbers of a column and the rate *)

Lemma numbers_lookup col l j c :
  numbers col = Ok l -> col !! j = Some c ->
  exists n, cell_number c = Some n /\ l !! j = Some n.
Proof.
  revert l j. induction col as [|c0 col IH]; intros l j; simpl; [easy|].
  destruct (cell_number c0) as [n0|] eqn:E0; [|easy].
  destruct (numbers col) as [r|]; [|easy].
  intros [= <-]. destruct j as [|j]; simpl.
  - intros [= <-]. eauto.
  - now apply IH.
Qed.

Lemma numbers_length col l : numbers col = Ok l -> length l = length col.
Proof.
  revert l. induction col as [|c0 col IH]; intros l; simpl.
  - now intros [= <-].
  - destruct (cell_number c0); [|easy].
    destruct (numbers col) as [r|]; [|easy].
    intros [= <-]. simpl. f_equal. now apply IH.
Qed.

Lemma numbers_raise col e : numbers col = Raise e -> e = TypeError.
Proof.
  induction col as [|c0 col IH]; simpl; [easy|].
  destruct (cell_number c0); [|now intros [= <-]].
  destruct (numbers col); [easy|]. intros [= <-]. now apply IH.
Qed.

Lemma truediv_raise x y e :
  Python.truediv x y = Raise e -> e = ZeroDivisionError \/ e = OverflowError.
Proof.
  destruct x as [x|a], y as [y|b]; simpl.
  - destruct (is_zero y); [|easy]. intros [= <-]. auto.
  - destruct (is_infinity (of_Z b)); [intros [= <-]; auto|].
    destruct (is_zero (of_Z b)); [|easy]. intros [= <-]. auto.
  - destruct (is_infinity (of_Z a)); [intros [= <-]; auto|].
    destruct (is_zero y); [|easy]. intros [= <-]. auto.
  - destruct (b =? 0)%Z; [intros [= <-]; auto|].
    destruct (is_infinity _); [|easy]. intros [= <-]. auto.
Qed.

Lemma object_div_lookup a b q j x y :
  object_div a b = Ok q -> a !! j = Some x -> b !! j = Some y ->
  exists r, Python.truediv x y = Ok r /\ q !! j = Some r.
Proof.
  revert b q j. induction a as [|x0 a IH]; intros [|y0 b] q j; simpl;
    try easy.
  destruct (Python.truediv x0 y0) as [r0|] eqn:E0; [|easy].
  destruct (object_div a b) as [r|] eqn:E; [|easy].
  intros [= <-]. destruct j as [|j]; simpl.
  - intros [= <-] [= <-]. eauto.
  - now apply IH.
Qed.

Lemma object_div_length a b q :
  object_div a b = Ok q -> length q = min (length a) (length b).
Proof.
  revert b q. induction a as [|x0 a IH]; intros [|y0 b] q; simpl;
    try now intros [= <-].
  destruct (Python.truediv x0 y0); [|easy].
  destruct (object_div a b) as [r|] eqn:E; [|easy].
  intros [= <-]. simpl. f_equal. now apply IH.
Qed.

Lemma object_div_raise a b e :
  object_div a b = Raise e -> e = ZeroDivisionError \/ e = OverflowError.
Proof.
  revert b. induction a as [|x0 a IH]; intros [|y0 b]; simpl; try easy.
  destruct (Python.truediv x0 y0) as [r0|e0] eqn:E0.
  - destruct (object_div a b) as [r|e1] eqn:E; [easy|].
    intros [= <-]. now apply (IH b).
  - intros [= <-]. now apply truediv_raise in E0.
Qed.

Lemma forallb_numbers (f : cell -> bool) col :
  (forall c, f c = true -> is_Some (cell_number c)) ->
  forallb f col = true -> exists l, numbers col = Ok l.
Proof.
  intros Hf. induction col as [|c col IH]; simpl; [eauto|].
  intros [Hc H]%andb_true_iff.
  destruct (Hf c Hc) as [n ->]. destruct (IH H) as [l ->]. eauto.
Qed.

(** A numeric column holds numbers only and is no bool column. *)
Lemma numeric_dtype_numbers col :
  numeric_dtype col = true -> exists l, numbers col = Ok l.
Proof.
  unfold numeric_dtype. intros [[H|H]%orb_true_iff|H]%orb_true_iff;
    revert H; apply forallb_numbers; intros [] ?; simpl in *; eauto;
    discriminate.
Qed.

Lemma numeric_dtype_not_bool col :
  numeric_dtype col = true -> bool_dtype col = false.
Proof.
  destruct col as [|c col]; [reflexivity|].
  unfold numeric_dtype. simpl.
  destruct c; simpl; try reflexivity. discriminate.
Qed.

Lemma numeric_dtype_numpy col :
  numeric_dtype col = true -> numpy_dtype col = true.
Proof. unfold numpy_dtype. now intros ->. Qed.

Lemma numeric_columns_numpy fully population :
  numeric_column fully && numeric_column population = true ->
  numpy_dtype fully && numpy_dtype population = true.
Proof.
  unfold numeric_column. intros [Hf Hp]%andb_true_iff.
  now rewrite (numeric_dtype_numpy _ Hf), (numeric_dtype_numpy _ Hp).
Qed.

(** The rate computed for row [j], by the dtypes of the two columns. *)
Lemma rate_column_lookup fully population rate j a b :
  rate_column fully population = Ok rate ->
  fully !! j = Some a -> population !! j = Some b ->
  exists x y r,
    cell_number a = Some x /\ cell_number b = Some y /\
    rate !! j = Some r /\
    if numpy_dtype fully && numpy_dtype population
    then r = np_round 2 (as_float x / as_float y * 100)
    else exists q, Python.truediv x y = Ok q /\
                   r = Python.round 2 (q * 100).
Proof.
  unfold rate_column, Series.truediv. intros H Ha Hb.
  destruct (numbers fully) as [xs|] eqn:Ex; [|easy].
  destruct (numbers population) as [ys|] eqn:Ey; [|easy].
  destruct (numbers_lookup _ _ _ _ Ex Ha) as (x & Hx & Hxj).
  destruct (numbers_lookup _ _ _ _ Ey Hb) as (y & Hy & Hyj).
  exists x, y.
  destruct (bool_dtype fully && bool_dtype population); [easy|].
  destruct (numpy_dtype fully && numpy_dtype population).
  - injection H as <-. eexists. split; [exact Hx|]. split; [exact Hy|].
    split; [|reflexivity]. simpl.
    unfold series_round, series_mul, series_div.
    rewrite !list_lookup_fmap.
    assert (E : zip_with PrimFloat.div (map as_float xs) (map as_float ys) !! j
                = Some (as_float x / as_float y)%float).
    { apply lookup_zip_with_Some. exists (as_float x), (as_float y).
      rewrite !list_lookup_fmap, Hxj, Hyj. auto. }
    now rewrite E.
  - destruct (object_div xs ys) as [q|] eqn:Eq; [|easy].
    injection H as <-.
    destruct (object_div_lookup _ _ _ _ _ _ Eq Hxj Hyj) as (r & Hr & Hq).
    eexists. split; [exact Hx|]. split; [exact Hy|]. split.
    + simpl. unfold series_mul. rewrite !list_lookup_fmap, Hq. reflexivity.
    + eauto.
Qed.

Lemma rate_column_length fully population rate :
  rate_column fully population = Ok rate ->
  length rate = min (length fully) (length population).
Proof.
  unfold rate_column, Series.truediv. intros H.
  destruct (numbers fully) as [xs|] eqn:Ex; [|easy].
  destruct (numbers population) as [ys|] eqn:Ey; [|easy].
  rewrite <- (numbers_length _ _ Ex), <- (numbers_length _ _ Ey).
  destruct (bool_dtype fully && bool_dtype population); [easy|].
  destruct (numpy_dtype fully && numpy_dtype population).
  - injection H as <-. simpl. unfold series_round, series_mul, series_div.
    now rewrite !length_map, length_zip_with, !length_map.
  - destruct (object_div xs ys) as [q|] eqn:Eq; [|easy].
    injection H as <-. simpl. unfold series_mul.
    rewrite !length_map. now apply object_div_length.
Qed.

(** Both columns of a rate that was computed hold numbers only. *)
Lemma rate_column_numbers fully population rate :
  rate_column fully population = Ok rate ->
  (forall j a, fully !! j = Some a -> is_Some (cell_number a)) /\
  (forall j b, population !! j = Some b -> is_Some (cell_number b)).
Proof.
  unfold rate_column, Series.truediv. intros H.
  destruct (numbers fully) as [xs|] eqn:Ex; [|easy].
  destruct (numbers population) as [ys|] eqn:Ey; [|easy].
  split; intros j c Hc.
  - destruct (numbers_lookup _ _ _ _ Ex Hc) as (n & -> & _). eauto.
  - destruct (numbers_lookup _ _ _ _ Ey Hc) as (n & -> & _). eauto.
Qed.

Lemma rate_column_raise fully population e :
  rate_column fully population = Raise e ->
  e = TypeError \/ e = NotImplementedError \/
  e = ZeroDivisionError \/ e = OverflowError.
Proof.
  unfold rate_column, Series.truediv.
  destruct (numbers fully) as [xs|e1] eqn:Ex.
  2:{ intros [= <-]. left. now apply numbers_raise in Ex. }
  destruct (numbers population) as [ys|e1] eqn:Ey.
  2:{ intros [= <-]. left. now apply numbers_raise in Ey. }
  destruct (bool_dtype fully && bool_dtype population);
    [intros [= <-]; auto|].
  destruct (numpy_dtype fully && numpy_dtype population); [easy|].
  destruct (object_div xs ys) as [q|e1] eqn:Eq; [easy|].
  intros [= <-]. right. right. now apply object_div_raise in Eq.
Qed.

(** Two numeric columns are divided without an error. *)
Lemma rate_column_numeric fully population :
  numeric_column fully = true -> numeric_column population = true ->
  exists rate, rate_column fully population = Ok rate.
Proof.
  unfold numeric_column, rate_column, Series.truediv. intros Hf Hp.
  destruct (numeric_dtype_numbers _ Hf) as [xs ->].
  destruct (numeric_dtype_numbers _ Hp) as [ys ->].
  rewrite (numeric_dtype_not_bool _ Hf), (numeric_dtype_numpy _ Hf),
    (numeric_dtype_numpy _ Hp). simpl. eauto.
Qed.

Lemma get_column_None name d :
  get_column name d = None <-> name ∉ map fst d.
Proof.
  induction d as [|[n c] d IH]; simpl.
  - split; [intros _; apply not_elem_of_nil | reflexivity].
  - rewrite not_elem_of_cons. destruct (String.eqb_spec n name) as [->|Hne].
    + split; [easy | intros [? _]; congruence].
    + rewrite IH. split; [intros ?; split; congruence | intros [_ ?]; assumption].
Qed.

Lemma take_columns_None names d :
  take_columns names d = None <->
  exists n, n ∈ names /\ get_column n d = None.
Proof.
  induction names as [|n names IH]; simpl.
  - split; [easy | intros (n & Hn & _); now apply elem_of_nil in Hn].
  - destruct (get_column n d) as [c|] eqn:E.
    + destruct (take_columns names d) as [r|].
      * split; [easy|]. intros (m & Hm & Hg).
        apply elem_of_cons in Hm as [->|Hm]; [congruence|].
        destruct IH as [_ IH]. discriminate IH. eauto.
      * split; [|easy]. intros _. destruct IH as [IH _].
        destruct (IH eq_refl) as (m & Hm & Hg). exists m. split; [|easy].
        now apply elem_of_cons; right.
    + split; [|easy]. intros _. exists n. split; [apply elem_of_cons; now left|easy].
Qed.

Lemma missing_columns_spec names df n :
  n ∈ missing_columns names df <-> n ∈ names /\ n ∉ columns df.
Proof.
  unfold missing_columns, columns, has_column.
  rewrite list_elem_of_In, filter_In, <- list_elem_of_In, <- get_column_None.
  destruct (get_column n (data df)); simpl; intuition congruence.
Qed.

Lemma select_raise names df e :
  select names df = Raise e ->
  e = KeyError (missing_columns names df) /\ missing_columns names df <> [].
Proof.
  unfold select. destruct (take_columns names (data df)) eqn:E; [easy|].
  intros [= <-]. split; [reflexivity|].
  apply take_columns_None in E as (n & Hn & Hg).
  intros Hnil. apply get_column_None in Hg.
  assert (H : n ∈ missing_columns names df) by now apply missing_columns_spec.
  rewrite Hnil in H. now apply elem_of_nil in H.
Qed.

Lemma select_missing names df :
  missing_columns names df <> [] ->
  select names df = Raise (KeyError (missing_columns names df)).
Proof.
  intros Hne. unfold select.
  destruct (take_columns names (data df)) as [d|] eqn:E; [|reflexivity].
  exfalso. apply Hne.
  destruct (missing_columns names df) as [|n l] eqn:Em; [reflexivity|].
  assert (H : n ∈ missing_columns names df) by (rewrite Em; apply elem_of_cons; now left).
  apply missing_columns_spec in H as [Hn Hc].
  apply get_column_None in Hc.
  assert (take_columns names (data df) = None) by (apply take_columns_None; eauto).
  congruence.
Qed.

Lemma select_required_inv raw sel :
  select required_columns raw = Ok sel ->
  exists loc d pv pfv pop,
    get_column "location" (data raw) = Some loc /\
    get_column "date" (data raw) = Some d /\
    get_column "people_vaccinated" (data raw) = Some pv /\
    get_column "people_fully_vaccinated" (data raw) = Some pfv /\
    get_column "population" (data raw) = Some pop /\
    sel = {| index := index raw;
             data := [("location", loc); ("date", d);
                      ("people_vaccinated", pv);
                      ("people_fully_vaccinated", pfv);
                      ("population", pop)] |}.
Proof.
  unfold select, required_columns. simpl.
  destruct (get_column "location" (data raw)) as [loc|]; [|easy].
  destruct (get_column "date" (data raw)) as [d|]; [|easy].
  destruct (get_column "people_vaccinated" (data raw)) as [pv|]; [|easy].
  destruct (get_column "people_fully_vaccinated" (data raw)) as [pfv|]; [|easy].
  destruct (get_column "population" (data raw)) as [pop|]; [|easy].
  intros [= <-]. now exists loc, d, pv, pfv, pop.
Qed.

Lemma process_frame_selected env idx loc d pv pfv pop :
  let sel := {| index := idx;
                data := [("location", loc); ("date", d);
                         ("people_vaccinated", pv);
                         ("people_fully_vaccinated", pfv);
                         ("population", pop)] |} in
  forall df, process_frame env sel = (Ok tt, df) ->
  exists parsed rate,
    to_datetime env d = Ok parsed /\
    rate_column pfv pop = Ok rate /\
    df = processed_of idx loc parsed pv pfv pop rate.
Proof.
  intros sel df. unfold process_frame, sel, getitem, setitem, dropna, fillna.
  simpl.
  destruct (to_datetime env d) as [parsed|]; [|easy].
  destruct (rate_column pfv pop) as [rate|]; [|easy].
  intros [= <-]. now exists parsed, rate.
Qed.

(** The operations of pandas and SQLite are kept folded during
    simplification from here on; the lemmas unfold them where needed. *)

Arguments select : simpl never.
Arguments getitem : simpl never.
Arguments setitem : simpl never.
Arguments fillna : simpl never.
Arguments dropna : simpl never.
Arguments to_datetime : simpl never.
Arguments numbers : simpl never.
Arguments rate_column : simpl never.
Arguments of_Z : simpl never.
Arguments columns : simpl never.
Arguments len : simpl never.
Arguments replace_table : simpl never.
Arguments insert_rows : simpl never.
Arguments create_index : simpl never.
Arguments drop_table : simpl never.

(** * Running the stages *)

Section Run.

Context {A B : Type}.

Lemma bind_eq (m : M A) (k : A -> M B) s :
  bind m k s =
  match m s with
  | (Ok a, s1, t1) => match k a s1 with (r, s2, t2) => (r, s2, t1 ++ t2) end
  | (Raise e, s1, t1) => (Raise e, s1, t1)
  end.
Proof. reflexivity. Qed.

Lemma bind_ok (m : M A) (k : A -> M B) s a s1 t1 :
  m s = (Ok a, s1, t1) ->
  bind m k s = match k a s1 with (r, s2, t2) => (r, s2, t1 ++ t2) end.
Proof. intros H. unfold bind. now rewrite H. Qed.

Lemma bind_raise (m : M A) (k : A -> M B) s e s1 t1 :
  m s = (Raise e, s1, t1) -> bind m k s = (Raise e, s1, t1).
Proof. intros H. unfold bind. now rewrite H. Qed.

End Run.

Lemma try_except_eq {A} (m : M A) handled handler s :
  try_except m handled handler s =
  match m s with
  | (Ok a, s1, t1) => (Ok a, s1, t1)
  | (Raise e, s1, t1) =>
      if handled e then
        match handler e s1 with (r, s2, t2) => (r, s2, t1 ++ t2) end
      else (Raise e, s1, t1)
  end.
Proof. reflexivity. Qed.

Lemma deref_ok s r df : heap s !! r = Some df -> deref r s = (Ok df, s, []).
Proof. intros H. unfold deref. now rewrite H. Qed.

Lemma the_processed_data_ok s p :
  processed_data s = Some p -> the_processed_data s = (Ok p, s, []).
Proof.
  intros Hp. unfold the_processed_data.
  rewrite (bind_ok _ _ _ (Some p) s []); [reflexivity|].
  unfold gets. now rewrite Hp.
Qed.

Lemma processed_getitem_eq s p df name :
  processed_data s = Some p -> heap s !! p = Some df ->
  processed_getitem name s = (getitem name df, s, []).
Proof.
  intros Hp Hh. unfold processed_getitem.
  rewrite (bind_ok _ _ _ p s []) by now apply the_processed_data_ok.
  rewrite (bind_ok _ _ _ df s []) by now apply deref_ok.
  unfold lift. now destruct (getitem name df).
Qed.

Lemma processed_setitem_eq s p df name col :
  processed_data s = Some p -> heap s !! p = Some df ->
  processed_setitem name col s =
    (Ok tt, set_heap (<[p := setitem name col df]> (heap s)) s, []).
Proof.
  intros Hp Hh. unfold processed_setitem.
  rewrite (bind_ok _ _ _ p s []) by now apply the_processed_data_ok.
  rewrite (bind_ok _ _ _ df s []) by now apply deref_ok.
  reflexivity.
Qed.

Lemma processed_inplace_eq s p df f :
  processed_data s = Some p -> heap s !! p = Some df ->
  processed_inplace f s =
    match f df with
    | Ok df' => (Ok tt, set_heap (<[p := df']> (heap s)) s, [])
    | Raise e => (Raise e, s, [])
    end.
Proof.
  intros Hp Hh. unfold processed_inplace.
  rewrite (bind_ok _ _ _ p s []) by now apply the_processed_data_ok.
  rewrite (bind_ok _ _ _ df s []) by now apply deref_ok.
  unfold bind, lift, store, modify. now destruct (f df).
Qed.

(** ** The object after the column selection *)

Lemma installed_processed s sel df :
  processed_data (installed s sel df) = Some (copy_ref s sel).
Proof. reflexivity. Qed.

Lemma installed_heap s sel df :
  heap (installed s sel df) !! copy_ref s sel = Some df.
Proof. unfold installed, copy_ref. simpl. apply lookup_insert_eq. Qed.

Lemma installed_again s sel df df' :
  set_heap (<[copy_ref s sel := df']> (heap (installed s sel df)))
    (installed s sel df)
  = installed s sel df'.
Proof.
  unfold installed, copy_ref, set_heap, set_processed_data. simpl.
  f_equal. apply insert_insert_eq.
Qed.

Lemma installed_raw_data s sel df : raw_data (installed s sel df) = raw_data s.
Proof. reflexivity. Qed.

Lemma installed_disk s sel df : disk (installed s sel df) = disk s.
Proof. reflexivity. Qed.

(** The objects that existed before are untouched. *)
Lemma installed_old s sel df r :
  is_Some (heap s !! r) -> heap (installed s sel df) !! r = heap s !! r.
Proof.
  intros Hr. unfold installed. simpl.
  assert (Hr1 : r ∈ dom (heap s)) by now apply elem_of_dom.
  assert (Hr2 : r ∈ dom (<[fresh (dom (heap s)) := sel]> (heap s))).
  { rewrite dom_insert_L. set_solver. }
  rewrite !lookup_insert_ne; [reflexivity| |].
  - intros <-. exact (is_fresh _ Hr1).
  - intros <-. exact (is_fresh _ Hr2).
Qed.

Ltac on_processed :=
  first
    [ rewrite (processed_getitem_eq _ _ _ _
                 (installed_processed _ _ _) (installed_heap _ _ _))
    | rewrite (processed_setitem_eq _ _ _ _ _
                 (installed_processed _ _ _) (installed_heap _ _ _)),
        installed_again
    | rewrite (processed_inplace_eq _ _ _ _
                 (installed_processed _ _ _) (installed_heap _ _ _)) ].

Lemma transform_body_eq env s sel :
  (let* dates := processed_getitem "date" in
   let* parsed := lift (to_datetime env dates) in
   processed_setitem "date" parsed ;;
   let* fully := processed_getitem "people_fully_vaccinated" in
   let* population := processed_getitem "population" in
   let* quotient := lift (Series.truediv fully population) in
   processed_setitem "vaccination_rate"
     (map CNum (values (Series.round 2 (Series.mul quotient 100%float)))) ;;
   processed_inplace (fun df => Ok (fillna fill_values df)) ;;
   processed_inplace (dropna "location") ;;
   let* p := the_processed_data in
   let* df := deref p in
   print (TransformedRecords (len df)) ;;
   ret true) (installed s sel sel) =
  match process_frame env sel with
  | (Ok _, df) =>
      (Ok true, installed s sel df, [Print (TransformedRecords (len df))])
  | (Raise e, df) => (Raise e, installed s sel df, [])
  end.
Proof.
  unfold process_frame.
  rewrite bind_eq. on_processed.
  destruct (getitem "date" sel) as [dates|e]; [|reflexivity].
  rewrite bind_eq. unfold lift at 1.
  destruct (to_datetime env dates) as [parsed|e]; [|reflexivity].
  rewrite bind_eq. on_processed.
  rewrite bind_eq. on_processed.
  destruct (getitem "people_fully_vaccinated" _) as [fully|e]; [|reflexivity].
  rewrite bind_eq. on_processed.
  destruct (getitem "population" _) as [population|e]; [|reflexivity].
  rewrite bind_eq. unfold lift at 1. unfold rate_column.
  destruct (Series.truediv fully population) as [q|e]; [|reflexivity].
  rewrite bind_eq. on_processed.
  rewrite bind_eq. on_processed. rewrite installed_again.
  rewrite bind_eq. on_processed.
  destruct (dropna "location" _) as [df4|e]; [|reflexivity].
  rewrite installed_again.
  rewrite bind_eq, (the_processed_data_ok _ _ (installed_processed _ _ _)).
  rewrite bind_eq, (deref_ok _ _ _ (installed_heap _ _ _)).
  reflexivity.
Qed.

(** ** [transform], outcome by outcome *)

Lemma transform_no_data env s :
  raw_data s = None ->
  transform env s = (Ok false, s, [Call Transform; Print NoDataToTransform]).
Proof.
  intros Hr. unfold transform.
  rewrite bind_eq. unfold emit at 1.
  rewrite bind_eq. unfold gets at 1. rewrite Hr. reflexivity.
Qed.

Lemma transform_dangling env s r :
  raw_data s = Some r -> heap s !! r = None ->
  transform env s = (Raise ReferenceError, s, [Call Transform]).
Proof.
  intros Hr Hh. unfold transform.
  rewrite bind_eq. unfold emit at 1.
  rewrite bind_eq. unfold gets at 1. rewrite Hr.
  rewrite bind_eq. unfold deref at 1. rewrite Hh. reflexivity.
Qed.

Lemma transform_eq env s r raw :
  raw_data s = Some r -> heap s !! r = Some raw ->
  transform env s =
  match select required_columns raw with
  | Raise e =>
      (Ok false, s,
       [Call Transform; Print (AvailableColumns (columns raw));
        Print (MissingColumn e); Print CheckColumnName])
  | Ok sel =>
      match process_frame env sel with
      | (Ok _, df) =>
          (Ok true, installed s sel df,
           [Call Transform; Print (AvailableColumns (columns raw));
            Print (TransformedRecords (len df))])
      | (Raise e, df) =>
          (Raise e, installed s sel df,
           [Call Transform; Print (AvailableColumns (columns raw))])
      end
  end.
Proof.
  intros Hr Hh. unfold transform.
  rewrite bind_eq. unfold emit at 1.
  rewrite bind_eq. unfold gets at 1. rewrite Hr.
  rewrite bind_eq, (deref_ok _ _ _ Hh).
  rewrite bind_eq. unfold print at 1, emit at 1.
  rewrite bind_eq, try_except_eq.
  rewrite bind_eq, (deref_ok _ _ _ Hh).
  rewrite bind_eq. unfold lift at 1.
  destruct (select required_columns raw) as [sel|e] eqn:Hsel.
  - rewrite bind_eq. unfold alloc at 1.
    rewrite bind_eq. unfold deref at 1. simpl heap. rewrite lookup_insert_eq.
    rewrite bind_eq. unfold alloc at 1.
    rewrite bind_eq. unfold modify at 1. unfold ret at 1.
    change (set_processed_data _ _) with (installed s sel sel).
    rewrite transform_body_eq.
    destruct (process_frame env sel) as [[[]|e] df]; reflexivity.
  - destruct (select_raise _ _ _ Hsel) as [-> _]. reflexivity.
Qed.

(** The state in which a successful [extract] leaves the object. *)
(** ** [extract], outcome by outcome *)

Lemma extract_eq env s :
  extract env s =
  let n := requests_made s in
  let u := url s in
  match server env n u with
  | None =>
      (Ok false, set_requests_made (S n) s,
       [Call Extract; HttpGet u; Print (ExtractionError ConnectionError)])
  | Some r1 =>
      if error_status (status_code r1) then
        (Ok false, set_requests_made (S n) s,
         [Call Extract; HttpGet u;
          Print (ExtractionError (HTTPError (status_code r1)))])
      else
        match server env (S n) u with
        | None =>
            (Ok false, set_requests_made (S (S n)) s,
             [Call Extract; HttpGet u; CsvGet u;
              Print (ExtractionError ConnectionError)])
        | Some r2 =>
            if success_status (status_code r2) then
              match parse_csv env (text r2) with
              | Some df =>
                  (Ok true, extracted s df,
                   [Call Extract; HttpGet u; CsvGet u;
                    Print (ExtractedRecords (len df))])
              | None =>
                  (Ok false, set_requests_made (S (S n)) s,
                   [Call Extract; HttpGet u; CsvGet u;
                    Print (ExtractionError ParserError)])
              end
            else
              (Ok false, set_requests_made (S (S n)) s,
               [Call Extract; HttpGet u; CsvGet u;
                Print (ExtractionError (HTTPError (status_code r2)))])
        end
  end.
Proof.
  unfold extract.
  rewrite bind_eq. unfold emit at 1.
  rewrite bind_eq, try_except_eq.
  rewrite bind_eq. unfold gets at 1.
  rewrite bind_eq. unfold requests_get, fetch at 1.
  destruct (server env (requests_made s) (url s)) as [r1|]; [|reflexivity].
  rewrite bind_eq. unfold raise_for_status.
  destruct (error_status (status_code r1)); [reflexivity|].
  unfold ret at 1.
  rewrite bind_eq. unfold gets at 1.
  rewrite bind_eq. unfold read_csv.
  rewrite bind_eq. unfold fetch at 1. simpl requests_made. simpl url.
  destruct (server env (S (requests_made s)) (url s)) as [r2|]; [|reflexivity].
  destruct (success_status (status_code r2)); [|reflexivity].
  destruct (parse_csv env (text r2)) as [df|]; [|reflexivity].
  unfold alloc at 1.
  rewrite bind_eq. unfold modify at 1.
  rewrite bind_eq. unfold deref at 1. simpl heap. rewrite lookup_insert_eq.
  reflexivity.
Qed.

Lemma extracted_frame s df : raw_frame (extracted s df) = Some df.
Proof. unfold raw_frame, extracted. simpl. apply lookup_insert_eq. Qed.

Lemma extract_events env s r s' t :
  extract env s = (r, s', t) -> forallb extract_event t = true.
Proof.
  rewrite extract_eq. cbv zeta.
  destruct (server env _ _) as [r1|]; [|now intros [= <- <- <-]].
  destruct (error_status _); [now intros [= <- <- <-]|].
  destruct (server env _ _) as [r2|]; [|now intros [= <- <- <-]].
  destruct (success_status _); [|now intros [= <- <- <-]].
  destruct (parse_csv env _); now intros [= <- <- <-].
Qed.

Lemma extract_returns env s r s' t :
  extract env s = (r, s', t) -> exists b, r = Ok b.
Proof.
  rewrite extract_eq. cbv zeta.
  destruct (server env _ _) as [r1|]; [|intros [= <- <- <-]; eauto].
  destruct (error_status _); [intros [= <- <- <-]; eauto|].
  destruct (server env _ _) as [r2|]; [|intros [= <- <- <-]; eauto].
  destruct (success_status _); [|intros [= <- <- <-]; eauto].
  destruct (parse_csv env _); intros [= <- <- <-]; eauto.
Qed.

Lemma extract_disk env s r s' t :
  extract env s = (r, s', t) -> disk s' = disk s.
Proof.
  rewrite extract_eq. cbv zeta.
  destruct (server env _ _) as [r1|]; [|now intros [= <- <- <-]].
  destruct (error_status _); [now intros [= <- <- <-]|].
  destruct (server env _ _) as [r2|]; [|now intros [= <- <- <-]].
  destruct (success_status _); [|now intros [= <- <- <-]].
  destruct (parse_csv env _); now intros [= <- <- <-].
Qed.

(** ** What [transform] can emit and touch *)

Lemma transform_cases env s :
  (raw_data s = None /\
   transform env s = (Ok false, s, [Call Transform; Print NoDataToTransform]))
  \/ (exists r, raw_data s = Some r /\ heap s !! r = None /\
      transform env s = (Raise ReferenceError, s, [Call Transform]))
  \/ (exists r raw, raw_data s = Some r /\ heap s !! r = Some raw).
Proof.
  destruct (raw_data s) as [r|] eqn:Hr.
  - destruct (heap s !! r) as [raw|] eqn:Hh.
    + right; right. eauto.
    + right; left. exists r. eauto using transform_dangling.
  - left. eauto using transform_no_data.
Qed.

Lemma transform_events env s r s' t :
  transform env s = (r, s', t) -> forallb transform_event t = true.
Proof.
  destruct (transform_cases env s) as [[_ ->]|[(r0 & _ & _ & ->)|(r0 & raw & Hr & Hh)]];
    try now intros [= <- <- <-].
  rewrite (transform_eq _ _ _ _ Hr Hh).
  destruct (select required_columns raw) as [sel|e]; [|now intros [= <- <- <-]].
  destruct (process_frame env sel) as [[[]|e] df]; now intros [= <- <- <-].
Qed.

Lemma transform_disk env s r s' t :
  transform env s = (r, s', t) -> disk s' = disk s.
Proof.
  destruct (transform_cases env s) as [[_ ->]|[(r0 & _ & _ & ->)|(r0 & raw & Hr & Hh)]];
    try now intros [= <- <- <-].
  rewrite (transform_eq _ _ _ _ Hr Hh).
  destruct (select required_columns raw) as [sel|e]; [|now intros [= <- <- <-]].
  destruct (process_frame env sel) as [[[]|e] df]; now intros [= <- <- <-].
Qed.

(** ** [load] *)

Lemma load_no_data env path s :
  processed_data s = None ->
  load env path s = (Ok false, s, [Call Load; Print NoProcessedData]).
Proof.
  intros Hp. unfold load.
  rewrite bind_eq. unfold emit at 1.
  rewrite bind_eq. unfold gets at 1. rewrite Hp. reflexivity.
Qed.

Lemma load_cannot_open env path s p :
  processed_data s = Some p -> can_open env path = false ->
  load env path s =
    (Ok false, s,
     [Call Load; DbConnect path;
      Print (LoadingError
               (OperationalError "unable to open database file"))]).
Proof.
  intros Hp Hopen. unfold load.
  rewrite bind_eq. unfold emit at 1.
  rewrite bind_eq. unfold gets at 1. rewrite Hp.
  rewrite bind_eq, try_except_eq.
  rewrite bind_eq. unfold connect.
  rewrite bind_eq. unfold emit at 1. rewrite Hopen. reflexivity.
Qed.

Lemma load_dangling env path s p :
  processed_data s = Some p -> heap s !! p = None ->
  can_open env path = true ->
  load env path s =
    (Ok false, s,
     [Call Load; DbConnect path; Print (LoadingError ReferenceError)]).
Proof.
  intros Hp Hh Hopen. unfold load.
  rewrite bind_eq. unfold emit at 1.
  rewrite bind_eq. unfold gets at 1. rewrite Hp.
  rewrite bind_eq, try_except_eq.
  rewrite bind_eq. unfold connect.
  rewrite bind_eq. unfold emit at 1. rewrite Hopen. unfold ret at 1.
  rewrite bind_eq, (the_processed_data_ok _ _ Hp).
  rewrite bind_eq. unfold deref at 1. rewrite Hh. reflexivity.
Qed.

Lemma load_eq env path s p df :
  processed_data s = Some p -> heap s !! p = Some df ->
  can_open env path = true ->
  load env path s =
  match replace_table "vaccination_data" df (database_at path s) with
  | Raise e =>
      (Ok false, s,
       [Call Load; DbConnect path;
        DbReplaceTable path "vaccination_data" (len df);
        Print (LoadingError e)])
  | Ok db1 =>
      match insert_rows "vaccination_data" df db1 with
      | Raise e =>
          (Ok false, set_disk (<[path := db1]> (disk s)) s,
           [Call Load; DbConnect path;
            DbReplaceTable path "vaccination_data" (len df);
            Print (LoadingError e)])
      | Ok db2 =>
          match create_index "idx_location_date" "vaccination_data"
                  ["location"; "date"] db2 with
          | Raise e =>
              (Ok false, set_disk (<[path := db2]> (disk s)) s,
               [Call Load; DbConnect path;
                DbReplaceTable path "vaccination_data" (len df);
                DbCreateIndex path "idx_location_date";
                Print (LoadingError e)])
          | Ok db3 =>
              (Ok true, set_disk (<[path := db3]> (disk s)) s,
               [Call Load; DbConnect path;
                DbReplaceTable path "vaccination_data" (len df);
                DbCreateIndex path "idx_location_date";
                DbClose path; Print (DataLoaded path)])
          end
      end
  end.
Proof.
  intros Hp Hh Hopen. unfold load.
  rewrite bind_eq. unfold emit at 1.
  rewrite bind_eq. unfold gets at 1. rewrite Hp.
  rewrite bind_eq, try_except_eq.
  rewrite bind_eq. unfold connect.
  rewrite bind_eq. unfold emit at 1. rewrite Hopen. unfold ret at 1.
  rewrite bind_eq, (the_processed_data_ok _ _ Hp).
  rewrite bind_eq, (deref_ok _ _ _ Hh).
  rewrite bind_eq. unfold to_sql.
  rewrite bind_eq. unfold emit at 1.
  rewrite bind_eq. unfold gets at 1.
  rewrite bind_eq. unfold lift at 1.
  destruct (replace_table _ df _) as [db1|e]; [|reflexivity].
  rewrite bind_eq. unfold modify at 1.
  rewrite bind_eq. unfold lift at 1.
  destruct (insert_rows _ df db1) as [db2|e]; [|reflexivity].
  unfold modify at 1. simpl disk. rewrite insert_insert_eq.
  rewrite bind_eq. unfold execute_create_index.
  rewrite bind_eq. unfold emit at 1.
  rewrite bind_eq. unfold gets at 1.
  rewrite bind_eq. unfold lift at 1.
  unfold database_at at 1. simpl disk. rewrite lookup_insert_eq. simpl default.
  destruct (create_index _ _ _ db2) as [db3|e]; [|reflexivity].
  unfold modify at 1. simpl disk. rewrite insert_insert_eq.
  reflexivity.
Qed.

Lemma load_cases env path s :
  exists b s' t,
    load env path s = (Ok b, s', t) /\ forallb load_event t = true /\
    clock_reads s' = clock_reads s.
Proof.
  destruct (processed_data s) as [p|] eqn:Hp.
  2:{ eexists _, _, _. split; [now apply load_no_data|]. easy. }
  destruct (can_open env path) eqn:Hopen.
  2:{ eexists _, _, _. split; [eapply load_cannot_open; eassumption|]. easy. }
  destruct (heap s !! p) as [df|] eqn:Hh.
  2:{ eexists _, _, _. split; [eapply load_dangling; eassumption|]. easy. }
  rewrite (load_eq _ _ _ _ _ Hp Hh Hopen).
  destruct (replace_table _ _ _) as [db1|e]; [|eexists _, _, _; easy].
  destruct (insert_rows _ _ _) as [db2|e]; [|eexists _, _, _; easy].
  destruct (create_index _ _ _ _) as [db3|e]; eexists _, _, _; easy.
Qed.

(** ** [run_etl_pipeline] *)

Lemma run_eq env s :
  run_etl_pipeline env s =
  match extract env (started s) with
  | (Raise e, s1, t1) => (Raise e, s1, pipeline_start ++ t1)
  | (Ok false, s1, t1) => (Ok false, s1, pipeline_start ++ t1)
  | (Ok true, s1, t1) =>
      match transform env s1 with
      | (Raise e, s2, t2) => (Raise e, s2, pipeline_start ++ t1 ++ t2)
      | (Ok false, s2, t2) => (Ok false, s2, pipeline_start ++ t1 ++ t2)
      | (Ok true, s2, t2) =>
          match load env default_db_path s2 with
          | (Raise e, s3, t3) =>
              (Raise e, s3, pipeline_start ++ t1 ++ t2 ++ t3)
          | (Ok b, s3, t3) =>
              (Ok b, started s3,
               pipeline_start ++ t1 ++ t2 ++ t3 ++
               [ClockRead;
                Print (PipelineCompleted
                         (clock env (clock_reads s3)
                          - clock env (clock_reads s)))])
          end
      end
  end.
Proof.
  unfold run_etl_pipeline.
  rewrite bind_eq. unfold emit at 1.
  rewrite bind_eq. unfold print at 1, emit at 1.
  rewrite bind_eq. unfold now at 1.
  rewrite bind_eq. fold (started s).
  destruct (extract env (started s)) as [[[[]|e] s1] t1];
    [|unfold ret; simpl; now rewrite app_nil_r|reflexivity].
  change (negb true) with false. cbv beta iota.
  rewrite bind_eq.
  destruct (transform env s1) as [[[[]|e] s2] t2];
    [|unfold ret; simpl; now rewrite app_nil_r|reflexivity].
  change (negb true) with false. cbv beta iota.
  rewrite bind_eq.
  destruct (load env default_db_path s2) as [[[b|e] s3] t3]; reflexivity.
Qed.

(** * Facts about the database *)

Lemma rows_length df : length (rows df) = len df.
Proof. unfold rows. now rewrite length_map, length_seq. Qed.

Lemma drop_table_lookup t db : tables (drop_table t db) !! t = None.
Proof. apply lookup_delete_eq. Qed.

Lemma drop_table_index t db name ix :
  indexes (drop_table t db) !! name = Some ix ->
  indexes db !! name = Some ix /\ on_table ix <> t.
Proof. intros H. now apply map_lookup_filter_Some in H. Qed.

Lemma create_table_ok t df db db1 :
  create_table t df db = Ok db1 ->
  tables db !! t = None /\ indexes db !! t = None /\
  db1 = {| tables := <[t := empty_table_of df]> (tables db);
           indexes := indexes db |}.
Proof.
  unfold create_table.
  destruct (tables db !! t); [easy|].
  destruct (indexes db !! t); [easy|].
  now intros [= <-].
Qed.

Lemma create_index_ok name t cols db db2 :
  create_index name t cols db = Ok db2 ->
  indexes db !! name = None /\ tables db !! name = None /\
  (exists tb, tables db !! t = Some tb /\
     forallb (fun c => existsb (String.eqb c) (t_columns tb)) cols = true) /\
  db2 = {| tables := tables db;
           indexes := <[name := {| on_table := t; on_columns := cols |}]>
                        (indexes db) |}.
Proof.
  unfold create_index.
  destruct (indexes db !! name); [easy|].
  destruct (tables db !! name); [easy|].
  destruct (tables db !! t) as [tb|]; [|easy].
  destruct (forallb _ cols) eqn:E; [|easy].
  intros [= <-]. eauto 10.
Qed.

Lemma insert_rows_ok t df db db2 :
  insert_rows t df db = Ok db2 ->
  insertable df = true /\
  db2 = {| tables := <[t := table_of df]> (tables db);
           indexes := indexes db |}.
Proof.
  unfold insert_rows. destruct (insertable df); [|easy].
  now intros [= <-].
Qed.

(** Replacing the table, filling and indexing it again, on a database
    where all three were just done, succeeds and changes no table and
    no entry of the index. *)
Lemma reload_database t name cols df db db1 db2 db3 :
  name <> t ->
  replace_table t df db = Ok db1 ->
  insert_rows t df db1 = Ok db2 ->
  create_index name t cols db2 = Ok db3 ->
  exists db1' db2' db3',
    replace_table t df db3 = Ok db1' /\
    insert_rows t df db1' = Ok db2' /\
    create_index name t cols db2' = Ok db3' /\
    tables db3' = tables db3 /\
    tables db3 !! t = Some (table_of df) /\
    indexes db3 !! name = Some {| on_table := t; on_columns := cols |} /\
    indexes db3' !! name = indexes db3 !! name.
Proof.
  intros Hne Hrep Hins Hidx. unfold replace_table in Hrep.
  apply create_table_ok in Hrep as (Ht0 & Hi0 & ->).
  apply insert_rows_ok in Hins as (Hok & ->).
  apply create_index_ok in Hidx as (Hi1 & Ht1 & (tb & Htb & Hcols) & ->).
  simpl in *.
  rewrite lookup_insert_eq in Htb. injection Htb as <-.
  rewrite !lookup_insert_ne in Ht1 by congruence.
  set (db0 := match tables db !! t with
              | Some _ => drop_table t db
              | None => db
              end) in *.
  set (ix := {| on_table := t; on_columns := cols |}).
  assert (Hdrop_i :
    filter (keeps_index t) (<[name := ix]> (indexes db0)) !! t = None).
  { apply map_lookup_filter_None_2. left.
    rewrite lookup_insert_ne by congruence. exact Hi0. }
  assert (Hdrop_n :
    filter (keeps_index t) (<[name := ix]> (indexes db0)) !! name = None).
  { apply map_lookup_filter_None_2. right. intros ix'.
    rewrite lookup_insert_eq. intros [= <-] Hkeep. now apply Hkeep. }
  eexists _, _, _. split; [|split; [|split]].
  - unfold replace_table, create_table, drop_table. simpl.
    rewrite lookup_insert_eq. simpl.
    rewrite lookup_delete_eq, Hdrop_i. reflexivity.
  - unfold insert_rows. rewrite Hok. reflexivity.
  - unfold create_index. simpl.
    rewrite Hdrop_n.
    rewrite !insert_insert_eq.
    rewrite lookup_insert_ne, lookup_delete_ne, lookup_insert_ne, Ht1
      by congruence.
    rewrite lookup_insert_eq. simpl in *. rewrite Hcols. reflexivity.
  - simpl. rewrite !lookup_insert_eq.
    rewrite !insert_insert_eq, insert_delete_eq, insert_insert_eq. auto.
Qed.

(** * The processed frame, row by row *)

Lemma raw_frame_inv s raw :
  raw_frame s = Some raw ->
  exists r, raw_data s = Some r /\ heap s !! r = Some raw.
Proof.
  unfold raw_frame. destruct (raw_data s) as [r|]; [|easy]. eauto.
Qed.

Lemma installed_frame s sel df : processed_frame (installed s sel df) = Some df.
Proof. unfold processed_frame. rewrite installed_processed. apply installed_heap. Qed.

(** A successful [transform], spelled out. *)
Lemma transform_ok_inv env s s' evs :
  transform env s = (Ok true, s', evs) ->
  exists raw loc d pv pfv pop parsed rate,
    raw_frame s = Some raw /\
    get_column "location" (data raw) = Some loc /\
    get_column "date" (data raw) = Some d /\
    get_column "people_vaccinated" (data raw) = Some pv /\
    get_column "people_fully_vaccinated" (data raw) = Some pfv /\
    get_column "population" (data raw) = Some pop /\
    to_datetime env d = Ok parsed /\
    rate_column pfv pop = Ok rate /\
    processed_frame s' =
      Some (processed_of (index raw) loc parsed pv pfv pop rate).
Proof.
  destruct (transform_cases env s)
    as [[_ ->]|[(r0 & _ & _ & ->)|(r0 & raw & Hr & Hh)]]; try easy.
  rewrite (transform_eq _ _ _ _ Hr Hh).
  destruct (select required_columns raw) as [sel|e] eqn:Hsel; [|easy].
  destruct (process_frame env sel) as [[[]|e] df] eqn:Hp; [|easy].
  intros [= <- <-].
  apply select_required_inv in Hsel
    as (loc & d & pv & pfv & pop & Hloc & Hd & Hpv & Hpfv & Hpop & ->).
  apply process_frame_selected in Hp as (parsed & rate & Hdt & Hrate & ->).
  exists raw, loc, d, pv, pfv, pop, parsed, rate.
  repeat split; try assumption.
  - unfold raw_frame. now rewrite Hr.
  - apply installed_frame.
Qed.

Lemma location_mask_eq raw loc :
  get_column "location" (data raw) = Some loc ->
  location_mask raw = map notna loc.
Proof. intros H. unfold location_mask. now rewrite H. Qed.

Lemma cell_at_raw raw name col j :
  get_column name (data raw) = Some col -> cell_at raw name j = col !! j.
Proof. intros H. unfold cell_at. now rewrite H. Qed.

Lemma fill_value_notna c : isna (fill_value (CNum 0) c) = false.
Proof.
  unfold fill_value. destruct (isna c) eqn:E; [reflexivity | exact E].
Qed.

Lemma is_number_notna c : is_number c = true -> isna c = false.
Proof. destruct c; simpl; try easy. now destruct (is_nan x). Qed.

Lemma fill_value_number x : is_number (fill_value (CNum 0) (CNum x)) = true.
Proof.
  unfold fill_value. simpl. destruct (is_nan x) eqn:E; simpl; [reflexivity|].
  now rewrite E.
Qed.

(** A number cell is a number once it is filled. *)
Lemma fill_value_of_number c :
  is_Some (cell_number c) -> is_number (fill_value (CNum 0) c) = true.
Proof.
  destruct c; intros [m Hm]; try discriminate Hm.
  - apply fill_value_number.
  - reflexivity.
  - reflexivity.
Qed.

(** The cells of the rate column are numbers once they are filled. *)
Lemma rate_lookup (rate : list float) j c :
  map (fill_value (CNum 0)) (map CNum rate) !! j = Some c ->
  exists r, rate !! j = Some r /\ c = fill_value (CNum 0) (CNum r).
Proof.
  rewrite !list_lookup_fmap.
  destruct (rate !! j) as [r|]; [|easy]. simpl. intros [= <-]. eauto.
Qed.

Lemma rate_lookup_Some (rate : list float) j r :
  rate !! j = Some r ->
  map (fill_value (CNum 0)) (map CNum rate) !! j
  = Some (fill_value (CNum 0) (CNum r)).
Proof. intros H. now rewrite !list_lookup_fmap, H. Qed.

Section RowFacts.

Variables (idx : list nat) (loc parsed pv pfv pop : list cell)
  (rate : list float).

Let out := processed_of idx loc parsed pv pfv pop rate.
Let keep := map notna loc.

Lemma out_location i : cell_at out "location" i = filter_mask keep loc !! i.
Proof. reflexivity. Qed.

Lemma out_people_vaccinated i :
  cell_at out "people_vaccinated" i =
  filter_mask keep (map (fill_value (CNum 0)) pv) !! i.
Proof. reflexivity. Qed.

Lemma out_people_fully_vaccinated i :
  cell_at out "people_fully_vaccinated" i =
  filter_mask keep (map (fill_value (CNum 0)) pfv) !! i.
Proof. reflexivity. Qed.

Lemma out_population i :
  cell_at out "population" i = filter_mask keep pop !! i.
Proof. reflexivity. Qed.

Lemma out_vaccination_rate i :
  cell_at out "vaccination_rate" i =
  filter_mask keep (map (fill_value (CNum 0)) (map CNum rate)) !! i.
Proof. reflexivity. Qed.

End RowFacts.

(** * The events of the stages *)

Lemma none_of_events (P Q : event -> bool) (t : list event) :
  forallb P t = true -> (forall e, P e = true -> Q e = false) ->
  existsb Q t = false.
Proof.
  intros Hall HPQ. induction t as [|e t IH]; simpl in *; [reflexivity|].
  apply andb_true_iff in Hall as [He Ht].
  now rewrite (HPQ e He), IH.
Qed.

Lemma not_in_events (P : event -> bool) (t : list event) e :
  forallb P t = true -> P e = false -> e ∉ t.
Proof.
  intros Hall He Hin. rewrite forallb_forall in Hall.
  apply list_elem_of_In in Hin. apply Hall in Hin. congruence.
Qed.

Lemma extract_event_not_db e : extract_event e = true -> is_db_event e = false.
Proof. destruct e as [[]|[]| | | | | | |]; easy. Qed.

Lemma transform_event_not_db e :
  transform_event e = true -> is_db_event e = false.
Proof. destruct e as [[]|[]| | | | | | |]; easy. Qed.

Lemma extract_event_not_report e :
  extract_event e = true -> is_duration_report e = false.
Proof. destruct e as [[]|[]| | | | | | |]; easy. Qed.

Lemma transform_event_not_report e :
  transform_event e = true -> is_duration_report e = false.
Proof. destruct e as [[]|[]| | | | | | |]; easy. Qed.

Lemma load_event_not_report e :
  load_event e = true -> is_duration_report e = false.
Proof. destruct e as [[]|[]| | | | | | |]; easy. Qed.

(** * The failures of [transform] *)

Lemma missing_columns_nonempty names df c :
  c ∈ names -> c ∉ columns df -> missing_columns names df <> [].
Proof.
  intros Hc Hn Hnil.
  assert (H : c ∈ missing_columns names df) by now apply missing_columns_spec.
  rewrite Hnil in H. now apply elem_of_nil in H.
Qed.

Lemma transform_missing env s raw :
  raw_frame s = Some raw ->
  missing_columns required_columns raw <> [] ->
  transform env s =
    (Ok false, s,
     [Call Transform; Print (AvailableColumns (columns raw));
      Print (MissingColumn
               (KeyError (missing_columns required_columns raw)));
      Print CheckColumnName]).
Proof.
  intros Hraw Hm. apply raw_frame_inv in Hraw as (r & Hr & Hh).
  rewrite (transform_eq _ _ _ _ Hr Hh), (select_missing _ _ Hm). reflexivity.
Qed.

(** [transform] returns [False] for the two conditions it tests, and
    for nothing else. *)
Lemma transform_false_inv env s s' evs :
  transform env s = (Ok false, s', evs) ->
  raw_data s = None \/
  exists raw, raw_frame s = Some raw /\
    missing_columns required_columns raw <> [].
Proof.
  destruct (transform_cases env s)
    as [[Hn _]|[(r0 & _ & _ & ->)|(r0 & raw & Hr & Hh)]]; [now left|easy|].
  rewrite (transform_eq _ _ _ _ Hr Hh).
  destruct (select required_columns raw) as [sel|e] eqn:Hsel.
  - destruct (process_frame env sel) as [[[]|e] df]; easy.
  - intros _. right. exists raw. split.
    + unfold raw_frame. now rewrite Hr.
    + now apply select_raise in Hsel.
Qed.

Lemma transform_date_error env s raw sel dates e :
  raw_frame s = Some raw ->
  select required_columns raw = Ok sel ->
  getitem "date" sel = Ok dates ->
  to_datetime env dates = Raise e ->
  transform env s =
    (Raise e, installed s sel sel,
     [Call Transform; Print (AvailableColumns (columns raw))]).
Proof.
  intros Hraw Hsel Hd He. apply raw_frame_inv in Hraw as (r & Hr & Hh).
  rewrite (transform_eq _ _ _ _ Hr Hh), Hsel.
  unfold process_frame. now rewrite Hd, He.
Qed.

Lemma copy_ref_fresh s sel : heap s !! copy_ref s sel = None.
Proof.
  apply (not_elem_of_dom (D := gset nat)). unfold copy_ref.
  pose proof (is_fresh (dom (<[fresh (dom (heap s)) := sel]> (heap s)))) as H.
  rewrite dom_insert_L in *. set_solver.
Qed.

(** * C1 *)

Section Claims.

Variable env : Env.

#[local] Open Scope float_scope.

(** C1 (as amended): when the people_fully_vaccinated and population
    columns of the raw dataset are numeric columns (float64 or 64-bit
    integers), in every row of the transformed dataset whose population
    is positive, and whose people_fully_vaccinated and population are
    not both infinite, vaccination_rate equals
    round(people_fully_vaccinated / population * 100, 2) exactly,
    computed in float64 with the rounding of a float64 column. *)
Theorem vaccination_rate_formula s s' evs raw out i cx cy x y :
  transform env s = (Ok true, s', evs) ->
  raw_frame s = Some raw ->
  numeric_columns raw = true ->
  processed_frame s' = Some out ->
  cell_at out "people_fully_vaccinated" i = Some cx ->
  cell_at out "population" i = Some cy ->
  cell_float cx = Some x ->
  cell_float cy = Some y ->
  (0 <? y) = true ->
  is_infinity x && is_infinity y = false ->
  cell_at out "vaccination_rate" i = Some (CNum (np_round 2 (x / y * 100))).
Proof.
  intros Ht Hraw Hnum Hout Hpfv Hpop Hx Hy Hpos Hinf.
  apply transform_ok_inv in Ht
    as (raw' & loc & d & pv & fully & population & parsed & rate & Hraw' & _
        & _ & _ & Hpfv' & Hpop' & _ & Hrate & Hp).
  rewrite Hraw in Hraw'. injection Hraw' as <-.
  unfold numeric_columns in Hnum. rewrite Hpfv', Hpop' in Hnum.
  rewrite Hp in Hout. injection Hout as <-.
  rewrite out_people_fully_vaccinated in Hpfv.
  rewrite out_population in Hpop.
  rewrite out_vaccination_rate.
  rewrite filter_mask_lookup in *.
  destruct (kept_position (map notna loc) i) as [j|]; [|easy].
  rewrite list_lookup_fmap in Hpfv.
  destruct (fully !! j) as [a|] eqn:Ea; [|easy].
  simpl in Hpfv. injection Hpfv as <-.
  destruct (rate_column_lookup _ _ _ _ _ _ Hrate Ea Hpop)
    as (x0 & y0 & r & Hx0 & Hy0 & Hr & Hval).
  rewrite (numeric_columns_numpy _ _ Hnum) in Hval. subst r.
  rewrite (rate_lookup_Some _ _ _ Hr). f_equal.
  unfold cell_float in Hy. rewrite Hy0 in Hy. injection Hy as <-.
  unfold fill_value in *.
  destruct (isna a) eqn:Ena.
  - destruct (isna_number _ _ Hx0 Ena) as (v & -> & Hv).
    simpl in Hx. injection Hx as <-. simpl.
    rewrite rate_of_missing by (simpl; now rewrite Hv).
    now rewrite rate_of_zero.
  - unfold cell_float in Hx. rewrite Hx0 in Hx. injection Hx as <-.
    simpl. rewrite rate_of_present; [reflexivity| |assumption|assumption].
    destruct a; try discriminate Hx0; injection Hx0 as <-; simpl.
    + exact Ena.
    + apply of_Z_not_nan.
    + apply of_Z_not_nan.
Qed.

(** * C2 *)

(** C2 (as amended): after a successful transform, in every row
    people_vaccinated, people_fully_vaccinated and vaccination_rate are
    not null; people_fully_vaccinated and vaccination_rate are numbers,
    and people_vaccinated is the source cell with 0 in place of a
    missing value, so a number whenever the source cell was a number or
    missing; the fill runs after the rate computation, so a row whose
    numerator or population was missing ends with vaccination_rate = 0. *)
Theorem filled_fields s s' evs raw out i :
  transform env s = (Ok true, s', evs) ->
  raw_frame s = Some raw ->
  processed_frame s' = Some out ->
  (forall c, cell_at out "people_vaccinated" i = Some c ->
     isna c = false /\
     exists j c0,
       source_row raw i = Some j /\
       cell_at raw "people_vaccinated" j = Some c0 /\
       c = fill_value (CNum 0) c0 /\
       (isna c0 || is_number c0 = true -> is_number c = true)) /\
  (forall c, cell_at out "people_fully_vaccinated" i = Some c ->
     is_number c = true) /\
  (forall c, cell_at out "vaccination_rate" i = Some c ->
     is_number c = true) /\
  (forall j a b,
     source_row raw i = Some j ->
     cell_at raw "people_fully_vaccinated" j = Some a ->
     cell_at raw "population" j = Some b ->
     isna a || isna b = true ->
     cell_at out "vaccination_rate" i = Some (CNum 0)).
Proof.
  intros Ht Hraw Hout.
  apply transform_ok_inv in Ht
    as (raw' & loc & d & pv & pfv & pop & parsed & rate & Hraw' & Hloc & _
        & Hpv & Hpfv & Hpop & _ & Hrate & Hp).
  rewrite Hraw in Hraw'. injection Hraw' as <-.
  rewrite Hp in Hout. injection Hout as <-.
  unfold source_row. rewrite (location_mask_eq _ _ Hloc).
  split; [|split; [|split]].
  - intros c H. rewrite out_people_vaccinated, filter_mask_lookup in H.
    destruct (kept_position _ i) as [j|]; [|easy].
    rewrite list_lookup_fmap in H.
    destruct (pv !! j) as [c0|] eqn:E; [|easy].
    injection H as <-. split; [apply fill_value_notna|].
    exists j, c0. rewrite (cell_at_raw _ _ _ _ Hpv).
    repeat split; try assumption.
    unfold fill_value. destruct (isna c0); [reflexivity|]. easy.
  - intros c H.
    rewrite out_people_fully_vaccinated, filter_mask_lookup in H.
    destruct (kept_position _ i) as [j|]; [|easy].
    rewrite list_lookup_fmap in H.
    destruct (pfv !! j) as [a|] eqn:Ea; [|easy].
    injection H as <-. apply fill_value_of_number.
    exact (proj1 (rate_column_numbers _ _ _ Hrate) _ _ Ea).
  - intros c H. rewrite out_vaccination_rate, filter_mask_lookup in H.
    destruct (kept_position _ i) as [j|]; [|easy].
    apply rate_lookup in H as (r & _ & ->). apply fill_value_number.
  - intros j a b Hj Ha Hb Hna.
    rewrite (cell_at_raw _ _ _ _ Hpfv) in Ha.
    rewrite (cell_at_raw _ _ _ _ Hpop) in Hb.
    destruct (rate_column_lookup _ _ _ _ _ _ Hrate Ha Hb)
      as (x0 & y0 & r & Hx0 & Hy0 & Hr & Hval).
    rewrite out_vaccination_rate, filter_mask_lookup, Hj.
    rewrite (rate_lookup_Some _ _ _ Hr). f_equal.
    assert (Hn : is_nan r = true).
    { destruct (numpy_dtype pfv && numpy_dtype pop).
      - subst r. apply rate_of_missing.
        exact (as_float_missing _ _ _ _ Hx0 Hy0 Hna).
      - destruct Hval as (q & Hq & ->).
        exact (py_rate_of_missing _ _ _ _ _ Hx0 Hy0 Hna Hq). }
    unfold fill_value. simpl. now rewrite Hn.
Qed.

#[local] Close Scope float_scope.

(** * C3 *)

(** C3: the processed dataset of a successful transform has no row
    with a missing location, and a row is dropped for that reason only:
    its location column is the raw one without the missing entries, in
    order, and every raw row with a location is the source of exactly
    one processed row. *)
Theorem only_rows_without_location_dropped s s' evs raw loc out :
  transform env s = (Ok true, s', evs) ->
  raw_frame s = Some raw ->
  get_column "location" (data raw) = Some loc ->
  processed_frame s' = Some out ->
  (forall i c, cell_at out "location" i = Some c -> isna c = false) /\
  get_column "location" (data out) = Some (List.filter notna loc) /\
  index out = filter_mask (map notna loc) (index raw) /\
  (length loc = len raw -> len out = length (List.filter notna loc)) /\
  (forall j c, loc !! j = Some c -> isna c = false ->
     exists i, source_row raw i = Some j /\
       cell_at out "location" i = Some c /\
       forall i', source_row raw i' = Some j -> i' = i).
Proof.
  intros Ht Hraw Hloc Hout.
  apply transform_ok_inv in Ht
    as (raw' & loc' & d & pv & pfv & pop & parsed & rate & Hraw' & Hloc'
        & _ & _ & _ & _ & _ & _ & Hp).
  rewrite Hraw in Hraw'. injection Hraw' as <-.
  rewrite Hloc in Hloc'. injection Hloc' as <-.
  rewrite Hp in Hout. injection Hout as <-.
  unfold source_row. rewrite (location_mask_eq _ _ Hloc).
  split; [|split; [|split; [|split]]].
  - intros i c. rewrite out_location, filter_mask_lookup.
    destruct (kept_position _ i) as [j|] eqn:Ej; [|easy].
    intros Hc. apply kept_position_true in Ej.
    rewrite list_lookup_fmap, Hc in Ej. simpl in Ej.
    injection Ej as Ej. unfold notna in Ej. now destruct (isna c).
  - simpl. now rewrite filter_mask_map.
  - reflexivity.
  - intros Hlen. unfold len in *. simpl.
    rewrite <- filter_mask_map. now apply filter_mask_length.
  - intros j c Hc Hna.
    assert (Hm : map notna loc !! j = Some true).
    { rewrite list_lookup_fmap, Hc. simpl. unfold notna. now rewrite Hna. }
    destruct (kept_position_exists _ _ Hm) as [i Hi].
    exists i. split; [exact Hi|split].
    + now rewrite out_location, filter_mask_lookup, Hi.
    + intros i' Hi'. eapply kept_position_inj; eassumption.
Qed.

(** * C4 *)

(** The first load: into a destination that does not exist yet, a
    dataset with the two indexed columns and no integer beyond 64 bits
    is loaded without error. *)
Lemma load_new_destination path s p df :
  processed_data s = Some p ->
  heap s !! p = Some df ->
  can_open env path = true ->
  disk s !! path = None ->
  insertable df = true ->
  forallb (fun c => existsb (String.eqb c) (columns df)) ["location"; "date"]
    = true ->
  exists s1 t1, load env path s = (Ok true, s1, t1).
Proof.
  intros Hp Hh Hopen Hnew Hins Hcols.
  rewrite (load_eq _ _ _ _ _ Hp Hh Hopen).
  replace (database_at path s) with empty_db
    by (unfold database_at; now rewrite Hnew).
  assert (Hrep : replace_table "vaccination_data" df empty_db =
    Ok {| tables := <["vaccination_data" := empty_table_of df]> ∅;
          indexes := ∅ |}).
  { unfold replace_table, create_table, empty_db. cbn [tables indexes].
    rewrite !lookup_empty. reflexivity. }
  rewrite Hrep. unfold insert_rows. rewrite Hins. cbn [tables indexes].
  unfold create_index. cbn [tables indexes].
  rewrite lookup_empty, insert_insert_eq.
  rewrite lookup_insert_ne, lookup_empty by discriminate.
  rewrite lookup_insert_eq. cbn [t_columns table_of]. rewrite Hcols. eauto.
Qed.

Lemma load_after_transform path s s' evs out :
  transform env s = (Ok true, s', evs) ->
  processed_frame s' = Some out ->
  insertable out = true ->
  can_open env path = true ->
  disk s' !! path = None ->
  exists s1 t1, load env path s' = (Ok true, s1, t1).
Proof.
  intros Ht Hout Hins Hopen Hnew.
  apply transform_ok_inv in Ht
    as (raw & loc & d & pv & pfv & pop & parsed & rate & _ & _ & _ & _ & _
        & _ & _ & _ & Hp).
  rewrite Hp in Hout. injection Hout as <-.
  unfold processed_frame in Hp.
  destruct (processed_data s') as [p|] eqn:Hpd; [|discriminate].
  eapply load_new_destination; eauto.
Qed.

(** C4: a second load of the same processed dataset into the same
    destination succeeds when the first did, and leaves the tables of
    the database as they were: the vaccination_data table holds the rows
    of the dataset, once, and the index on (location, date) is the same. *)
Theorem load_twice path s p df s1 t1 :
  processed_data s = Some p ->
  heap s !! p = Some df ->
  load env path s = (Ok true, s1, t1) ->
  exists s2,
    load env path s1 = (Ok true, s2, t1) /\
    tables (database_at path s2) = tables (database_at path s1) /\
    tables (database_at path s1) !! "vaccination_data"
      = Some (table_of df) /\
    length (t_rows (table_of df)) = len df /\
    indexes (database_at path s1) !! "idx_location_date"
      = Some location_date_index /\
    indexes (database_at path s2) !! "idx_location_date"
      = indexes (database_at path s1) !! "idx_location_date".
Proof.
  intros Hp Hh Hload.
  destruct (can_open env path) eqn:Hopen.
  2:{ rewrite (load_cannot_open _ _ _ _ Hp Hopen) in Hload. discriminate. }
  rewrite (load_eq _ _ _ _ _ Hp Hh Hopen) in Hload.
  destruct (replace_table _ df _) as [db1|] eqn:Hrep; [|discriminate].
  destruct (insert_rows _ df db1) as [db2|] eqn:Hins; [|discriminate].
  destruct (create_index _ _ _ db2) as [db3|] eqn:Hidx; [|discriminate].
  injection Hload as <- <-.
  destruct (reload_database "vaccination_data" "idx_location_date"
              _ _ _ _ _ _ ltac:(discriminate) Hrep Hins Hidx)
    as (db1' & db2' & db3' & Hrep' & Hins' & Hidx' & Htab & Ht & Hi & Hi').
  assert (Hdb : database_at path (set_disk (<[path := db3]> (disk s)) s) = db3).
  { unfold database_at. simpl. now rewrite lookup_insert_eq. }
  eexists. split.
  - rewrite (load_eq _ _ _ p df); try assumption.
    rewrite Hdb, Hrep', Hins', Hidx'. reflexivity.
  - rewrite Hdb. unfold database_at. simpl. rewrite lookup_insert_eq. simpl.
    repeat split; try assumption. apply rows_length.
Qed.

(** * C5 *)

(** C5: when extract reports failure, the run returns failure and
    neither transform nor load is called; when transform reports failure,
    the run returns failure and load is not called. *)
Theorem pipeline_short_circuits s r s' evs :
  run_etl_pipeline env s = (r, s', evs) ->
  (forall s1 t1,
     extract env (started s) = (Ok false, s1, t1) ->
     r = Ok false /\ s' = s1 /\ evs = pipeline_start ++ t1 /\
     (Call Transform ∉ evs) /\ (Call Load ∉ evs)) /\
  (forall s1 t1 s2 t2,
     extract env (started s) = (Ok true, s1, t1) ->
     transform env s1 = (Ok false, s2, t2) ->
     r = Ok false /\ s' = s2 /\ evs = pipeline_start ++ t1 ++ t2 /\
     (Call Load ∉ evs)).
Proof.
  rewrite run_eq. intros Hrun. split.
  - intros s1 t1 He. rewrite He in Hrun. injection Hrun as <- <- <-.
    apply extract_events in He.
    repeat split; intros H;
      repeat (apply elem_of_cons in H as [H|H]; [discriminate H|]);
      revert H; now apply (not_in_events extract_event).
  - intros s1 t1 s2 t2 He Ht. rewrite He, Ht in Hrun.
    injection Hrun as <- <- <-.
    apply extract_events in He. apply transform_events in Ht.
    repeat split. intros H.
    repeat (apply elem_of_cons in H as [H|H]; [discriminate H|]).
    apply elem_of_app in H as [H|H]; revert H.
    + now apply (not_in_events extract_event).
    + now apply (not_in_events transform_event).
Qed.

(** * C6 *)

(** C6: on a raw dataset that lacks a required column, transform
    returns failure after printing the available columns and then a
    message that names exactly the absent required columns; it changes
    nothing, and a run that reaches it issues no database operation. *)
Theorem missing_column_reported s raw :
  raw_frame s = Some raw ->
  (exists c, c ∈ required_columns /\ c ∉ columns raw) ->
  transform env s =
    (Ok false, s,
     [Call Transform; Print (AvailableColumns (columns raw));
      Print (MissingColumn
               (KeyError (missing_columns required_columns raw)));
      Print CheckColumnName]) /\
  (forall c, c ∈ missing_columns required_columns raw <->
             c ∈ required_columns /\ c ∉ columns raw) /\
  (forall s0 s1 t1,
     extract env (started s0) = (Ok true, s1, t1) ->
     raw_frame s1 = Some raw ->
     exists evs,
       run_etl_pipeline env s0 = (Ok false, s1, evs) /\
       existsb is_db_event evs = false /\
       (Call Load ∉ evs) /\
       disk s1 = disk s0).
Proof.
  intros Hraw (c & Hc & Hn).
  pose proof (missing_columns_nonempty _ _ _ Hc Hn) as Hm.
  split; [now apply transform_missing|].
  split; [intros c'; apply missing_columns_spec|].
  intros s0 s1 t1 He Hraw1.
  rewrite run_eq, He, (transform_missing _ _ _ Hraw1 Hm).
  eexists. split; [reflexivity|].
  pose proof (extract_events _ _ _ _ _ He) as Hev.
  split; [|split].
  - rewrite !existsb_app.
    rewrite (none_of_events _ _ _ Hev extract_event_not_db). reflexivity.
  - intros H.
    repeat (apply elem_of_cons in H as [H|H]; [discriminate H|]).
    apply elem_of_app in H as [H|H].
    + revert H. now apply (not_in_events extract_event).
    + repeat (apply elem_of_cons in H as [H|H]; [discriminate H|]).
      now apply elem_of_nil in H.
  - now apply extract_disk in He.
Qed.

(** * C7 *)

(** C7 (as amended): the orchestrator reports the duration of the run
    only when extract and transform both succeeded, after load has run
    and whatever load returned; when extract or transform does not
    succeed it returns without reporting a duration. *)
Theorem duration_reported_after_load s r s' evs :
  run_etl_pipeline env s = (r, s', evs) ->
  (forall o s1 t1,
     extract env (started s) = (o, s1, t1) -> o <> Ok true ->
     existsb is_duration_report evs = false) /\
  (forall o s1 t1 s2 t2,
     extract env (started s) = (Ok true, s1, t1) ->
     transform env s1 = (o, s2, t2) -> o <> Ok true ->
     existsb is_duration_report evs = false) /\
  (forall s1 t1 s2 t2,
     extract env (started s) = (Ok true, s1, t1) ->
     transform env s1 = (Ok true, s2, t2) ->
     exists b s3 t3,
       load env default_db_path s2 = (Ok b, s3, t3) /\
       r = Ok b /\
       evs = pipeline_start ++ t1 ++ t2 ++ t3 ++
             [ClockRead;
              Print (PipelineCompleted
                       (clock env (clock_reads s3)
                        - clock env (clock_reads s)))]).
Proof.
  rewrite run_eq. intros Hrun. split; [|split].
  - intros o s1 t1 He Ho. rewrite He in Hrun.
    pose proof (extract_events _ _ _ _ _ He) as Hev.
    assert (evs = pipeline_start ++ t1) as ->
      by (destruct o as [[]|]; [easy| |]; now injection Hrun).
    rewrite existsb_app.
    now rewrite (none_of_events _ _ _ Hev extract_event_not_report).
  - intros o s1 t1 s2 t2 He Ht Ho. rewrite He, Ht in Hrun.
    pose proof (extract_events _ _ _ _ _ He) as Hev.
    pose proof (transform_events _ _ _ _ _ Ht) as Htv.
    assert (evs = pipeline_start ++ t1 ++ t2) as ->
      by (destruct o as [[]|]; [easy| |]; now injection Hrun).
    rewrite !existsb_app.
    rewrite (none_of_events _ _ _ Hev extract_event_not_report).
    now rewrite (none_of_events _ _ _ Htv transform_event_not_report).
  - intros s1 t1 s2 t2 He Ht. rewrite He, Ht in Hrun.
    destruct (load_cases env default_db_path s2) as (b & s3 & t3 & Hl & _ & _).
    rewrite Hl in Hrun. injection Hrun as <- <- <-.
    now exists b, s3, t3.
Qed.

(** * C8 *)

(** C8 (the code against the claim): a date that [pd.to_datetime]
    cannot parse is not turned into a message and a boolean; the
    exception leaves transform, and leaves the whole run. *)
Theorem unparseable_date_escapes s raw sel dates e :
  raw_frame s = Some raw ->
  select required_columns raw = Ok sel ->
  getitem "date" sel = Ok dates ->
  to_datetime env dates = Raise e ->
  (exists s' evs, transform env s = (Raise e, s', evs)) /\
  (forall s0 s1 t1,
     extract env (started s0) = (Ok true, s1, t1) ->
     raw_frame s1 = Some raw ->
     exists s' evs, run_etl_pipeline env s0 = (Raise e, s', evs)).
Proof.
  intros Hraw Hsel Hd He. split.
  - eexists _, _. eapply transform_date_error; eassumption.
  - intros s0 s1 t1 Hex Hraw1.
    rewrite run_eq, Hex, (transform_date_error _ _ _ _ _ _ Hraw1 Hsel Hd He).
    eauto.
Qed.

(** * C9 *)

(** C9 (as amended): extract issues an HTTP GET to the configured URL
    and reports failure when there is no answer or the status is an
    error status (4xx, 5xx); otherwise it does not parse that response
    but requests the URL a second time through read_csv, and raw_data
    is the parsed body of the second response; it reports failure when
    the second request has no answer, a status outside 2xx or a body
    that does not parse. *)
Theorem extract_requests_twice s r s' evs :
  extract env s = (r, s', evs) ->
  let n := requests_made s in
  let u := url s in
  match server env n u with
  | None =>
      r = Ok false /\ List.filter is_request evs = [HttpGet u] /\
      raw_data s' = raw_data s
  | Some first =>
      if error_status (status_code first) then
        r = Ok false /\ List.filter is_request evs = [HttpGet u] /\
        raw_data s' = raw_data s
      else
        List.filter is_request evs = [HttpGet u; CsvGet u] /\
        requests_made s' = S (S n) /\
        match server env (S n) u with
        | None => r = Ok false /\ raw_data s' = raw_data s
        | Some second =>
            if success_status (status_code second) then
              match parse_csv env (text second) with
              | Some df => r = Ok true /\ raw_frame s' = Some df
              | None => r = Ok false /\ raw_data s' = raw_data s
              end
            else r = Ok false /\ raw_data s' = raw_data s
        end
  end.
Proof.
  rewrite extract_eq. cbv zeta.
  destruct (server env _ _) as [r1|]; [|now intros [= <- <- <-]].
  destruct (error_status _); [now intros [= <- <- <-]|].
  destruct (server env _ _) as [r2|]; [|now intros [= <- <- <-]].
  destruct (success_status _); [|now intros [= <- <- <-]].
  destruct (parse_csv env _) as [df|]; intros [= <- <- <-]; [|easy].
  repeat split. apply extracted_frame.
Qed.

(** * C10 *)

(** C10: whatever transform does, raw_data refers to the same object
    and that object is unchanged, as is every object that existed
    before; processed_data is either left alone or refers to a new
    object, the copy of the selection. *)
Theorem transform_preserves_raw_data s r s' evs :
  transform env s = (r, s', evs) ->
  raw_data s' = raw_data s /\
  raw_frame s' = raw_frame s /\
  (forall ref, is_Some (heap s !! ref) -> heap s' !! ref = heap s !! ref) /\
  (processed_data s' = processed_data s \/
   exists p, processed_data s' = Some p /\ heap s !! p = None).
Proof.
  destruct (transform_cases env s)
    as [[_ ->]|[(r0 & _ & _ & ->)|(r0 & raw & Hr & Hh)]];
    try (intros [= _ <- _]; now auto).
  rewrite (transform_eq _ _ _ _ Hr Hh).
  assert (Hinst : forall sel df,
    raw_data (installed s sel df) = raw_data s /\
    raw_frame (installed s sel df) = raw_frame s /\
    (forall ref, is_Some (heap s !! ref) ->
       heap (installed s sel df) !! ref = heap s !! ref) /\
    (processed_data (installed s sel df) = processed_data s \/
     exists p, processed_data (installed s sel df) = Some p /\
       heap s !! p = None)).
  { intros sel df. split; [reflexivity|]. split; [|split].
    - unfold raw_frame. rewrite installed_raw_data, Hr.
      apply installed_old. rewrite Hh. eauto.
    - intros ref. apply installed_old.
    - right. exists (copy_ref s sel).
      split; [apply installed_processed | apply copy_ref_fresh]. }
  destruct (select required_columns raw) as [sel|e];
    [|intros [= _ <- _]; now auto].
  destruct (process_frame env sel) as [[[]|e] df]; intros [= _ <- _];
    apply Hinst.
Qed.

End Claims.

(** * The statements on the sample data *)

Lemma sample_transformed_eq :
  transform sample_env (state_with_raw sample_raw) =
    (Ok true, sample_transformed.1.2, sample_transformed.2).
Proof. vm_compute. reflexivity. Defined.

Lemma sample_transformed_frame :
  processed_frame sample_transformed.1.2 = Some sample_processed.
Proof. vm_compute. reflexivity. Defined.

Lemma sample_raw_frame : raw_frame (state_with_raw sample_raw) = Some sample_raw.
Proof. vm_compute. reflexivity. Defined.

(** ** C1 *)

(** C1 as worded fails on a row whose two counts are infinite: the
    quotient is NaN, the fill writes 0, and 0 is not round(NaN). *)
Lemma rate_claim_counterexample :
  ~ rate_claim sample_env (state_with_raw sample_infinite).
Proof.
  intros H.
  pose (run := transform sample_env (state_with_raw sample_infinite)).
  assert (H1 : transform sample_env (state_with_raw sample_infinite)
               = (Ok true, run.1.2, run.2)) by (vm_compute; reflexivity).
  assert (H2 : processed_frame run.1.2 = Some sample_infinite_processed)
    by (vm_compute; reflexivity).
  specialize (H _ _ _ 0%nat PrimFloat.infinity PrimFloat.infinity H1 H2
                eq_refl eq_refl eq_refl eq_refl).
  apply (f_equal (fun c => match c with
                           | Some (CNum r) => PrimFloat.is_nan r
                           | _ => false
                           end)) in H.
  vm_compute in H. discriminate H.
Qed.

(** The formula on the first sample row: 50 of 1000 is 5 percent. *)
Lemma vaccination_rate_formula_witness :
  transform sample_env (state_with_raw sample_raw) =
    (Ok true, sample_transformed.1.2, sample_transformed.2) /\
  raw_frame (state_with_raw sample_raw) = Some sample_raw /\
  numeric_columns sample_raw = true /\
  processed_frame sample_transformed.1.2 = Some sample_processed /\
  cell_at sample_processed "people_fully_vaccinated" 0 = Some (CNum 50) /\
  cell_at sample_processed "population" 0 = Some (CNum 1000) /\
  cell_at sample_processed "vaccination_rate" 0 = Some (CNum 5).
Proof.
  split; [exact sample_transformed_eq|].
  split; [exact sample_raw_frame|].
  split; [reflexivity|].
  split; [exact sample_transformed_frame|].
  split; [reflexivity|]. split; [reflexivity|].
  exact (vaccination_rate_formula sample_env _ _ _ sample_raw
           _ 0%nat (CNum 50) (CNum 1000) 50%float 1000%float
           sample_transformed_eq sample_raw_frame eq_refl
           sample_transformed_frame
           eq_refl eq_refl eq_refl eq_refl eq_refl eq_refl).
Defined.

(** ** C2 *)

(** C2 as worded fails on a people_vaccinated cell that holds text:
    the fill leaves it, and it is no number. *)
Lemma filled_numbers_claim_counterexample :
  ~ filled_numbers_claim sample_env (state_with_raw sample_text_count).
Proof.
  intros H.
  pose (run := transform sample_env (state_with_raw sample_text_count)).
  assert (H1 : transform sample_env (state_with_raw sample_text_count)
               = (Ok true, run.1.2, run.2)) by (vm_compute; reflexivity).
  assert (H2 : processed_frame run.1.2 = Some sample_text_processed)
    by (vm_compute; reflexivity).
  specialize (H _ _ _ "people_vaccinated" 0%nat (CStr "many") H1 H2).
  discriminate H; [apply elem_of_cons; now left | reflexivity].
Qed.

(** The second sample row has no people_fully_vaccinated: its rate
    ends at 0. *)
Lemma filled_fields_witness :
  transform sample_env (state_with_raw sample_raw) =
    (Ok true, sample_transformed.1.2, sample_transformed.2) /\
  raw_frame (state_with_raw sample_raw) = Some sample_raw /\
  processed_frame sample_transformed.1.2 = Some sample_processed /\
  source_row sample_raw 1 = Some 1%nat /\
  cell_at sample_raw "people_fully_vaccinated" 1 = Some NaN /\
  cell_at sample_processed "vaccination_rate" 1 = Some (CNum 0).
Proof.
  split; [exact sample_transformed_eq|].
  split; [exact sample_raw_frame|].
  split; [exact sample_transformed_frame|].
  split; [reflexivity|]. split; [reflexivity|].
  destruct (filled_fields sample_env _ _ _ _ _ 1%nat
              sample_transformed_eq sample_raw_frame sample_transformed_frame)
    as (_ & _ & _ & Hrate).
  exact (Hrate 1%nat NaN (CNum 500) eq_refl eq_refl eq_refl eq_refl).
Defined.

(** ** C3 *)

(** Of the three sample rows, the two with a location remain. *)
Lemma only_rows_without_location_dropped_witness :
  transform sample_env (state_with_raw sample_raw) =
    (Ok true, sample_transformed.1.2, sample_transformed.2) /\
  raw_frame (state_with_raw sample_raw) = Some sample_raw /\
  get_column "location" (data sample_raw)
    = Some [CStr "USA"; CStr "FRA"; NaN] /\
  processed_frame sample_transformed.1.2 = Some sample_processed /\
  get_column "location" (data sample_processed)
    = Some [CStr "USA"; CStr "FRA"] /\
  len sample_processed = 2%nat.
Proof.
  split; [exact sample_transformed_eq|].
  split; [exact sample_raw_frame|].
  split; [reflexivity|].
  split; [exact sample_transformed_frame|].
  destruct (only_rows_without_location_dropped sample_env _ _ _ _ _ _
              sample_transformed_eq sample_raw_frame eq_refl
              sample_transformed_frame)
    as (_ & Hloc & _ & Hlen & _).
  split; [exact Hloc | exact (Hlen eq_refl)].
Defined.

(** ** C4 *)

Lemma sample_loaded_eq :
  load sample_env default_db_path sample_transformed.1.2 =
    (Ok true, sample_loaded.1.2, sample_loaded.2).
Proof. vm_compute. reflexivity. Defined.

(** Loading the processed sample twice into a new database. *)
Lemma load_twice_witness :
  processed_data sample_transformed.1.2 = Some 2%nat /\
  heap sample_transformed.1.2 !! 2%nat = Some sample_processed /\
  load sample_env default_db_path sample_transformed.1.2 =
    (Ok true, sample_loaded.1.2, sample_loaded.2) /\
  exists s2,
    load sample_env default_db_path sample_loaded.1.2
      = (Ok true, s2, sample_loaded.2) /\
    tables (database_at default_db_path s2)
      = tables (database_at default_db_path sample_loaded.1.2) /\
    length (t_rows (table_of sample_processed)) = 2%nat.
Proof.
  assert (Hp : processed_data sample_transformed.1.2 = Some 2%nat)
    by (vm_compute; reflexivity).
  assert (Hh : heap sample_transformed.1.2 !! 2%nat = Some sample_processed)
    by (vm_compute; reflexivity).
  split; [exact Hp|]. split; [exact Hh|].
  split; [exact sample_loaded_eq|].
  destruct (load_twice sample_env default_db_path _ _ _ _ _
              Hp Hh sample_loaded_eq)
    as (s2 & Hl & Ht & _ & Hn & _).
  exists s2. split; [exact Hl|]. split; [exact Ht | exact Hn].
Defined.

(** ** C5 *)

(** A run against a URL that answers 404 stops after extract. *)
Lemma pipeline_short_circuits_witness :
  run_etl_pipeline sample_env (fresh_state "/gone") =
    ((sample_pipeline "/gone").1.1, (sample_pipeline "/gone").1.2,
     (sample_pipeline "/gone").2) /\
  extract sample_env (started (fresh_state "/gone")) =
    (Ok false, (sample_extracted "/gone").1.2, (sample_extracted "/gone").2) /\
  (sample_pipeline "/gone").1.1 = Ok false /\
  (Call Transform ∉ (sample_pipeline "/gone").2) /\
  (Call Load ∉ (sample_pipeline "/gone").2).
Proof.
  assert (Hrun : run_etl_pipeline sample_env (fresh_state "/gone") =
    ((sample_pipeline "/gone").1.1, (sample_pipeline "/gone").1.2,
     (sample_pipeline "/gone").2)) by (vm_compute; reflexivity).
  assert (Hex : extract sample_env (started (fresh_state "/gone")) =
    (Ok false, (sample_extracted "/gone").1.2, (sample_extracted "/gone").2))
    by (vm_compute; reflexivity).
  split; [exact Hrun|]. split; [exact Hex|].
  destruct (pipeline_short_circuits sample_env _ _ _ _ Hrun) as [Hfail _].
  destruct (Hfail _ _ Hex) as (Hr & _ & _ & Ht & Hl).
  split; [exact Hr|]. split; [exact Ht | exact Hl].
Defined.

(** ** C6 *)

Lemma sample_no_population_frame :
  raw_frame (state_with_raw sample_no_population) = Some sample_no_population.
Proof. vm_compute. reflexivity. Defined.

(** The sample without population: the message names that column. *)
Lemma missing_column_reported_witness :
  raw_frame (state_with_raw sample_no_population) = Some sample_no_population /\
  (exists c, c ∈ required_columns /\ c ∉ columns sample_no_population) /\
  transform sample_env (state_with_raw sample_no_population) =
    (Ok false, state_with_raw sample_no_population,
     [Call Transform;
      Print (AvailableColumns
               ["location"; "date"; "people_vaccinated";
                "people_fully_vaccinated"]);
      Print (MissingColumn (KeyError ["population"]));
      Print CheckColumnName]).
Proof.
  assert (Hc : exists c, c ∈ required_columns /\
                         c ∉ columns sample_no_population).
  { exists "population". split.
    - unfold required_columns. do 4 (apply elem_of_cons; right).
      apply elem_of_cons. now left.
    - intros H. unfold columns in H. simpl in H.
      repeat (apply elem_of_cons in H as [H|H]; [discriminate H|]).
      now apply elem_of_nil in H. }
  split; [exact sample_no_population_frame|]. split; [exact Hc|].
  exact (proj1 (missing_column_reported sample_env _ _
                  sample_no_population_frame Hc)).
Defined.

(** ** C7 *)

(** C7 as worded fails on a run whose extract fails: no duration is
    reported. *)
Lemma duration_claim_counterexample :
  ~ duration_claim sample_env (fresh_state "/gone").
Proof. unfold duration_claim. vm_compute. discriminate. Qed.

(** The same run, through the amended statement. *)
Lemma duration_reported_after_load_witness :
  run_etl_pipeline sample_env (fresh_state "/gone") =
    ((sample_pipeline "/gone").1.1, (sample_pipeline "/gone").1.2,
     (sample_pipeline "/gone").2) /\
  extract sample_env (started (fresh_state "/gone")) =
    (Ok false, (sample_extracted "/gone").1.2, (sample_extracted "/gone").2) /\
  Ok false <> Ok true /\
  existsb is_duration_report (sample_pipeline "/gone").2 = false.
Proof.
  assert (Hrun : run_etl_pipeline sample_env (fresh_state "/gone") =
    ((sample_pipeline "/gone").1.1, (sample_pipeline "/gone").1.2,
     (sample_pipeline "/gone").2)) by (vm_compute; reflexivity).
  assert (Hex : extract sample_env (started (fresh_state "/gone")) =
    (Ok false, (sample_extracted "/gone").1.2, (sample_extracted "/gone").2))
    by (vm_compute; reflexivity).
  assert (Hne : @Ok bool false <> Ok true) by discriminate.
  split; [exact Hrun|]. split; [exact Hex|]. split; [exact Hne|].
  exact (proj1 (duration_reported_after_load sample_env _ _ _ _ Hrun)
           _ _ _ Hex Hne).
Defined.

(** ** C8 *)

Lemma sample_bad_date_frame :
  raw_frame (state_with_raw sample_bad_date) = Some sample_bad_date.
Proof. vm_compute. reflexivity. Defined.

(** The sample with the date [yesterday]: transform raises. *)
Lemma unparseable_date_escapes_witness :
  raw_frame (state_with_raw sample_bad_date) = Some sample_bad_date /\
  select required_columns sample_bad_date = Ok sample_bad_date_selected /\
  getitem "date" sample_bad_date_selected
    = Ok [CStr "2021-01-01"; CStr "yesterday"] /\
  to_datetime sample_env [CStr "2021-01-01"; CStr "yesterday"]
    = Raise (DateParseError "yesterday") /\
  exists s' evs,
    transform sample_env (state_with_raw sample_bad_date)
      = (Raise (DateParseError "yesterday"), s', evs).
Proof.
  split; [exact sample_bad_date_frame|].
  split; [reflexivity|]. split; [reflexivity|]. split; [reflexivity|].
  exact (proj1 (unparseable_date_escapes sample_env _ _ _ _ _
                  sample_bad_date_frame eq_refl eq_refl eq_refl)).
Defined.

(** ** C9 *)

(** C9 as worded fails on any successful extract: the URL is
    requested twice; here the body of the first answer does not even
    parse, and raw_data is the table of the second. *)
Lemma single_get_claim_counterexample :
  ~ single_get_claim sample_env (fresh_state "/changing").
Proof.
  intros H.
  pose (run := extract sample_env (fresh_state "/changing")).
  assert (H1 : extract sample_env (fresh_state "/changing")
               = (run.1.1, run.1.2, run.2)) by (vm_compute; reflexivity).
  destruct (H _ _ _ H1) as [Hreq _].
  vm_compute in Hreq. discriminate Hreq.
Qed.

(** A first answer that is neither a success nor an error status (304
    here) does not stop extract either. *)
Example extract_after_not_modified :
  (extract sample_env (fresh_state "/moved")).1.1 = Ok true /\
  server sample_env 0 "/moved" = Some {| status_code := 304; text := "full" |}.
Proof. split; vm_compute; reflexivity. Qed.

(** The same extract, through the amended statement. *)
Lemma extract_requests_twice_witness :
  extract sample_env (fresh_state "/changing") =
    (Ok true, (extract sample_env (fresh_state "/changing")).1.2,
     (extract sample_env (fresh_state "/changing")).2) /\
  List.filter is_request (extract sample_env (fresh_state "/changing")).2
    = [HttpGet "/changing"; CsvGet "/changing"] /\
  raw_frame (extract sample_env (fresh_state "/changing")).1.2
    = Some sample_raw.
Proof.
  assert (H1 : extract sample_env (fresh_state "/changing") =
    (Ok true, (extract sample_env (fresh_state "/changing")).1.2,
     (extract sample_env (fresh_state "/changing")).2))
    by (vm_compute; reflexivity).
  split; [exact H1|].
  pose proof (extract_requests_twice sample_env _ _ _ _ H1) as H.
  cbv zeta in H.
  change (server sample_env (requests_made (fresh_state "/changing"))
            (url (fresh_state "/changing")))
    with (Some {| status_code := 200; text := "garbage" |}) in H.
  change (error_status (status_code {| status_code := 200; text := "garbage" |}))
    with false in H.
  cbv iota in H. destruct H as (Hreq & _ & H).
  split; [exact Hreq|].
  change (server sample_env (S (requests_made (fresh_state "/changing")))
            (url (fresh_state "/changing")))
    with (Some {| status_code := 200; text := "full" |}) in H.
  change (success_status (status_code {| status_code := 200; text := "full" |}))
    with true in H.
  change (parse_csv sample_env (text {| status_code := 200; text := "full" |}))
    with (Some sample_raw) in H.
  cbv iota in H. exact (proj2 H).
Defined.

(** ** C10 *)

(** After the sample transform, raw_data is still the raw sample. *)
Lemma transform_preserves_raw_data_witness :
  transform sample_env (state_with_raw sample_raw) =
    (Ok true, sample_transformed.1.2, sample_transformed.2) /\
  raw_data sample_transformed.1.2 = Some 0%nat /\
  raw_frame sample_transformed.1.2 = Some sample_raw.
Proof.
  split; [exact sample_transformed_eq|].
  destruct (transform_preserves_raw_data sample_env _ _ _ _
              sample_transformed_eq) as (Hd & Hf & _).
  split; [exact Hd | exact Hf].
Defined.

(** * Further properties of the stages *)

Section MoreRounding.

Variables prec emax : Z.

Lemma SFdiv_nan_iff x y :
  sf_is_nan (SFdiv prec emax x y) =
  sf_is_nan x || sf_is_nan y || (sf_is_zero x && sf_is_zero y)
  || (sf_is_inf x && sf_is_inf y).
Proof.
  destruct x as [sx|sx| |sx mx ex], y as [sy|sy| |sy my ey]; try reflexivity.
  now apply SFdiv_not_nan.
Qed.

End MoreRounding.

Section MoreBinary64.

#[local] Open Scope float_scope.

Lemma is_zero_spec x : is_zero x = sf_is_zero (Prim2SF x).
Proof.
  unfold is_zero. rewrite FloatAxioms.eqb_spec.
  change (Prim2SF PrimFloat.zero) with (S754_zero false).
  destruct (Prim2SF x) as [s|[]| |[] m e]; reflexivity.
Qed.

Lemma div_nan_iff x y :
  is_nan (x / y) = is_nan x || is_nan y || (is_zero x && is_zero y)
                   || (is_infinity x && is_infinity y).
Proof.
  rewrite !is_nan_spec, !is_zero_spec, !is_infinity_spec, FloatAxioms.div_spec.
  apply SFdiv_nan_iff.
Qed.

Lemma mul_100_nan_iff x : is_nan (x * 100) = is_nan x.
Proof.
  destruct (is_nan x) eqn:E; [now apply mul_nan_l | now apply mul_100_not_nan].
Qed.

Lemma np_round2_nan_iff x : is_nan (np_round 2 x) = is_nan x.
Proof.
  destruct (is_nan x) eqn:E; [now apply np_round2_nan | now apply np_round2_not_nan].
Qed.

Lemma rate_nan_iff a b : is_nan (np_round 2 (a / b * 100)) = uncomputable a b.
Proof. now rewrite np_round2_nan_iff, mul_100_nan_iff, div_nan_iff. Qed.

Lemma div_by_zero_infinite a b :
  is_nan a = false -> is_zero a = false -> is_zero b = true ->
  is_infinity (a / b) = true.
Proof.
  rewrite is_nan_spec, !is_zero_spec, is_infinity_spec, FloatAxioms.div_spec.
  destruct (Prim2SF a) as [sa|sa| |sa ma ea], (Prim2SF b) as [sb|sb| |sb mb eb];
    simpl; easy.
Qed.

Lemma mul_100_infinite x : is_infinity x = true -> is_infinity (x * 100) = true.
Proof.
  rewrite !is_infinity_spec, FloatAxioms.mul_spec.
  change (Prim2SF 100) with (S754_finite false 7036874417766400 (-46)).
  destruct (Prim2SF x); simpl; easy.
Qed.

Lemma rint_infinite x : is_infinity x = true -> rint x = x.
Proof.
  intros H. unfold rint.
  assert (Hlt : (abs x <? two52) = false).
  { rewrite FloatAxioms.ltb_spec, FloatAxioms.abs_spec.
    rewrite is_infinity_spec in H.
    change (Prim2SF two52) with (S754_finite false 4503599627370496 0).
    destruct (Prim2SF x); simpl in *; easy. }
  now rewrite Hlt.
Qed.

Lemma np_round2_infinite x :
  is_infinity x = true -> is_infinity (np_round 2 x) = true.
Proof.
  intros H. unfold np_round. change (power_of_ten 2) with 100.
  rewrite (rint_infinite _ (mul_100_infinite _ H)).
  pose proof (mul_100_infinite _ H) as H1.
  rewrite is_infinity_spec in *. rewrite FloatAxioms.div_spec.
  change (Prim2SF 100) with (S754_finite false 7036874417766400 (-46)).
  destruct (Prim2SF (x * 100)); simpl in *; easy.
Qed.

Lemma infinite_not_nan x : is_infinity x = true -> is_nan x = false.
Proof.
  rewrite is_infinity_spec, is_nan_spec. now destruct (Prim2SF x).
Qed.

End MoreBinary64.

(** * More about the columns *)

Lemma to_datetime_cons env c cs :
  to_datetime env (c :: cs) =
  match to_datetime_cell env c with
  | Ok c' =>
      match to_datetime env cs with
      | Ok r => Ok (c' :: r)
      | Raise e => Raise e
      end
  | Raise e => Raise e
  end.
Proof. reflexivity. Qed.

Lemma timestamp_is_timestamp t : is_timestamp (timestamp t) = true.
Proof. now destruct t. Qed.

Lemma to_datetime_cell_ok env c c' :
  to_datetime_cell env c = Ok c' ->
  is_timestamp c' = true /\ (isna c = true -> isna c' = true).
Proof.
  destruct c as [t|x|z|b|t|]; simpl.
  - destruct (parse_date env t); [|easy]. intros [= <-].
    split; [apply timestamp_is_timestamp | easy].
  - destruct (is_nan x) eqn:E; [now intros [= <-]|].
    destruct (date_of_number env x); [|easy]. intros [= <-].
    split; [apply timestamp_is_timestamp | easy].
  - destruct (date_of_integer env z); [|easy]. intros [= <-].
    split; [apply timestamp_is_timestamp | easy].
  - easy.
  - now intros [= <-].
  - now intros [= <-].
Qed.

Lemma to_datetime_cell_raise env c e :
  to_datetime_cell env c = Raise e -> unhandled e = true.
Proof.
  destruct c as [t|x|z|b|t|]; simpl; try easy.
  - destruct (parse_date env t); [easy|]. now intros [= <-].
  - destruct (is_nan x); [easy|].
    destruct (date_of_number env x); [easy|]. now intros [= <-].
  - destruct (date_of_integer env z); [easy|]. now intros [= <-].
  - now intros [= <-].
Qed.

Lemma to_datetime_ok env col r :
  to_datetime env col = Ok r ->
  length r = length col /\
  forall j c, r !! j = Some c ->
    is_timestamp c = true /\
    exists c0, col !! j = Some c0 /\ (isna c0 = true -> isna c = true).
Proof.
  revert r. induction col as [|c col IH]; intros r.
  - intros [= <-]. split; [reflexivity|]. intros j c H. now destruct j.
  - rewrite to_datetime_cons.
    destruct (to_datetime_cell env c) as [c'|] eqn:Ec; [|easy].
    destruct (to_datetime env col) as [r'|]; [|easy].
    intros [= <-]. destruct (IH r' eq_refl) as [Hlen Hall].
    split; [simpl; now rewrite Hlen|].
    intros [|j] c1; simpl.
    + intros [= <-]. apply to_datetime_cell_ok in Ec as [Ht Hn]. eauto.
    + apply Hall.
Qed.

Lemma to_datetime_raise env col e :
  to_datetime env col = Raise e -> unhandled e = true.
Proof.
  induction col as [|c col IH]; [easy|].
  rewrite to_datetime_cons.
  destruct (to_datetime_cell env c) as [c'|e'] eqn:Ec.
  - destruct (to_datetime env col); [easy|]. intros [= <-]. now apply IH.
  - intros [= <-]. now apply to_datetime_cell_raise in Ec.
Qed.

Lemma get_column_elem name d c :
  get_column name d = Some c -> (name, c) ∈ d.
Proof.
  induction d as [|[n c'] d IH]; simpl; [easy|].
  destruct (String.eqb_spec n name) as [->|Hne].
  - intros [= ->]. apply elem_of_cons. now left.
  - intros H. apply elem_of_cons. right. now apply IH.
Qed.

Lemma aligned_column df name c :
  aligned df -> get_column name (data df) = Some c -> length c = len df.
Proof.
  intros Hal Hc. apply get_column_elem in Hc.
  unfold aligned in Hal. rewrite Forall_forall in Hal.
  exact (Hal _ Hc).
Qed.

(** * More about a successful [transform] *)

Lemma transform_ok_state env s s' evs :
  transform env s = (Ok true, s', evs) ->
  exists r raw sel df,
    raw_data s = Some r /\ heap s !! r = Some raw /\
    select required_columns raw = Ok sel /\
    process_frame env sel = (Ok tt, df) /\
    s' = installed s sel df /\
    evs = [Call Transform; Print (AvailableColumns (columns raw));
           Print (TransformedRecords (len df))].
Proof.
  destruct (transform_cases env s)
    as [[_ ->]|[(r0 & _ & _ & ->)|(r0 & raw & Hr & Hh)]]; try easy.
  rewrite (transform_eq _ _ _ _ Hr Hh).
  destruct (select required_columns raw) as [sel|e] eqn:Hsel; [|easy].
  destruct (process_frame env sel) as [[[]|e] df] eqn:Hp; [|easy].
  intros [= <- <-]. now exists r0, raw, sel, df.
Qed.

Section Cells.

Variables (idx : list nat) (loc parsed pv pfv pop : list cell)
  (rate : list float).

Let out := processed_of idx loc parsed pv pfv pop rate.
Let keep := map notna loc.

Lemma out_date i : cell_at out "date" i = filter_mask keep parsed !! i.
Proof. reflexivity. Qed.

Lemma out_population_raw i :
  cell_at out "population" i = filter_mask keep pop !! i.
Proof. reflexivity. Qed.

Lemma out_columns : columns out = processed_columns.
Proof. reflexivity. Qed.

Lemma out_len : len out = length (filter_mask keep idx).
Proof. reflexivity. Qed.

End Cells.

Lemma transform_event_not_request e :
  transform_event e = true -> is_request e = false.
Proof. destruct e as [[]|[]| | | | | | |]; easy. Qed.

(** The rate cell of a processed row of numeric columns, from the two
    cells of its source row. *)
Lemma rate_cell_of_source env s s' evs raw out i j ca cb a b :
  transform env s = (Ok true, s', evs) ->
  raw_frame s = Some raw ->
  numeric_columns raw = true ->
  processed_frame s' = Some out ->
  source_row raw i = Some j ->
  cell_at raw "people_fully_vaccinated" j = Some ca ->
  cell_at raw "population" j = Some cb ->
  cell_float ca = Some a ->
  cell_float cb = Some b ->
  cell_at out "vaccination_rate" i =
    Some (fill_value (CNum 0) (CNum (np_round 2 (a / b * 100)))).
Proof.
  intros Ht Hraw Hnum Hout Hj Ha Hb Hfa Hfb.
  apply transform_ok_inv in Ht
    as (raw' & loc & d & pv & pfv & pop & parsed & rate & Hraw' & Hloc & _
        & _ & Hpfv & Hpop & _ & Hrate & Hp).
  rewrite Hraw in Hraw'. injection Hraw' as <-.
  rewrite Hp in Hout. injection Hout as <-.
  unfold numeric_columns in Hnum. rewrite Hpfv, Hpop in Hnum.
  unfold source_row in Hj. rewrite (location_mask_eq _ _ Hloc) in Hj.
  rewrite (cell_at_raw _ _ _ _ Hpfv) in Ha.
  rewrite (cell_at_raw _ _ _ _ Hpop) in Hb.
  destruct (rate_column_lookup _ _ _ _ _ _ Hrate Ha Hb)
    as (x0 & y0 & r & Hx0 & Hy0 & Hr & Hval).
  rewrite (numeric_columns_numpy _ _ Hnum) in Hval. subst r.
  unfold cell_float in Hfa, Hfb. rewrite Hx0 in Hfa. rewrite Hy0 in Hfb.
  injection Hfa as <-. injection Hfb as <-.
  rewrite out_vaccination_rate, filter_mask_lookup, Hj.
  now apply rate_lookup_Some.
Qed.

Section TransformFacts.

Variable env : Env.


(** X9: when every column of the raw dataset has as many cells
    as the dataset has rows, so has every column of the processed
    dataset. *)
Theorem transform_keeps_alignment s s' evs raw out :
  transform env s = (Ok true, s', evs) ->
  raw_frame s = Some raw ->
  processed_frame s' = Some out ->
  aligned raw ->
  aligned out.
Proof.
  intros Ht Hraw Hout Hal.
  apply transform_ok_inv in Ht
    as (raw' & loc & d & pv & pfv & pop & parsed & rate & Hraw' & Hloc & Hd
        & Hpv & Hpfv & Hpop & Hdt & Hrate & Hp).
  rewrite Hraw in Hraw'. injection Hraw' as <-.
  rewrite Hp in Hout. injection Hout as <-.
  pose proof (aligned_column _ _ _ Hal Hloc) as Lloc.
  pose proof (aligned_column _ _ _ Hal Hd) as Ld.
  pose proof (aligned_column _ _ _ Hal Hpv) as Lpv.
  pose proof (aligned_column _ _ _ Hal Hpfv) as Lpfv.
  pose proof (aligned_column _ _ _ Hal Hpop) as Lpop.
  destruct (to_datetime_ok _ _ _ Hdt) as [Lparsed _].
  pose proof (rate_column_length _ _ _ Hrate) as Lrate.
  unfold len in *.
  unfold aligned, processed_of, len. simpl.
  repeat constructor; simpl; apply filter_mask_length;
    rewrite ?length_map; lia.
Qed.

(** X10: after a successful transform every cell of the date
    column is a timestamp or NaT, and a date that was missing in the
    source row is NaT; a date that was present can become NaT too, when
    the parser reads it so. *)
Theorem dates_are_timestamps s s' evs raw out i c :
  transform env s = (Ok true, s', evs) ->
  raw_frame s = Some raw ->
  processed_frame s' = Some out ->
  cell_at out "date" i = Some c ->
  is_timestamp c = true /\
  exists j c0,
    source_row raw i = Some j /\ cell_at raw "date" j = Some c0 /\
    (isna c0 = true -> isna c = true).
Proof.
  intros Ht Hraw Hout Hc.
  apply transform_ok_inv in Ht
    as (raw' & loc & d & pv & pfv & pop & parsed & rate & Hraw' & Hloc & Hd
        & _ & _ & _ & Hdt & _ & Hp).
  rewrite Hraw in Hraw'. injection Hraw' as <-.
  rewrite Hp in Hout. injection Hout as <-.
  rewrite out_date, filter_mask_lookup in Hc.
  unfold source_row. rewrite (location_mask_eq _ _ Hloc).
  destruct (kept_position (map notna loc) i) as [j|]; [|easy].
  destruct (to_datetime_ok _ _ _ Hdt) as [_ Hall].
  destruct (Hall _ _ Hc) as (Hts & c0 & Hc0 & Hna).
  split; [exact Hts|]. exists j, c0.
  now rewrite (cell_at_raw _ _ _ _ Hd).
Qed.

(** X11: transform passes location and population through
    unchanged: in every processed row they are the cells of its source
    row; a missing population is not filled. *)
Theorem location_and_population_passed_through s s' evs raw out i :
  transform env s = (Ok true, s', evs) ->
  raw_frame s = Some raw ->
  processed_frame s' = Some out ->
  cell_at out "location" i =
    match source_row raw i with
    | Some j => cell_at raw "location" j
    | None => None
    end /\
  cell_at out "population" i =
    match source_row raw i with
    | Some j => cell_at raw "population" j
    | None => None
    end.
Proof.
  intros Ht Hraw Hout.
  apply transform_ok_inv in Ht
    as (raw' & loc & d & pv & pfv & pop & parsed & rate & Hraw' & Hloc & _
        & _ & _ & Hpop & _ & _ & Hp).
  rewrite Hraw in Hraw'. injection Hraw' as <-.
  rewrite Hp in Hout. injection Hout as <-.
  unfold source_row. rewrite (location_mask_eq _ _ Hloc).
  rewrite out_location, out_population_raw, !filter_mask_lookup.
  destruct (kept_position (map notna loc) i) as [j|]; [|easy].
  now rewrite (cell_at_raw _ _ _ _ Hloc), (cell_at_raw _ _ _ _ Hpop).
Qed.

#[local] Open Scope float_scope.

(** X12: the rate of a processed row from the numbers of its
    source row, when the two columns are numeric columns (float64 or
    64-bit integers): 0 when the quotient is undefined (an operand is
    NaN, or both are zero, or both are infinite), and the float64
    value of a / b * 100 rounded to 2 decimals otherwise. *)
Theorem rate_from_raw_values s s' evs raw out i j ca cb a b :
  transform env s = (Ok true, s', evs) ->
  raw_frame s = Some raw ->
  numeric_columns raw = true ->
  processed_frame s' = Some out ->
  source_row raw i = Some j ->
  cell_at raw "people_fully_vaccinated" j = Some ca ->
  cell_at raw "population" j = Some cb ->
  cell_float ca = Some a ->
  cell_float cb = Some b ->
  cell_at out "vaccination_rate" i =
    Some (CNum (if uncomputable a b then 0
                else np_round 2 (a / b * 100))).
Proof.
  intros Ht Hraw Hnum Hout Hj Ha Hb Hfa Hfb.
  rewrite (rate_cell_of_source _ _ _ _ _ _ _ _ _ _ _ _
             Ht Hraw Hnum Hout Hj Ha Hb Hfa Hfb).
  unfold fill_value. simpl. rewrite rate_nan_iff.
  now destruct (uncomputable a b).
Qed.

(** X13: on numeric columns (float64 or 64-bit integers) the
    division raises nothing: when the required columns are there, the
    three columns of counts are numeric and the dates convert,
    transform succeeds whatever the numbers are, and a source row with
    a population of zero and a nonzero people_fully_vaccinated gets an
    infinite vaccination_rate, which neither the rounding nor the fill
    replaces. *)
Theorem division_by_zero_gives_infinity s raw sel dates parsed :
  raw_frame s = Some raw ->
  select required_columns raw = Ok sel ->
  numeric_counts raw = true ->
  get_column "date" (data raw) = Some dates ->
  to_datetime env dates = Ok parsed ->
  exists s' evs out,
    transform env s = (Ok true, s', evs) /\
    processed_frame s' = Some out /\
    forall i j ca cb a b,
      source_row raw i = Some j ->
      cell_at raw "people_fully_vaccinated" j = Some ca ->
      cell_at raw "population" j = Some cb ->
      cell_float ca = Some a ->
      cell_float cb = Some b ->
      is_nan a = false -> is_zero a = false -> is_zero b = true ->
      exists r,
        cell_at out "vaccination_rate" i = Some (CNum r) /\
        is_infinity r = true.
Proof.
  intros Hraw Hsel Hcounts Hdates Hdt.
  assert (Hnum : numeric_columns raw = true).
  { unfold numeric_counts in Hcounts.
    now apply andb_true_iff in Hcounts as [-> _]. }
  assert (Hrun : exists s' evs, transform env s = (Ok true, s', evs)).
  { destruct (raw_frame_inv _ _ Hraw) as (r0 & Hr & Hh).
    rewrite (transform_eq _ _ _ _ Hr Hh), Hsel.
    apply select_required_inv in Hsel
      as (loc & d & pv & pfv & pop & _ & Hd & _ & Hpfv & Hpop & ->).
    rewrite Hdates in Hd. injection Hd as <-.
    pose proof Hnum as Hboth.
    unfold numeric_columns in Hboth. rewrite Hpfv, Hpop in Hboth.
    apply andb_true_iff in Hboth as [Hnf Hnp].
    destruct (rate_column_numeric _ _ Hnf Hnp) as [rate Hrate].
    assert (Hp : exists df,
      process_frame env
        {| index := index raw;
           data := [("location", loc); ("date", dates);
                    ("people_vaccinated", pv);
                    ("people_fully_vaccinated", pfv);
                    ("population", pop)] |} = (Ok tt, df)).
    { unfold process_frame, getitem, setitem, dropna, fillna. simpl.
      rewrite Hdt, Hrate. eauto. }
    destruct Hp as [df ->]. eauto. }
  destruct Hrun as (s' & evs & Ht).
  pose proof Ht as Ht'.
  apply transform_ok_inv in Ht'
    as (raw' & loc & d & pv & pfv & pop & parsed' & rate & _ & _ & _ & _ & _
        & _ & _ & _ & Hp).
  eexists s', evs, _. split; [exact Ht|]. split; [exact Hp|].
  intros i j ca cb a b Hj Ha Hb Hfa Hfb Hn Hza Hzb.
  rewrite (rate_cell_of_source _ _ _ _ _ _ _ _ _ _ _ _
             Ht Hraw Hnum Hp Hj Ha Hb Hfa Hfb).
  pose proof (np_round2_infinite _
                (mul_100_infinite _ (div_by_zero_infinite _ _ Hn Hza Hzb)))
    as Hinf.
  exists (np_round 2 (a / b * 100)). split; [|exact Hinf].
  unfold fill_value. simpl. now rewrite (infinite_not_nan _ Hinf).
Qed.

#[local] Close Scope float_scope.


End TransformFacts.

(** * More about [load] and the database *)

Lemma database_at_insert path db d s :
  database_at path (set_disk (<[path := db]> d) s) = db.
Proof. unfold database_at. simpl. now rewrite lookup_insert_eq. Qed.

Lemma replace_table_ok t df db db1 :
  replace_table t df db = Ok db1 ->
  tables db1 = <[t := empty_table_of df]> (tables db) /\
  indexes db1 !! t = None /\
  (forall n ix, indexes db !! n = Some ix -> on_table ix <> t ->
     indexes db1 !! n = Some ix) /\
  (forall n ix, indexes db1 !! n = Some ix -> indexes db !! n = Some ix).
Proof.
  unfold replace_table. intros H.
  apply create_table_ok in H as (_ & Hi & ->). cbn [tables indexes] in *.
  destruct (tables db !! t) eqn:E.
  - unfold drop_table in *. cbn [tables indexes] in *.
    split; [apply insert_delete_eq|]. split; [exact Hi|]. split.
    + intros n ix Hn Hon. now apply map_lookup_filter_Some_2.
    + intros n ix Hn. now apply map_lookup_filter_Some_1_1 in Hn.
  - auto.
Qed.

Lemma load_ok_inv env path s p df s1 t :
  processed_data s = Some p -> heap s !! p = Some df ->
  load env path s = (Ok true, s1, t) ->
  tables (database_at path s1) !! "vaccination_data" = Some (table_of df) /\
  indexes (database_at path s1) !! "idx_location_date"
    = Some location_date_index /\
  heap s1 = heap s /\ processed_data s1 = processed_data s.
Proof.
  intros Hp Hh Hload.
  destruct (can_open env path) eqn:Hopen.
  2:{ rewrite (load_cannot_open _ _ _ _ Hp Hopen) in Hload. discriminate. }
  rewrite (load_eq _ _ _ _ _ Hp Hh Hopen) in Hload.
  destruct (replace_table _ df _) as [db1|] eqn:Hrep; [|discriminate].
  destruct (insert_rows _ df db1) as [db2|] eqn:Hins; [|discriminate].
  destruct (create_index _ _ _ db2) as [db3|] eqn:Hidx; [|discriminate].
  injection Hload as <- _.
  rewrite database_at_insert.
  apply insert_rows_ok in Hins as (_ & ->).
  apply create_index_ok in Hidx as (_ & _ & _ & ->). cbn [tables indexes].
  rewrite !lookup_insert_eq. auto.
Qed.

Section LoadFacts.

Variable env : Env.

(** X1: extract never raises: whatever the server and the parser
    do, it returns a boolean.  It issues no database operation and reads
    no clock, it leaves the database files and processed_data as they
    were, and every DataFrame object that existed before is unchanged. *)
Theorem extract_is_contained s :
  (exists b, (extract env s).1.1 = Ok b) /\
  existsb is_db_event (extract env s).2 = false /\
  disk (extract env s).1.2 = disk s /\
  processed_data (extract env s).1.2 = processed_data s /\
  clock_reads (extract env s).1.2 = clock_reads s /\
  (forall ref, is_Some (heap s !! ref) ->
     heap (extract env s).1.2 !! ref = heap s !! ref).
Proof.
  destruct (extract env s) as [[r s'] evs] eqn:He. simpl.
  split; [exact (extract_returns _ _ _ _ _ He)|].
  split; [exact (none_of_events _ _ _ (extract_events _ _ _ _ _ He)
                   extract_event_not_db)|].
  split; [exact (extract_disk _ _ _ _ _ He)|].
  rewrite extract_eq in He. cbv zeta in He.
  destruct (server env _ _) as [r1|]; [|injection He as _ <- _; now auto].
  destruct (error_status _); [injection He as _ <- _; now auto|].
  destruct (server env _ _) as [r2|]; [|injection He as _ <- _; now auto].
  destruct (success_status _); [|injection He as _ <- _; now auto].
  destruct (parse_csv env _) as [df|]; injection He as _ <- _; [|now auto].
  split; [reflexivity|]. split; [reflexivity|].
  intros ref Href. unfold extracted. simpl.
  apply lookup_insert_ne. intros <-.
  apply (is_fresh (dom (heap s))). now apply elem_of_dom.
Qed.

(** X2: load never raises: it returns a boolean whatever the
    database does.  It sends no request and reads no clock, and it only
    reads the object: raw_data, processed_data and every DataFrame are
    as they were. *)
Theorem load_is_contained path s :
  (exists b, (load env path s).1.1 = Ok b) /\
  existsb is_request (load env path s).2 = false /\
  heap (load env path s).1.2 = heap s /\
  raw_data (load env path s).1.2 = raw_data s /\
  processed_data (load env path s).1.2 = processed_data s /\
  requests_made (load env path s).1.2 = requests_made s /\
  clock_reads (load env path s).1.2 = clock_reads s.
Proof.
  destruct (processed_data s) as [p|] eqn:Hp.
  2:{ rewrite (load_no_data _ _ _ Hp). simpl. eauto 10. }
  destruct (can_open env path) eqn:Hopen.
  2:{ rewrite (load_cannot_open _ _ _ _ Hp Hopen). simpl. eauto 10. }
  destruct (heap s !! p) as [df|] eqn:Hh.
  2:{ rewrite (load_dangling _ _ _ _ Hp Hh Hopen). simpl. eauto 10. }
  rewrite (load_eq _ _ _ _ _ Hp Hh Hopen).
  destruct (replace_table _ _ _) as [db1|e]; [|simpl; eauto 10].
  destruct (insert_rows _ _ _) as [db2|e]; [|simpl; eauto 10].
  destruct (create_index _ _ _ _) as [db3|e]; simpl; eauto 10.
Qed.

(** X3: load closes the connection when it succeeds and only
    then: a load that returns failure has closed nothing, although it has
    opened the connection whenever there was processed data and the file
    could be opened. *)
Theorem load_closes_only_on_success path s b s' evs :
  load env path s = (Ok b, s', evs) ->
  (b = true -> DbClose path ∈ evs) /\
  (b = false -> forall p, DbClose p ∉ evs) /\
  (b = false -> processed_data s <> None -> can_open env path = true ->
   DbConnect path ∈ evs).
Proof.
  assert (Hnot : forall (l : list event) p,
            forallb (fun e => match e with DbClose _ => false | _ => true end) l
              = true -> DbClose p ∉ l).
  { intros l p Hall Hin. rewrite forallb_forall in Hall.
    apply list_elem_of_In in Hin. now apply Hall in Hin. }
  destruct (processed_data s) as [p|] eqn:Hp.
  2:{ rewrite (load_no_data _ _ _ Hp). intros [= <- _ <-].
      split; [easy|]. split; [|easy]. intros _ q. now apply Hnot. }
  destruct (can_open env path) eqn:Hopen.
  2:{ rewrite (load_cannot_open _ _ _ _ Hp Hopen). intros [= <- _ <-].
      split; [easy|]. split; [|easy]. intros _ q. now apply Hnot. }
  destruct (heap s !! p) as [df|] eqn:Hh.
  2:{ rewrite (load_dangling _ _ _ _ Hp Hh Hopen). intros [= <- _ <-].
      split; [easy|]. split; [intros _ q; now apply Hnot|].
      intros _ _ _. apply elem_of_cons. right. apply elem_of_cons. now left. }
  rewrite (load_eq _ _ _ _ _ Hp Hh Hopen).
  destruct (replace_table _ _ _) as [db1|e].
  2:{ intros [= <- _ <-].
      split; [easy|]. split; [intros _ q; now apply Hnot|].
      intros _ _ _. apply elem_of_cons. right. apply elem_of_cons. now left. }
  destruct (insert_rows _ _ _) as [db2|e].
  2:{ intros [= <- _ <-].
      split; [easy|]. split; [intros _ q; now apply Hnot|].
      intros _ _ _. apply elem_of_cons. right. apply elem_of_cons. now left. }
  destruct (create_index _ _ _ _) as [db3|e]; intros [= <- _ <-].
  - split; [|split; easy]. intros _.
    do 4 (apply elem_of_cons; right). apply elem_of_cons. now left.
  - split; [easy|]. split; [intros _ q; now apply Hnot|].
    intros _ _ _. apply elem_of_cons. right. apply elem_of_cons. now left.
Qed.


(** X5: load writes to the file at db_path only, and in it to
    the table vaccination_data only: every other file, every other table
    and every index of another table is as it was, whether load succeeds
    or fails. *)
Theorem load_touches_only_its_table path s :
  (forall path', path' <> path ->
     disk (load env path s).1.2 !! path' = disk s !! path') /\
  (forall t, t <> "vaccination_data" ->
     tables (database_at path (load env path s).1.2) !! t
       = tables (database_at path s) !! t) /\
  (forall n ix, on_table ix <> "vaccination_data" ->
     indexes (database_at path s) !! n = Some ix ->
     indexes (database_at path (load env path s).1.2) !! n = Some ix).
Proof.
  destruct (processed_data s) as [p|] eqn:Hp.
  2:{ rewrite (load_no_data _ _ _ Hp). simpl. auto. }
  destruct (can_open env path) eqn:Hopen.
  2:{ rewrite (load_cannot_open _ _ _ _ Hp Hopen). simpl. auto. }
  destruct (heap s !! p) as [df|] eqn:Hh.
  2:{ rewrite (load_dangling _ _ _ _ Hp Hh Hopen). simpl. auto. }
  rewrite (load_eq _ _ _ _ _ Hp Hh Hopen).
  destruct (replace_table _ _ _) as [db1|e] eqn:Hrep; [|simpl; auto].
  apply replace_table_ok in Hrep as (Ht & _ & Hkeep & _).
  destruct (insert_rows _ _ _) as [db2|e] eqn:Hins; cbn [fst snd].
  2:{ rewrite database_at_insert. cbn [disk set_disk].
      split; [|split].
      - intros path' Hne. now apply lookup_insert_ne.
      - intros t Hne. rewrite Ht. now apply lookup_insert_ne.
      - intros n ix Hon Hn. exact (Hkeep _ _ Hn Hon). }
  apply insert_rows_ok in Hins as (_ & ->).
  destruct (create_index _ _ _ _) as [db3|e] eqn:Hidx; cbn [fst snd].
  - apply create_index_ok in Hidx as (Hfree & _ & _ & ->).
    rewrite database_at_insert. cbn [tables indexes disk set_disk] in *.
    split; [|split].
    + intros path' Hne. now apply lookup_insert_ne.
    + intros t Hne. rewrite Ht. now rewrite !lookup_insert_ne.
    + intros n ix Hon Hn. pose proof (Hkeep _ _ Hn Hon) as Hn1.
      rewrite lookup_insert_ne; [exact Hn1|]. intros <-. congruence.
  - rewrite database_at_insert. cbn [tables indexes disk set_disk].
    split; [|split].
    + intros path' Hne. now apply lookup_insert_ne.
    + intros t Hne. rewrite Ht. now rewrite !lookup_insert_ne.
    + intros n ix Hon Hn. exact (Hkeep _ _ Hn Hon).
Qed.

(** X8: the processed dataset of a successful transform has
    the five selected columns followed by vaccination_rate, in that
    order; a successful load writes a table with these columns, without
    the index, and with one row per row of the dataset. *)
Theorem processed_schema s s' evs out :
  transform env s = (Ok true, s', evs) ->
  processed_frame s' = Some out ->
  columns out = processed_columns /\
  (forall path s2 t2,
     load env path s' = (Ok true, s2, t2) ->
     exists tb,
       tables (database_at path s2) !! "vaccination_data" = Some tb /\
       t_columns tb = processed_columns /\
       length (t_rows tb) = len out).
Proof.
  intros Ht Hout.
  apply transform_ok_inv in Ht
    as (raw & loc & d & pv & pfv & pop & parsed & rate & _ & _ & _ & _ & _
        & _ & _ & _ & Hp).
  rewrite Hp in Hout. injection Hout as <-.
  split; [reflexivity|].
  intros path s2 t2 Hload. unfold processed_frame in Hp.
  destruct (processed_data s') as [p|] eqn:Hpd; [|discriminate].
  destruct (load_ok_inv _ _ _ _ _ _ _ Hpd Hp Hload) as (Htb & _).
  eexists. split; [exact Htb|]. split; [reflexivity | apply rows_length].
Qed.

(** X15: when the date conversion raises, processed_data is
    already set, to the selected columns as they were downloaded; when
    its rows can be inserted (no integer beyond 64 bits), a load on that
    object into a new database succeeds and writes this unprocessed
    selection. *)
Theorem failed_transform_leaves_selection s raw sel dates e s' evs :
  raw_frame s = Some raw ->
  select required_columns raw = Ok sel ->
  getitem "date" sel = Ok dates ->
  to_datetime env dates = Raise e ->
  transform env s = (Raise e, s', evs) ->
  processed_frame s' = Some sel /\
  columns sel = required_columns /\
  index sel = index raw /\
  (forall path,
     insertable sel = true ->
     can_open env path = true -> disk s' !! path = None ->
     exists s2 t2,
       load env path s' = (Ok true, s2, t2) /\
       tables (database_at path s2) !! "vaccination_data"
         = Some (table_of sel)).
Proof.
  intros Hraw Hsel Hd He Ht.
  rewrite (transform_date_error _ _ _ _ _ _ Hraw Hsel Hd He) in Ht.
  injection Ht as <- _.
  pose proof (installed_frame s sel sel) as Hf.
  apply select_required_inv in Hsel
    as (loc & d & pv & pfv & pop & _ & _ & _ & _ & _ & ->).
  split; [exact Hf|]. split; [reflexivity|]. split; [reflexivity|].
  intros path Hins Hopen Hnew. unfold processed_frame in Hf.
  destruct (processed_data (installed s _ _)) as [p|] eqn:Hpd; [|discriminate].
  destruct (load_new_destination env path _ _ _ Hpd Hf Hopen Hnew Hins
              eq_refl)
    as (s2 & t2 & Hload).
  exists s2, t2. split; [exact Hload|].
  exact (proj1 (load_ok_inv _ _ _ _ _ _ _ Hpd Hf Hload)).
Qed.

End LoadFacts.

(** * More about whole runs *)

Ltac not_listed :=
  let H := fresh in
  intros H;
  repeat (apply elem_of_cons in H as [H|H]; [discriminate H|]);
  now apply elem_of_nil in H.

Lemma in_events (P : event -> bool) (t : list event) e :
  forallb P t = true -> e ∈ t -> P e = true.
Proof.
  intros Hall Hin. rewrite forallb_forall in Hall.
  now apply Hall, list_elem_of_In.
Qed.

Lemma load_event_not_request e : load_event e = true -> is_request e = false.
Proof. destruct e as [[]|[]| | | | | | |]; easy. Qed.

Lemma extract_true_inv env s s1 t :
  extract env s = (Ok true, s1, t) -> exists df, s1 = extracted s df.
Proof.
  rewrite extract_eq. cbv zeta.
  destruct (server env _ _) as [r1|]; [|easy].
  destruct (error_status _); [easy|].
  destruct (server env _ _) as [r2|]; [|easy].
  destruct (success_status _); [|easy].
  destruct (parse_csv env _) as [df|]; [|easy].
  intros [= <- _]. now exists df.
Qed.

Lemma extract_requests env s r s' t :
  extract env s = (r, s', t) ->
  HttpGet (url s) ∈ t /\
  (forall e, e ∈ t -> is_request e = true ->
     e = HttpGet (url s) \/ e = CsvGet (url s)).
Proof.
  assert (Hreq : forall (l : list event) u,
    forallb (fun e => match e with
                      | HttpGet v | CsvGet v => String.eqb v u
                      | _ => true
                      end) l = true ->
    forall e, e ∈ l -> is_request e = true -> e = HttpGet u \/ e = CsvGet u).
  { intros l u Hall e Hin He. pose proof (in_events _ _ _ Hall Hin) as H.
    destruct e; try discriminate He; apply String.eqb_eq in H as ->; auto. }
  assert (Hget : forall (l : list event) u,
            HttpGet u ∈ Call Extract :: HttpGet u :: l).
  { intros l u. apply elem_of_cons. right. apply elem_of_cons. now left. }
  rewrite extract_eq. cbv zeta.
  destruct (server env _ _) as [r1|].
  2:{ intros [= _ _ <-]. split; [apply Hget|]. apply Hreq. simpl.
      now rewrite String.eqb_refl. }
  destruct (error_status _).
  { intros [= _ _ <-]. split; [apply Hget|]. apply Hreq. simpl.
    now rewrite String.eqb_refl. }
  destruct (server env _ _) as [r2|].
  2:{ intros [= _ _ <-]. split; [apply Hget|]. apply Hreq. simpl.
      now rewrite String.eqb_refl. }
  destruct (success_status _).
  2:{ intros [= _ _ <-]. split; [apply Hget|]. apply Hreq. simpl.
      now rewrite String.eqb_refl. }
  destruct (parse_csv env _) as [df|]; intros [= _ _ <-];
    (split; [apply Hget|]; apply Hreq; simpl; now rewrite String.eqb_refl).
Qed.

Lemma process_frame_raise env idx loc d pv pfv pop e df :
  process_frame env
    {| index := idx;
       data := [("location", loc); ("date", d); ("people_vaccinated", pv);
                ("people_fully_vaccinated", pfv); ("population", pop)] |}
    = (Raise e, df) ->
  unhandled e = true.
Proof.
  unfold process_frame, getitem, setitem, dropna, fillna. simpl.
  destruct (to_datetime env d) as [parsed|e1] eqn:Ed.
  2:{ intros [= <- _]. exact (to_datetime_raise _ _ _ Ed). }
  destruct (rate_column pfv pop) as [rate|e1] eqn:Er; [easy|].
  intros [= <- _].
  destruct (rate_column_raise _ _ _ Er) as [->|[->|[->| ->]]]; reflexivity.
Qed.

(** [transform] on an object that holds downloaded data. *)
Lemma transform_with_data env s raw r s' t :
  raw_frame s = Some raw ->
  transform env s = (r, s', t) ->
  (Print NoDataToTransform ∉ t) /\
  match r with
  | Raise e =>
      unhandled e = true /\
      t = [Call Transform; Print (AvailableColumns (columns raw))]
  | Ok true => exists p, processed_data s' = Some p
  | Ok false => True
  end.
Proof.
  intros Hraw. apply raw_frame_inv in Hraw as (r0 & Hr & Hh).
  rewrite (transform_eq _ _ _ _ Hr Hh).
  destruct (select required_columns raw) as [sel|e0] eqn:Hsel.
  2:{ intros [= <- <- <-]. split; [not_listed | exact I]. }
  apply select_required_inv in Hsel
    as (loc & d & pv & pfv & pop & _ & _ & _ & _ & _ & ->).
  destruct (process_frame env _) as [[[]|e0] df] eqn:Hp; intros [= <- <- <-].
  - split; [not_listed|]. eexists. apply installed_processed.
  - split; [not_listed|]. split; [|reflexivity].
    exact (process_frame_raise _ _ _ _ _ _ _ _ _ Hp).
Qed.

(** [load] on an object that holds processed data. *)
Lemma load_with_data env path s p :
  processed_data s = Some p -> Print NoProcessedData ∉ (load env path s).2.
Proof.
  intros Hp.
  destruct (can_open env path) eqn:Hopen.
  2:{ rewrite (load_cannot_open _ _ _ _ Hp Hopen). simpl. not_listed. }
  destruct (heap s !! p) as [df|] eqn:Hh.
  2:{ rewrite (load_dangling _ _ _ _ Hp Hh Hopen). simpl. not_listed. }
  rewrite (load_eq _ _ _ _ _ Hp Hh Hopen).
  destruct (replace_table _ _ _) as [db1|e]; [|simpl; not_listed].
  destruct (insert_rows _ _ _) as [db2|e]; [|simpl; not_listed].
  destruct (create_index _ _ _ _) as [db3|e]; simpl; not_listed.
Qed.

(** The output of a run, stage by stage. *)
Lemma run_events env s r s' evs :
  run_etl_pipeline env s = (r, s', evs) ->
  exists r1 s1 t1 t2 t3 t4,
    extract env (started s) = (r1, s1, t1) /\
    evs = pipeline_start ++ t1 ++ t2 ++ t3 ++ t4 /\
    forallb transform_event t2 = true /\
    forallb load_event t3 = true /\
    forallb (fun e => negb (is_request e)) t4 = true /\
    (r = Ok true \/ r = Ok false \/ exists e, r = Raise e /\ unhandled e = true).
Proof.
  rewrite run_eq.
  destruct (extract env (started s)) as [[r1 s1] t1] eqn:He.
  destruct (extract_returns _ _ _ _ _ He) as [[] ->].
  2:{ intros [= <- <- <-]. exists (Ok false), s1, t1, [], [], [].
      rewrite !app_nil_r. auto 10. }
  destruct (extract_true_inv _ _ _ _ He) as [raw ->].
  destruct (transform env _) as [[r2 s2] t2] eqn:Ht.
  pose proof (transform_events _ _ _ _ _ Ht) as Hev2.
  destruct (transform_with_data _ _ _ _ _ _ (extracted_frame _ _) Ht)
    as [_ Hr2].
  destruct r2 as [[]|e].
  - destruct (load_cases env default_db_path s2) as (b & s3 & t3 & -> & Hev3 & _).
    intros [= <- <- <-]. exists (Ok true), (extracted (started s) raw), t1, t2, t3.
    eexists. split; [reflexivity|]. split; [reflexivity|].
    split; [exact Hev2|]. split; [exact Hev3|]. split; [reflexivity|].
    destruct b; auto.
  - intros [= <- <- <-]. exists (Ok true), (extracted (started s) raw), t1, t2, [], [].
    rewrite !app_nil_r. auto 10.
  - intros [= <- <- <-]. exists (Ok true), (extracted (started s) raw), t1, t2, [], [].
    rewrite !app_nil_r. destruct Hr2 as [Hu _]. eauto 12.
Qed.

Lemma main_eq env s :
  main env s =
  match run_etl_pipeline env (init main_url s) with
  | (Ok _, s', t) => (Ok tt, s', t)
  | (Raise e, s', t) => (Raise e, s', t)
  end.
Proof.
  unfold main. rewrite bind_eq. unfold modify at 1. rewrite bind_eq.
  destruct (run_etl_pipeline env (init main_url s)) as [[[b|e] s'] t];
    [|reflexivity].
  unfold ret. cbn [app]. now rewrite app_nil_r.
Qed.

Section RunFacts.

Variable env : Env.

(** X7: in a run of the pipeline the two guards are never taken:
    neither [No data to transform] nor [No processed data to load] is
    printed, since transform runs only after an extract that set
    raw_data and load only after a transform that set processed_data. *)
Theorem run_guards_never_fire s :
  (Print NoDataToTransform ∉ (run_etl_pipeline env s).2) /\
  (Print NoProcessedData ∉ (run_etl_pipeline env s).2).
Proof.
  rewrite run_eq.
  destruct (extract env (started s)) as [[r1 s1] t1] eqn:He.
  pose proof (extract_events _ _ _ _ _ He) as Hev1.
  assert (H1a : Print NoDataToTransform ∉ pipeline_start ++ t1).
  { apply not_elem_of_app. split; [not_listed|].
    now apply (not_in_events _ _ _ Hev1). }
  assert (H1b : Print NoProcessedData ∉ pipeline_start ++ t1).
  { apply not_elem_of_app. split; [not_listed|].
    now apply (not_in_events _ _ _ Hev1). }
  destruct (extract_returns _ _ _ _ _ He) as [[] ->]; [|now split].
  destruct (extract_true_inv _ _ _ _ He) as [raw ->].
  destruct (transform env _) as [[r2 s2] t2] eqn:Ht.
  pose proof (transform_events _ _ _ _ _ Ht) as Hev2.
  destruct (transform_with_data _ _ _ _ _ _ (extracted_frame _ _) Ht)
    as [Hno Hr2].
  assert (H2a : Print NoDataToTransform ∉ pipeline_start ++ t1 ++ t2).
  { rewrite app_assoc. apply not_elem_of_app. now split. }
  assert (H2b : Print NoProcessedData ∉ pipeline_start ++ t1 ++ t2).
  { rewrite app_assoc. apply not_elem_of_app. split; [exact H1b|].
    now apply (not_in_events _ _ _ Hev2). }
  destruct r2 as [[]|e]; [|now split|now split].
  destruct Hr2 as [p Hp].
  pose proof (load_with_data env default_db_path _ _ Hp) as Hno3.
  destruct (load_cases env default_db_path s2) as (b & s3 & t3 & El & Hev3 & _).
  rewrite El in Hno3 |- *. cbn [fst snd] in *.
  rewrite !app_assoc, <- (app_assoc _ t1 t2). split.
  - apply not_elem_of_app. split; [|not_listed].
    apply not_elem_of_app. split; [exact H2a|].
    now apply (not_in_events _ _ _ Hev3).
  - apply not_elem_of_app. split; [|not_listed].
    apply not_elem_of_app. now split.
Qed.

(** X16: a run that never prints [Transformed n records]
    leaves every database file as it was and issues no database
    operation, and it does not return success. *)
Theorem database_untouched_unless_transformed s r s' evs :
  run_etl_pipeline env s = (r, s', evs) ->
  (forall n, Print (TransformedRecords n) ∉ evs) ->
  disk s' = disk s /\ existsb is_db_event evs = false /\ r <> Ok true.
Proof.
  rewrite run_eq.
  destruct (extract env (started s)) as [[r1 s1] t1] eqn:He.
  pose proof (extract_events _ _ _ _ _ He) as Hev1.
  pose proof (extract_disk _ _ _ _ _ He) as Hd1.
  pose proof (none_of_events _ _ _ Hev1 extract_event_not_db) as Hdb1.
  assert (Hdb : forall t2, existsb is_db_event t2 = false ->
            existsb is_db_event (pipeline_start ++ t1 ++ t2) = false).
  { intros t2 H2. rewrite !existsb_app, Hdb1, H2. reflexivity. }
  destruct r1 as [[]|e].
  2,3: intros [= <- <- <-] _; split; [exact Hd1|]; split; [|discriminate];
       rewrite <- (app_nil_r t1); now apply Hdb.
  destruct (transform env s1) as [[r2 s2] t2] eqn:Ht.
  pose proof (transform_events _ _ _ _ _ Ht) as Hev2.
  pose proof (transform_disk _ _ _ _ _ Ht) as Hd2.
  pose proof (none_of_events _ _ _ Hev2 transform_event_not_db) as Hdb2.
  destruct r2 as [[]|e].
  2,3: intros [= <- <- <-] _; split; [now rewrite Hd2|];
       split; [|discriminate]; now apply Hdb.
  apply transform_ok_state in Ht as (_ & raw & sel & df & _ & _ & _ & _ & _ & ->).
  assert (Hin : forall rest,
    Print (TransformedRecords (len df)) ∈
      pipeline_start ++ t1 ++
      [Call Transform; Print (AvailableColumns (columns raw));
       Print (TransformedRecords (len df))] ++ rest).
  { intros rest. apply elem_of_app. right. apply elem_of_app. right.
    apply elem_of_app. left.
    do 2 (apply elem_of_cons; right). apply elem_of_cons. now left. }
  destruct (load_cases env default_db_path s2) as (b & s3 & t3 & -> & _).
  intros [= <- <- <-] Hnone. exfalso. exact (Hnone _ (Hin _)).
Qed.

(** X17: an exception that leaves a run was raised by transform,
    after a successful extract: the last line printed is the list of
    available columns, no failure is reported, load is not called and
    the database is untouched. *)
Theorem run_escaping_exceptions s e s' evs :
  run_etl_pipeline env s = (Raise e, s', evs) ->
  (exists s1 t1 t2,
     extract env (started s) = (Ok true, s1, t1) /\
     transform env s1 = (Raise e, s', t2) /\
     evs = pipeline_start ++ t1 ++ t2) /\
  (exists names, last evs = Some (Print (AvailableColumns names))) /\
  (Call Load ∉ evs) /\
  disk s' = disk s /\
  existsb is_db_event evs = false.
Proof.
  rewrite run_eq.
  destruct (extract env (started s)) as [[r1 s1] t1] eqn:He.
  pose proof (extract_events _ _ _ _ _ He) as Hev1.
  pose proof (extract_disk _ _ _ _ _ He) as Hd1.
  pose proof (none_of_events _ _ _ Hev1 extract_event_not_db) as Hdb1.
  destruct (extract_returns _ _ _ _ _ He) as [[] ->]; [|easy].
  destruct (extract_true_inv _ _ _ _ He) as [raw ->].
  destruct (transform env _) as [[r2 s2] t2] eqn:Ht.
  pose proof (transform_disk _ _ _ _ _ Ht) as Hd2.
  destruct (transform_with_data _ _ _ _ _ _ (extracted_frame _ _) Ht)
    as [_ Hr2].
  destruct r2 as [[]|e2]; [|easy|].
  - destruct (load_cases env default_db_path s2) as (b & s3 & t3 & -> & _).
    easy.
  - destruct Hr2 as [Hu ->].
    assert (Hlast :
      last (pipeline_start ++ t1 ++
            [Call Transform; Print (AvailableColumns (columns raw))])
      = Some (Print (AvailableColumns (columns raw)))).
    { change [Call Transform; Print (AvailableColumns (columns raw))]
        with ([Call Transform] ++ [Print (AvailableColumns (columns raw))]).
      rewrite !app_assoc. apply last_snoc. }
    assert (Hdb :
      existsb is_db_event
        (pipeline_start ++ t1 ++
         [Call Transform; Print (AvailableColumns (columns raw))]) = false).
    { rewrite !existsb_app, Hdb1. reflexivity. }
    assert (Hload :
      Call Load ∉
        pipeline_start ++ t1 ++
        [Call Transform; Print (AvailableColumns (columns raw))]).
    { apply not_elem_of_app. split; [not_listed|].
      apply not_elem_of_app. split; [|not_listed].
      now apply (not_in_events _ _ _ Hev1). }
    intros [= <- <- <-].
    split; [eauto 10|]. split; [|split; [|split]].
    + exists (columns raw). exact Hlast.
    + exact Hload.
    + now rewrite Hd2.
    + exact Hdb.
Qed.

(** X18: main sends its requests to the vaccinations CSV of Our
    World in Data and to no other address, whatever the state of the
    world before; it returns nothing, or fails with one of the exceptions
    of the unguarded statements of transform. *)
Theorem main_requests_only_the_dataset s :
  (HttpGet main_url ∈ (main env s).2) /\
  (forall e, e ∈ (main env s).2 -> is_request e = true ->
     e = HttpGet main_url \/ e = CsvGet main_url) /\
  ((main env s).1.1 = Ok tt \/
   exists e, (main env s).1.1 = Raise e /\ unhandled e = true).
Proof.
  rewrite main_eq.
  destruct (run_etl_pipeline env (init main_url s)) as [[r s'] evs] eqn:Hrun.
  apply run_events in Hrun
    as (r1 & s1 & t1 & t2 & t3 & t4 & He & -> & H2 & H3 & H4 & Hr).
  apply extract_requests in He as [Hget Honly]. cbn [url started set_clock_reads init] in *.
  assert (Hall : forall e,
    e ∈ pipeline_start ++ t1 ++ t2 ++ t3 ++ t4 -> is_request e = true ->
    e = HttpGet main_url \/ e = CsvGet main_url).
  { intros e Hin Hreq.
    apply elem_of_app in Hin as [Hin|Hin].
    { repeat (apply elem_of_cons in Hin as [->|Hin]; [discriminate Hreq|]).
      now apply elem_of_nil in Hin. }
    apply elem_of_app in Hin as [Hin|Hin]; [now apply Honly|].
    apply elem_of_app in Hin as [Hin|Hin].
    { rewrite (transform_event_not_request _ (in_events _ _ _ H2 Hin)) in Hreq.
      discriminate. }
    apply elem_of_app in Hin as [Hin|Hin].
    { rewrite (load_event_not_request _ (in_events _ _ _ H3 Hin)) in Hreq.
      discriminate. }
    pose proof (in_events _ _ _ H4 Hin) as Hn. cbv beta in Hn.
    rewrite Hreq in Hn.
    discriminate. }
  assert (Hin : HttpGet main_url ∈ pipeline_start ++ t1 ++ t2 ++ t3 ++ t4).
  { apply elem_of_app. right. apply elem_of_app. now left. }
  destruct Hr as [->|[->|(e & -> & Hu)]]; cbn [fst snd]; eauto 10.
Qed.

End RunFacts.

Lemma extract_reports env s b s' t :
  extract env s = (Ok b, s', t) -> reports b t.
Proof.
  rewrite extract_eq. cbv zeta.
  destruct (server env _ _) as [r1|].
  2:{ intros [= <- _ <-]. now exists [Call Extract; HttpGet (url s)], (ExtractionError ConnectionError). }
  destruct (error_status _).
  { intros [= <- _ <-].
    now exists [Call Extract; HttpGet (url s)],
               (ExtractionError (HTTPError (status_code r1))). }
  destruct (server env _ _) as [r2|].
  2:{ intros [= <- _ <-].
      now exists [Call Extract; HttpGet (url s); CsvGet (url s)],
                 (ExtractionError ConnectionError). }
  destruct (success_status _).
  2:{ intros [= <- _ <-].
      now exists [Call Extract; HttpGet (url s); CsvGet (url s)],
                 (ExtractionError (HTTPError (status_code r2))). }
  destruct (parse_csv env _) as [df|]; intros [= <- _ <-]; [reflexivity|].
  now exists [Call Extract; HttpGet (url s); CsvGet (url s)],
             (ExtractionError ParserError).
Qed.

Lemma transform_reports env s b s' t :
  transform env s = (Ok b, s', t) -> reports b t.
Proof.
  destruct (transform_cases env s)
    as [[_ ->]|[(r0 & _ & _ & ->)|(r0 & raw & Hr & Hh)]]; [| easy |].
  { intros [= <- _ <-]. now exists [Call Transform], NoDataToTransform. }
  rewrite (transform_eq _ _ _ _ Hr Hh).
  destruct (select required_columns raw) as [sel|e].
  2:{ intros [= <- _ <-].
      now exists [Call Transform; Print (AvailableColumns (columns raw));
                  Print (MissingColumn e)], CheckColumnName. }
  destruct (process_frame env sel) as [[[]|e] df]; [|easy].
  now intros [= <- _ <-].
Qed.

Lemma load_reports env path s b s' t :
  load env path s = (Ok b, s', t) -> reports b t.
Proof.
  destruct (processed_data s) as [p|] eqn:Hp.
  2:{ rewrite (load_no_data _ _ _ Hp). intros [= <- _ <-].
      now exists [Call Load], NoProcessedData. }
  destruct (can_open env path) eqn:Hopen.
  2:{ rewrite (load_cannot_open _ _ _ _ Hp Hopen). intros [= <- _ <-].
      now exists [Call Load; DbConnect path],
        (LoadingError (OperationalError "unable to open database file")). }
  destruct (heap s !! p) as [df|] eqn:Hh.
  2:{ rewrite (load_dangling _ _ _ _ Hp Hh Hopen). intros [= <- _ <-].
      now exists [Call Load; DbConnect path], (LoadingError ReferenceError). }
  rewrite (load_eq _ _ _ _ _ Hp Hh Hopen).
  destruct (replace_table _ _ _) as [db1|e].
  2:{ intros [= <- _ <-].
      now exists [Call Load; DbConnect path;
                  DbReplaceTable path "vaccination_data" (len df)],
                 (LoadingError e). }
  destruct (insert_rows _ _ _) as [db2|e].
  2:{ intros [= <- _ <-].
      now exists [Call Load; DbConnect path;
                  DbReplaceTable path "vaccination_data" (len df)],
                 (LoadingError e). }
  destruct (create_index _ _ _ _) as [db3|e]; intros [= <- _ <-];
    [reflexivity|].
  now exists [Call Load; DbConnect path;
              DbReplaceTable path "vaccination_data" (len df);
              DbCreateIndex path "idx_location_date"],
             (LoadingError e).
Qed.

Lemma quiet_not_failure t msg :
  forallb quiet t = true -> Print msg ∈ t -> failure_message msg = false.
Proof.
  intros Hall Hin. pose proof (in_events _ _ _ Hall Hin) as H.
  now apply negb_true_iff in H.
Qed.

Section Reports.

Variable env : Env.

(** X19: the result of a run and its output agree: a run that
    returns success has printed no failure line, and a run that returns
    failure has printed one, as its last line or followed only by the
    duration report. *)
Theorem run_result_matches_output s b s' evs :
  run_etl_pipeline env s = (Ok b, s', evs) ->
  (b = true ->
   forall msg, Print msg ∈ evs -> failure_message msg = false) /\
  (b = false ->
   exists front msg,
     failure_message msg = true /\
     (evs = front ++ [Print msg] \/
      exists d,
        evs = front ++ [Print msg; ClockRead; Print (PipelineCompleted d)])).
Proof.
  rewrite run_eq.
  destruct (extract env (started s)) as [[[b1|e1] s1] t1] eqn:He; [|easy].
  apply extract_reports in He.
  destruct b1.
  2:{ intros [= <- _ <-]. split; [easy|]. intros _.
      destruct He as (front & msg & Hm & ->).
      exists (pipeline_start ++ front), msg. split; [exact Hm|]. left.
      now rewrite <- app_assoc. }
  destruct (transform env s1) as [[[b2|e2] s2] t2] eqn:Ht; [|easy].
  apply transform_reports in Ht.
  destruct b2.
  2:{ intros [= <- _ <-]. split; [easy|]. intros _.
      destruct Ht as (front & msg & Hm & ->).
      exists (pipeline_start ++ t1 ++ front), msg. split; [exact Hm|]. left.
      now rewrite <- !app_assoc. }
  destruct (load env default_db_path s2) as [[[b3|e3] s3] t3] eqn:Hl; [|easy].
  apply load_reports in Hl.
  intros [= <- _ <-]. split.
  - intros ->. intros msg Hin.
    apply (quiet_not_failure
             (pipeline_start ++ t1 ++ t2 ++ t3 ++
              [ClockRead;
               Print (PipelineCompleted
                        (clock env (clock_reads s3)
                         - clock env (clock_reads s)))])); [|exact Hin].
    cbn in He, Ht, Hl. rewrite !forallb_app, He, Ht, Hl. reflexivity.
  - intros ->. destruct Hl as (front & msg & Hm & ->).
    exists (pipeline_start ++ t1 ++ t2 ++ front), msg. split; [exact Hm|].
    right. eexists. now rewrite <- !app_assoc.
Qed.

End Reports.

(** * The further properties on the sample data *)

Lemma sample_failed_load_eq :
  load sample_env default_db_path sample_with_index =
    (Ok false, sample_failed_load.1.2, sample_failed_load.2).
Proof. vm_compute. reflexivity. Defined.

Lemma sample_with_index_processed :
  processed_data sample_with_index = Some 2%nat /\
  heap sample_with_index !! 2%nat = Some sample_processed.
Proof. split; vm_compute; reflexivity. Defined.

Lemma sample_gone_eq :
  run_etl_pipeline sample_env (fresh_state "/gone") =
    (Ok false, (sample_pipeline "/gone").1.2, (sample_pipeline "/gone").2).
Proof. vm_compute. reflexivity. Defined.

(** The load that fails on the index has connected and not closed. *)
Lemma load_closes_only_on_success_witness :
  load sample_env default_db_path sample_with_index =
    (Ok false, sample_failed_load.1.2, sample_failed_load.2) /\
  (DbConnect default_db_path ∈ sample_failed_load.2) /\
  (DbClose default_db_path ∉ sample_failed_load.2).
Proof.
  split; [exact sample_failed_load_eq|].
  destruct (load_closes_only_on_success sample_env _ _ _ _ _
              sample_failed_load_eq) as (_ & Hno & Hconn).
  split; [|exact (Hno eq_refl default_db_path)].
  apply (Hconn eq_refl); [|reflexivity].
  rewrite (proj1 sample_with_index_processed). discriminate.
Defined.


(** The columns of the processed sample, and of its table. *)
Lemma processed_schema_witness :
  transform sample_env (state_with_raw sample_raw) =
    (Ok true, sample_transformed.1.2, sample_transformed.2) /\
  processed_frame sample_transformed.1.2 = Some sample_processed /\
  columns sample_processed = processed_columns /\
  exists tb,
    tables (database_at default_db_path sample_loaded.1.2)
      !! "vaccination_data" = Some tb /\
    t_columns tb = processed_columns /\
    length (t_rows tb) = len sample_processed.
Proof.
  split; [exact sample_transformed_eq|].
  split; [exact sample_transformed_frame|].
  destruct (processed_schema sample_env _ _ _ _
              sample_transformed_eq sample_transformed_frame) as [Hc Hl].
  split; [exact Hc|]. exact (Hl _ _ _ sample_loaded_eq).
Defined.

Lemma transform_keeps_alignment_witness :
  transform sample_env (state_with_raw sample_raw) =
    (Ok true, sample_transformed.1.2, sample_transformed.2) /\
  aligned sample_raw /\ aligned sample_processed.
Proof.
  assert (Hal : aligned sample_raw) by (repeat constructor).
  split; [exact sample_transformed_eq|]. split; [exact Hal|].
  exact (transform_keeps_alignment sample_env _ _ _ _ _
           sample_transformed_eq sample_raw_frame sample_transformed_frame
           Hal).
Defined.

(** A missing date and the text [NaT] both end as NaT. *)
Lemma dates_are_timestamps_witness :
  transform sample_env (state_with_raw sample_undated) =
    (Ok true, sample_undated_transformed.1.2,
     sample_undated_transformed.2) /\
  raw_frame (state_with_raw sample_undated) = Some sample_undated /\
  processed_frame sample_undated_transformed.1.2
    = Some sample_undated_processed /\
  cell_at sample_undated_processed "date" 0 = Some CNaT /\
  is_timestamp CNaT = true /\
  exists j c0,
    source_row sample_undated 0 = Some j /\
    cell_at sample_undated "date" j = Some c0 /\
    (isna c0 = true -> isna CNaT = true).
Proof.
  assert (Ht : transform sample_env (state_with_raw sample_undated) =
    (Ok true, sample_undated_transformed.1.2,
     sample_undated_transformed.2)) by (vm_compute; reflexivity).
  assert (Hraw : raw_frame (state_with_raw sample_undated)
                 = Some sample_undated) by (vm_compute; reflexivity).
  assert (Hout : processed_frame sample_undated_transformed.1.2
                 = Some sample_undated_processed)
    by (vm_compute; reflexivity).
  split; [exact Ht|]. split; [exact Hraw|]. split; [exact Hout|].
  split; [reflexivity|].
  exact (dates_are_timestamps sample_env _ _ _ _ _ 0%nat CNaT
           Ht Hraw Hout eq_refl).
Defined.

Lemma location_and_population_passed_through_witness :
  transform sample_env (state_with_raw sample_raw) =
    (Ok true, sample_transformed.1.2, sample_transformed.2) /\
  cell_at sample_processed "population" 1 =
    match source_row sample_raw 1 with
    | Some j => cell_at sample_raw "population" j
    | None => None
    end.
Proof.
  split; [exact sample_transformed_eq|].
  exact (proj2 (location_and_population_passed_through sample_env _ _ _ _ _
                  1%nat sample_transformed_eq sample_raw_frame
                  sample_transformed_frame)).
Defined.

Lemma rate_from_raw_values_witness :
  transform sample_env (state_with_raw sample_raw) =
    (Ok true, sample_transformed.1.2, sample_transformed.2) /\
  numeric_columns sample_raw = true /\
  source_row sample_raw 0 = Some 0%nat /\
  cell_at sample_raw "people_fully_vaccinated" 0 = Some (CNum 50) /\
  cell_at sample_raw "population" 0 = Some (CNum 1000) /\
  cell_at sample_processed "vaccination_rate" 0 =
    Some (CNum (if uncomputable 50 1000 then 0
                else np_round 2 (50 / 1000 * 100))).
Proof.
  split; [exact sample_transformed_eq|]. split; [reflexivity|].
  split; [reflexivity|]. split; [reflexivity|]. split; [reflexivity|].
  exact (rate_from_raw_values sample_env _ _ _ _ _ 0%nat 0%nat
           (CNum 50) (CNum 1000) 50%float 1000%float
           sample_transformed_eq sample_raw_frame eq_refl
           sample_transformed_frame eq_refl eq_refl eq_refl eq_refl eq_refl).
Defined.

(** Five people of a population of zero, as integers: the rate is
    infinite. *)
Lemma division_by_zero_gives_infinity_witness :
  raw_frame (state_with_raw sample_zero_population)
    = Some sample_zero_population /\
  select required_columns sample_zero_population
    = Ok sample_zero_population /\
  numeric_counts sample_zero_population = true /\
  to_datetime sample_env [CStr "2021-01-01"] = Ok [CTime 20210101] /\
  cell_at sample_zero_population "people_fully_vaccinated" 0
    = Some (CInt 5) /\
  cell_at sample_zero_population "population" 0 = Some (CInt 0) /\
  exists s' evs out r,
    transform sample_env (state_with_raw sample_zero_population)
      = (Ok true, s', evs) /\
    processed_frame s' = Some out /\
    cell_at out "vaccination_rate" 0 = Some (CNum r) /\
    is_infinity r = true.
Proof.
  assert (Hraw : raw_frame (state_with_raw sample_zero_population)
                 = Some sample_zero_population) by (vm_compute; reflexivity).
  split; [exact Hraw|]. split; [reflexivity|]. split; [reflexivity|].
  split; [reflexivity|]. split; [reflexivity|]. split; [reflexivity|].
  destruct (division_by_zero_gives_infinity sample_env _ _ _
              [CStr "2021-01-01"] [CTime 20210101]
              Hraw eq_refl eq_refl eq_refl eq_refl)
    as (s' & evs & out & Ht & Hout & Hrow).
  destruct (Hrow 0%nat 0%nat (CInt 5) (CInt 0) (of_Z 5) (of_Z 0)
              eq_refl eq_refl eq_refl eq_refl eq_refl
              eq_refl eq_refl eq_refl)
    as (r & Hr & Hinf).
  exists s', evs, out, r. auto.
Defined.


(** After the date [yesterday] the selection is what load would
    write. *)
Lemma failed_transform_leaves_selection_witness :
  transform sample_env (state_with_raw sample_bad_date) =
    (Raise (DateParseError "yesterday"),
     sample_bad_date_transformed.1.2, sample_bad_date_transformed.2) /\
  processed_frame sample_bad_date_transformed.1.2
    = Some sample_bad_date_selected /\
  exists s2 t2,
    load sample_env default_db_path sample_bad_date_transformed.1.2
      = (Ok true, s2, t2) /\
    tables (database_at default_db_path s2) !! "vaccination_data"
      = Some (table_of sample_bad_date_selected).
Proof.
  assert (Ht : transform sample_env (state_with_raw sample_bad_date) =
    (Raise (DateParseError "yesterday"),
     sample_bad_date_transformed.1.2, sample_bad_date_transformed.2))
    by (vm_compute; reflexivity).
  split; [exact Ht|].
  destruct (failed_transform_leaves_selection sample_env
              _ _ sample_bad_date_selected
              [CStr "2021-01-01"; CStr "yesterday"] _ _ _
              sample_bad_date_frame eq_refl eq_refl eq_refl Ht)
    as (Hf & _ & _ & Hl).
  split; [exact Hf|]. exact (Hl default_db_path eq_refl eq_refl eq_refl).
Defined.

(** The run against the URL that answers 404. *)
Lemma database_untouched_unless_transformed_witness :
  run_etl_pipeline sample_env (fresh_state "/gone") =
    (Ok false, (sample_pipeline "/gone").1.2, (sample_pipeline "/gone").2) /\
  existsb is_transformed_report (sample_pipeline "/gone").2 = false /\
  disk (sample_pipeline "/gone").1.2 = disk (fresh_state "/gone") /\
  existsb is_db_event (sample_pipeline "/gone").2 = false.
Proof.
  assert (Hall : forallb (fun e => negb (is_transformed_report e))
                   (sample_pipeline "/gone").2 = true)
    by (vm_compute; reflexivity).
  assert (Hnone : forall n,
            Print (TransformedRecords n) ∉ (sample_pipeline "/gone").2).
  { intros n.
    exact (not_in_events _ _ (Print (TransformedRecords n)) Hall eq_refl). }
  split; [exact sample_gone_eq|]. split; [vm_compute; reflexivity|].
  destruct (database_untouched_unless_transformed sample_env _ _ _ _
              sample_gone_eq Hnone) as (Hd & Hdb & _).
  split; [exact Hd | exact Hdb].
Defined.

(** The run on the sample with the date [yesterday]. *)
Lemma run_escaping_exceptions_witness :
  run_etl_pipeline sample_env (fresh_state "/bad-date") =
    (Raise (DateParseError "yesterday"),
     (sample_pipeline "/bad-date").1.2, (sample_pipeline "/bad-date").2) /\
  (exists names,
     last (sample_pipeline "/bad-date").2
       = Some (Print (AvailableColumns names))) /\
  (Call Load ∉ (sample_pipeline "/bad-date").2) /\
  existsb is_db_event (sample_pipeline "/bad-date").2 = false.
Proof.
  assert (Hrun : run_etl_pipeline sample_env (fresh_state "/bad-date") =
    (Raise (DateParseError "yesterday"),
     (sample_pipeline "/bad-date").1.2, (sample_pipeline "/bad-date").2))
    by (vm_compute; reflexivity).
  split; [exact Hrun|].
  destruct (run_escaping_exceptions sample_env _ _ _ _ Hrun)
    as (_ & Hlast & Hload & _ & Hdb).
  split; [exact Hlast|]. split; [exact Hload | exact Hdb].
Defined.

(** The run against the URL that answers 404 ends on a failure line. *)
Lemma run_result_matches_output_witness :
  run_etl_pipeline sample_env (fresh_state "/gone") =
    (Ok false, (sample_pipeline "/gone").1.2, (sample_pipeline "/gone").2) /\
  exists front msg,
    failure_message msg = true /\
    ((sample_pipeline "/gone").2 = front ++ [Print msg] \/
     exists d,
       (sample_pipeline "/gone").2
         = front ++ [Print msg; ClockRead; Print (PipelineCompleted d)]).
Proof.
  split; [exact sample_gone_eq|].
  exact (proj2 (run_result_matches_output sample_env _ _ _ _ sample_gone_eq)
           eq_refl).
Defined.

(** * The arithmetic of other dtypes, on samples *)

(** One person of 20000 in a column of Python ints: the rate is
    Python's round(0.005, 2), which is 0.01, where the rounding of a
    float64 column gives 0. *)
Example rate_of_object_column :
  exists s' evs out,
    transform sample_env (state_with_raw sample_large_population)
      = (Ok true, s', evs) /\
    processed_frame s' = Some out /\
    cell_at out "vaccination_rate" 0 = Some (CNum 0x1.47ae147ae147bp-7) /\
    np_round 2 (of_Z 1 / of_Z 20000 * 100) = 0%float.
Proof. do 3 eexists. vm_compute. repeat split; reflexivity. Qed.

(** A population of zero in a column of Python ints: the division
    raises, and the exception leaves transform. *)
Example zero_division_of_objects :
  exists s' evs,
    transform sample_env (state_with_raw sample_zero_objects)
      = (Raise ZeroDivisionError, s', evs).
Proof. do 2 eexists. vm_compute. reflexivity. Qed.

(** Two bool columns are not divided. *)
Example division_of_booleans :
  exists s' evs,
    transform sample_env (state_with_raw sample_booleans)
      = (Raise NotImplementedError, s', evs).
Proof. do 2 eexists. vm_compute. reflexivity. Qed.

(** A population of 2^63 is transformed, and load fails on it: the
    error is printed, the new table is there and empty, and the
    connection is not closed. *)
Example load_of_unsigned :
  sample_unsigned_transformed.1.1 = Ok true /\
  exists s' evs,
    load sample_env default_db_path sample_unsigned_transformed.1.2
      = (Ok false, s', evs) /\
    last evs = Some (Print (LoadingError OverflowError)) /\
    tables (database_at default_db_path s') !! "vaccination_data"
      = Some {| t_columns := processed_columns; t_rows := [] |} /\
    existsb (fun e => match e with DbClose _ => true | _ => false end) evs
      = false.
Proof.
  split; [vm_compute; reflexivity|].
  do 2 eexists. vm_compute. repeat split; reflexivity.
Qed.
